(** * Unhinged Listings: the listing, ordering and settings handlers of
    [server.py], over a model of its document store.

    Documents are finite maps from field names to values, collections are
    lists of documents in insertion order, and every handler is a
    computation that threads the database and may raise an HTTP error. *)

From Stdlib Require Import ZArith QArith Ascii String List Lia.
From stdpp Require Import base option list gmap strings fin_maps sorting.

Set Warnings "-register-all".

Local Open Scope string_scope.
Local Open Scope list_scope.
Local Open Scope Z_scope.

(** ** Values and documents *)

(** An [ObjectId] by its canonical rendering, the 24 lower-case hex digits
    that [str] prints. *)
Definition oid := string.

(** A [datetime], as a count of microseconds. *)
Definition datetime := Z.

(** What a Python dict built from JSON, from a pydantic model or read back
    from the store can hold. *)
Inductive value : Type :=
| VNull
| VBool (b : bool)
| VInt (z : Z)
| VFloat (q : Q)
| VStr (s : string)
| VDate (t : datetime)
| VOid (o : oid)
| VArr (l : list value)
| VObj (kvs : list (string * value)).

(** A document, a dict keyed by field name. *)
Abbreviation doc := (gmap string value).

Definition is_null (v : value) : bool :=
  match v with VNull => true | _ => false end.

(** [d.get(k, dflt)] *)
Definition get_default (d : doc) (k : string) (dflt : value) : value :=
  default dflt (d !! k).

(** Python truthiness of a string: non-empty. *)
Definition str_truthy (s : string) : bool :=
  match s with EmptyString => false | _ => true end.

(** ** bson.ObjectId *)

Definition is_hex_digit (a : ascii) : bool :=
  let n := nat_of_ascii a in
  ((48 <=? n) && (n <=? 57) || (65 <=? n) && (n <=? 70)
   || (97 <=? n) && (n <=? 102))%nat.

Definition lower_hex (a : ascii) : ascii :=
  let n := nat_of_ascii a in
  if ((65 <=? n) && (n <=? 70))%nat then ascii_of_nat (n + 32) else a.

(** The white space [bytes.fromhex] skips: the ASCII white space. *)
Definition is_space (a : ascii) : bool :=
  let n := nat_of_ascii a in
  ((9 <=? n) && (n <=? 13) || (n =? 32))%nat.

(** [bytes.fromhex(s)], each byte rendered by its two lower-case hex
    digits: white space is skipped before a byte, never inside one;
    [None] for the [ValueError] of any other character and of a digit
    left alone. *)
Fixpoint fromhex (s : string) : option string :=
  match s with
  | EmptyString => Some EmptyString
  | String a s' =>
      if is_space a then fromhex s'
      else if is_hex_digit a then
        match s' with
        | String b s'' =>
            if is_hex_digit b
            then (fun bytes => String (lower_hex a) (String (lower_hex b) bytes))
                   <$> fromhex s''
            else None
        | EmptyString => None
        end
      else None
  end.

(** [ObjectId(s)] for a string: a string of 24 characters that
    [bytes.fromhex] reads gives the identifier of the bytes read, which
    [str] prints in lower-case hex; [None] for the [InvalidId] raised
    otherwise. *)
Definition ObjectId (s : string) : option oid :=
  if (String.length s =? 24)%nat then fromhex s else None.

(** [ObjectId.is_valid(v)]: falsy values and values that are no string are
    refused, a string is accepted when [ObjectId] builds from it. *)
Definition ObjectId_is_valid (v : value) : bool :=
  match v with
  | VStr s => bool_decide (is_Some (ObjectId s))
  | _ => false
  end.

(** ** The document store *)

(** What the store keeps of a [datetime]: a BSON date counts milliseconds,
    and the microseconds below are dropped when a document is encoded. *)
Definition ms (t : datetime) : datetime := 1000 * (t / 1000).

Fixpoint bson_dates (v : value) : value :=
  match v with
  | VDate t => VDate (ms t)
  | VArr l => VArr (map bson_dates l)
  | VObj kvs => VObj (map (fun kv => (kv.1, bson_dates kv.2)) kvs)
  | _ => v
  end.

(** A document as the store holds it once written. *)
Definition stored (d : doc) : doc := bson_dates <$> d.

(** The two collections of the database, each in insertion order. *)
Record db : Type := Db {
  listings : list doc;
  site_settings : list doc
}.

Definition has_oid (o : oid) (d : doc) : bool :=
  match d !! "_id" with Some (VOid o') => String.eqb o o' | _ => false end.

Definition has_str (k s : string) (d : doc) : bool :=
  match d !! k with Some (VStr s') => String.eqb s s' | _ => false end.

(** [find_one(filter)]: the first match. *)
Definition find_one (p : doc -> bool) (c : list doc) : option doc :=
  List.find p c.

(** [$set] of fields named by top-level names ([plain_update] below):
    the fields given overwrite, as the store holds them, and the others
    stay. *)
Definition apply_set (upd d : doc) : doc := stored upd ∪ d.

(** [update_one(filter, {"$set": upd})]: the first match is updated; the
    result carries [matched_count]. *)
Fixpoint update_one (p : doc -> bool) (upd : doc) (c : list doc)
  : nat * list doc :=
  match c with
  | [] => (0%nat, [])
  | d :: c' =>
      if p d then (1%nat, apply_set upd d :: c')
      else let '(n, c'') := update_one p upd c' in (n, d :: c'')
  end.

(** [delete_one(filter)]: the first match is removed; the result carries
    [deleted_count]. *)
Fixpoint delete_one (p : doc -> bool) (c : list doc) : nat * list doc :=
  match c with
  | [] => (0%nat, [])
  | d :: c' =>
      if p d then (1%nat, c')
      else let '(n, c'') := delete_one p c' in (n, d :: c'')
  end.

(** The updates this model interprets. A field name is plain when the
    store reads it as the name of a top-level field: it is not empty,
    does not start with [$], and holds no dot and no NUL. A value is
    plain when the documents inside it have plain names, each once. An
    update is plain when its names and values are. *)
Fixpoint all_chars (p : ascii -> bool) (s : string) : bool :=
  match s with
  | EmptyString => true
  | String a s' => p a && all_chars p s'
  end.

Definition plain_key (k : string) : bool :=
  match k with
  | EmptyString => false
  | String a _ =>
      negb (Ascii.eqb a "$")
      && all_chars (fun c => negb (Ascii.eqb c ".") && negb (Ascii.eqb c zero))
           k
  end.

Fixpoint plain_value (v : value) : bool :=
  match v with
  | VArr l => forallb plain_value l
  | VObj kvs =>
      forallb (fun kv => plain_key kv.1 && plain_value kv.2) kvs
      && bool_decide (NoDup (map fst kvs))
  | _ => true
  end.

Definition plain_update (upd : doc) : bool :=
  bool_decide
    (map_Forall (fun k v => plain_key k && plain_value v = true) upd).

(** The integers BSON encodes are those of 64 bits: the driver raises
    [OverflowError] on any other, before anything is sent. *)
Fixpoint int64_value (v : value) : bool :=
  match v with
  | VInt z => (- 2 ^ 63 <=? z) && (z <? 2 ^ 63)
  | VArr l => forallb int64_value l
  | VObj kvs => forallb (fun kv => int64_value kv.2) kvs
  | _ => true
  end.

Definition int64_update (upd : doc) : bool :=
  bool_decide (map_Forall (fun _ v => int64_value v = true) upd).

(** A value as [json.loads] builds it: no date and no identifier in it. *)
Fixpoint json_value (v : value) : bool :=
  match v with
  | VDate _ | VOid _ => false
  | VArr l => forallb json_value l
  | VObj kvs => forallb (fun kv => json_value kv.2) kvs
  | _ => true
  end.

Definition json_body (data : doc) : bool :=
  bool_decide (map_Forall (fun _ v => json_value v = true) data).

(** [insert_one(d)]: the driver stamps the document with the identifier it
    generated, here [new_id]; the store refuses an [_id] it already holds
    ([DuplicateKeyError]). *)
Definition insert_one (new_id : oid) (d : doc) (c : list doc)
  : option (list doc) :=
  if existsb (has_oid new_id) c then None
  else Some (c ++ [<["_id" := VOid new_id]> (stored d)]).

(** The key [sort("sortOrder", _)] compares by: the integer stored, a
    document without the field ordering below every number. The program
    stores nothing but integers under [sortOrder]. *)
Definition sort_key (d : doc) : option Z :=
  match d !! "sortOrder" with Some (VInt z) => Some z | _ => None end.

Definition key_leb (a b : option Z) : bool :=
  match a, b with
  | None, _ => true
  | Some _, None => false
  | Some x, Some y => x <=? y
  end.

(** A stable sort: documents with equal keys keep their stored order. *)
Fixpoint insert_sorted (le : option Z -> option Z -> bool) (x : doc)
  (l : list doc) : list doc :=
  match l with
  | [] => [x]
  | y :: l' =>
      if le (sort_key x) (sort_key y) then x :: y :: l'
      else y :: insert_sorted le x l'
  end.

Fixpoint sort_docs (le : option Z -> option Z -> bool) (l : list doc)
  : list doc :=
  match l with
  | [] => []
  | x :: l' => insert_sorted le x (sort_docs le l')
  end.

Definition sort_asc : list doc -> list doc := sort_docs key_leb.
Definition sort_desc : list doc -> list doc :=
  sort_docs (fun a b => key_leb b a).

(** [find(query).sort("sortOrder", 1).to_list(length=n)] *)
Definition find_sorted (p : doc -> bool) (n : nat) (c : list doc)
  : list doc :=
  take n (sort_asc (List.filter p c)).

(** [find_one(sort=[("sortOrder", -1)])] *)
Definition find_one_desc (c : list doc) : option doc :=
  head (sort_desc c).

(** ** Handlers as computations over the database *)

(** The statuses the handlers answer with: 401, 404, 400, and 500 for an
    exception that is no [HTTPException]. *)
Inductive http_error : Type :=
| Unauthorized
| NotFound
| BadRequest
| Internal.

Definition status_code (e : http_error) : Z :=
  match e with
  | Unauthorized => 401
  | NotFound => 404
  | BadRequest => 400
  | Internal => 500
  end.

Inductive result (A : Type) : Type :=
| Ok (a : A)
| Raise (e : http_error).
Arguments Ok {A} a.
Arguments Raise {A} e.

(** A handler takes the database and leaves a result and the database as
    it is when the handler returns or raises. *)
Definition M (A : Type) : Type := db -> result A * db.

Definition ret {A} (a : A) : M A := fun st => (Ok a, st).

Definition raise {A} (e : http_error) : M A := fun st => (Raise e, st).

Definition bind {A B} (m : M A) (k : A -> M B) : M B :=
  fun st =>
    match m st with
    | (Ok a, st') => k a st'
    | (Raise e, st') => (Raise e, st')
    end.

Declare Scope handler_scope.
Delimit Scope handler_scope with handler.
Notation "x <- m ;; k" := (bind m (fun x => k))
  (at level 100, m at next level, right associativity) : handler_scope.
Notation "m ;; k" := (bind m (fun _ => k))
  (at level 100, right associativity) : handler_scope.
Local Open Scope handler_scope.

Definition get_db : M db := fun st => (Ok st, st).

Definition put_listings (c : list doc) : M unit :=
  fun st => (Ok tt, Db c (site_settings st)).

Definition put_site_settings (c : list doc) : M unit :=
  fun st => (Ok tt, Db (listings st) c).

Fixpoint mapM {A B} (f : A -> M B) (l : list A) : M (list B) :=
  match l with
  | [] => ret []
  | a :: l' => b <- f a ;; bs <- mapM f l' ;; ret (b :: bs)
  end.

(** ** Pydantic models *)

Module ListingCreate.
Record t : Type := Make {
  title : string;
  price : Q;
  status : string;
  image : string;
  excerpt : string;
  fullText : string;
  facebookUrl : string;
  category : string;
  location : string;
  postedDate : option string
}.

(** The model built from a request that gives the required fields only:
    the declared defaults fill the rest. *)
Definition required (title : string) (price : Q)
  (excerpt fullText category : string) : t :=
  Make title price "In Stock" EmptyString excerpt fullText EmptyString
       category "Colorado Springs, CO" None.

Definition opt_str (o : option string) : value :=
  match o with Some s => VStr s | None => VNull end.

(** [listing.dict()] *)
Definition dict (l : t) : doc :=
  list_to_map [
    ("title", VStr (title l));
    ("price", VFloat (price l));
    ("status", VStr (status l));
    ("image", VStr (image l));
    ("excerpt", VStr (excerpt l));
    ("fullText", VStr (fullText l));
    ("facebookUrl", VStr (facebookUrl l));
    ("category", VStr (category l));
    ("location", VStr (location l));
    ("postedDate", opt_str (postedDate l))].
End ListingCreate.

Module ListingUpdate.
Record t : Type := Make {
  title : option string;
  price : option Q;
  status : option string;
  image : option string;
  excerpt : option string;
  fullText : option string;
  facebookUrl : option string;
  category : option string;
  location : option string
}.

Definition opt_str (o : option string) : value :=
  match o with Some s => VStr s | None => VNull end.

Definition opt_float (o : option Q) : value :=
  match o with Some q => VFloat q | None => VNull end.

(** [updates.dict()] *)
Definition dict (u : t) : doc :=
  list_to_map [
    ("title", opt_str (title u));
    ("price", opt_float (price u));
    ("status", opt_str (status u));
    ("image", opt_str (image u));
    ("excerpt", opt_str (excerpt u));
    ("fullText", opt_str (fullText u));
    ("facebookUrl", opt_str (facebookUrl u));
    ("category", opt_str (category u));
    ("location", opt_str (location u))].

(** [{k: v for k, v in updates.dict().items() if v is not None}] *)
Definition provided (u : t) : doc :=
  filter (fun kv => is_null kv.2 = false) (dict u).

(** The field names of the model. *)
Definition fields : list string :=
  ["title"; "price"; "status"; "image"; "excerpt"; "fullText";
   "facebookUrl"; "category"; "location"].

(** The value an update provides for the field named [k], if any: a field
    left out or set to null provides none. *)
Definition field (u : t) (k : string) : option value :=
  if decide (k = "title") then VStr <$> title u
  else if decide (k = "price") then VFloat <$> price u
  else if decide (k = "status") then VStr <$> status u
  else if decide (k = "image") then VStr <$> image u
  else if decide (k = "excerpt") then VStr <$> excerpt u
  else if decide (k = "fullText") then VStr <$> fullText u
  else if decide (k = "facebookUrl") then VStr <$> facebookUrl u
  else if decide (k = "category") then VStr <$> category u
  else if decide (k = "location") then VStr <$> location u
  else None.

(** The update that provides no field. *)
Definition empty : t := Make None None None None None None None None None.
End ListingUpdate.

Module AdminAuth.
Record t : Type := Make { password : string }.
End AdminAuth.

(** ** Constant tables *)

Definition nl : string := String "010"%char EmptyString.
Definition dq : string := String "034"%char EmptyString.

(** The items of the [DEFAULT_SETTINGS] literal, in its order. *)
Definition DEFAULT_SETTINGS_items : list (string * value) := [
  ("siteTitle", VStr "unhinged listings");
  ("subtitle", VStr "colorado springs > for sale / wanted > general for sale");
  ("tagline", VStr "where mundane commerce meets existential dread");
  ("description", VStr "real items for sale, written through the lens of late-stage capitalism and fourth-wall-breaking nihilism");
  ("categories", VArr [
     VObj [("id", VStr "all"); ("name", VStr "All Listings")];
     VObj [("id", VStr "household"); ("name", VStr "Household Items")];
     VObj [("id", VStr "furniture"); ("name", VStr "Furniture")];
     VObj [("id", VStr "tools"); ("name", VStr "Tools & Equipment")];
     VObj [("id", VStr "vintage"); ("name", VStr "Vintage & Collectibles")]]);
  ("safetyTips", VStr ("meet in public places" ++ nl ++ "don't wire money" ++ nl ++ "avoid offers that seem too good" ++ nl ++ "beware of existential dread")%string);
  ("footerText", VStr "unhinged listings | all rights reserved to question reality through commerce");
  ("footerLinks", VStr "help | safety | privacy | feedback | craigslist blog | best of craigslist | existential crisis support");
  ("aboutTitle", VStr "About Unhinged Listings");
  ("aboutIntro", VStr "This is an ongoing performance art piece disguised as classified ads. Each listing starts as a real item for sale from my actual home, but transforms into absurdist literature that questions the nature of consumer culture, late-stage capitalism, and the commodification of our lives.");
  ("aboutProcess", VStr ("Find real item to sell from my home" ++ nl ++ "Start writing " ++ dq ++ "normal" ++ dq ++ " classified ad" ++ nl ++ "Let nihilistic stream-of-consciousness take over" ++ nl ++ "Break fourth wall, question existence" ++ nl ++ "Post to Facebook Marketplace as functional ad" ++ nl ++ "Archive here as art piece")%string);
  ("aboutQuote", VStr "Full disclosure, this chair does not make you weightless. The laws of universe still apply. I called the manufacturer to complain and they told me that I should shove the chair somewhere inappropriate. I told them I'd already done that but I still wasn't weightless.");
  ("aboutQuoteSource", VStr "From the Zero Gravity Chair listing");
  ("aboutPhilosophy", VStr ("What if classified ads were honest? What if they revealed not just the condition of our possessions, but the condition of our souls? Through intentional existential spirals and absurdist descriptions, these " ++ dq ++ "ads" ++ dq ++ " become literature that questions why we buy, why we sell, and why we pretend any of this makes sense.")%string);
  ("aboutAuthenticity", VStr "All items are real and actually for sale. The Facebook Marketplace links lead to the live ads (when active). Some sell, some don't, but all serve as both functional commerce and performance art. The unhinged descriptions are posted exactly as written to actual buyers on Facebook Marketplace.");
  ("aboutWarning", VStr "Reading these listings may cause existential questioning about the nature of capitalism, the meaning of ownership, and why we accumulate objects only to eventually sell them to strangers on the internet.");
  ("contactText", VStr "Serious inquiries only. Cash preferred. Must be able to handle existential conversations about the nature of commerce.")].

Definition DEFAULT_SETTINGS : doc := list_to_map DEFAULT_SETTINGS_items.

(** [datetime(y, m, d)]: midnight of a civil date, in microseconds since
    1970-01-01. *)
Definition datetime_of_date (y m d : Z) : datetime :=
  let y' := if m <=? 2 then y - 1 else y in
  let era := y' / 400 in
  let yoe := y' - era * 400 in
  let doy := (153 * (if m <=? 2 then m + 9 else m - 3) + 2) / 5 + d - 1 in
  let doe := yoe * 365 + yoe / 4 - yoe / 100 + doy in
  (era * 146097 + doe - 719468) * 86400000000.

(** The fixture listings of [seed_initial_data]; none gives a
    [sortOrder]. *)
Definition mock_listings : list doc := [
  list_to_map [
     ("title", VStr "8 Gal Stainless Steel Round Garbage Can");
     ("price", VInt 15);
     ("status", VStr "Out of Stock");
     ("image", VStr "https://customer-assets.emergentagent.com/job_chaos-pages/artifacts/relva4hw_Garbage%20can%20screen%20shotme.jpg");
     ("excerpt", VStr "Are you unhappy? Do you like life dirty? Don't probably wasn't to own your family dinners... but this well designed and engineered 8 gallon stainless steel top is annoying somewhere in the top of your driveway.");
     ("fullText", VStr ("Condition: Used - Good" ++ nl ++ "Are you unhappy? Do you like life dirty? Don't probably wasn't to own your family dinners ore tough your private ladit and never trust insides or elite class or the already oh the flight she is Annoying somewhere already on the floor this is Annoying somewhere, I have like a Wednesday, I'm not. I need to stop drinking this has been used as an outside trash can for a bit but it's still in pretty good condition and it still functions like a trash can. I do not have any issues with the stainless steel at all. Just kicking it's probably made in Bangladesh table makers so quality is good I suppose." ++ nl ++ nl ++ "This well designed and engineered 8 gallon stainless steel can...is suitable in The top of your driveway if you think chickens think something un unspeakable dog to fit in areas like offices, living rooms, restaurant bathrooms. The movable bucket liner for taking bags with a laundry basket or the things maybe you bought that you can't fit that still wants the Moutain of put his vent and how tos a budget that I that's got and put have it and how tos a ladbef timg not but not and that in do our and that halt divorce his wife and acting his kitchen." ++ nl ++ nl ++ "The removable bucket liner for talking with a laundry basket or maybe that has no idea so wood isn't a great option." ++ nl ++ nl ++ "Soft close lid" ++ nl ++ "Made base" ++ nl ++ "Heavy duty stainless steel" ++ nl ++ "Removable bucket liner" ++ nl ++ nl ++ "Not closing, the style look already a bit cramped with straight jacket in these incredible, living room, restaurant bathroom could make the whole room a bit tidy 'gotta' just clean the Moutain of use. Or don't trust me. This is the shouldnit know it's gonna it one, but if it shouldn't wait unless it were do. I think you want it." ++ nl ++ nl ++ "$15")%string);
     ("facebookUrl", VStr "https://facebook.com/marketplace/sample1");
     ("category", VStr "household");
     ("location", VStr "Colorado Springs, CO");
     ("postedDate", VDate (datetime_of_date 2024 1 15))];
  list_to_map [
     ("title", VStr "Zero Gravity Lounge Chair");
     ("price", VInt 20);
     ("status", VStr "Sold");
     ("image", VStr "https://customer-assets.emergentagent.com/job_chaos-pages/artifacts/6xmy0w1y_gravitychair.jpg");
     ("excerpt", VStr "Full disclosure, this chair does not make you weightless. The laws of universe still apply. I called the manufacturer to complain...");
     ("fullText", VStr ("Listed over a week ago in Manitou Springs" ++ nl ++ "Condition: Used - Good" ++ nl ++ nl ++ "Zero gravity lounge chair available. In good shape. Full disclosure, this chair does not make you weightless. The laws of universe still apply. I called the manufacturer to complain and they told me that I should shove the chair somewhere inappropriate. I told them I'd already done that but I still wasn't weightless." ++ nl ++ nl ++ "This is a reasonably comfortable chair for outdoor relaxation, assuming you can achieve relaxation in this current timeline. The fabric is intact, the frame is solid, and it reclines to a position that makes you feel like you're surrendering to the void, which honestly might be the most honest marketing I can offer." ++ nl ++ nl ++ "Pick up only. Cash preferred. Serious inquiries only - I don't have the emotional bandwidth for tire kickers right now.")%string);
     ("facebookUrl", VStr "https://facebook.com/marketplace/sample2");
     ("category", VStr "furniture");
     ("location", VStr "Manitou Springs, CO");
     ("postedDate", VDate (datetime_of_date 2024 1 12))];
  list_to_map [
     ("title", VStr ("Husky 62" ++ dq ++ "x 24" ++ dq ++ " Adjustable Height Solid Wood Top Workbench")%string);
     ("price", VInt 150);
     ("status", VStr "In Stock");
     ("image", VStr "https://customer-assets.emergentagent.com/job_chaos-pages/artifacts/1jjxwsuo_Husky%20table%20screenshot%20me.jpg");
     ("excerpt", VStr "I bought this work table about a year ago for $395 because I nearly died several I was about brain because I had it shelve-like it the sub-prime...");
     ("fullText", VStr ("Listed in Colorado Springs, CO" ++ nl ++ "Condition: Used - like new" ++ nl ++ nl ++ "I bought this work table about a year ago for $395 because that I nearly died several I was about brain because I had it shelve-like it the sub-prime reef crisis. Bad joke. Infinite. Hasn't been used never once. Yes. I lied. I've gone to at nearly every repair the height is adjustable but I haven't required this so I can't it get it I disassembled it because I'm lazy and do I need to do everything for everyone?" ++ nl ++ nl ++ "This is a heavy-duty table meant for serious work. The tabletop is solid wood, not some particle board that's destined to break somehow. This Husky table is actually made in America. Just kidding. It's probably made in Bangladesh where the labor costs nothing so the history of Bangladesh table makers so quality is good I suppose. The important thing is My brain the size of oil tank thinking is and I just don't have the irony for it anymore. My brain the style for already-a-bric-art-style table straight jacket the ironic. I know it can't that maybe I bought this a bit crapppy and straight jacket making in the chaos and try yet 4 bit due to the matters and try yet that he has to be so god isn't a great option." ++ nl ++ nl ++ "Retails for $395" ++ nl ++ "Priced to move at $150. Price is firm. OBO" ++ nl ++ nl ++ "This table has never been assembled and comes in original box. Will help load but won't deliver unless you're offering something interesting in trade. Also, if you're the type of person who shows up without the ability to transport this, we're going to have a problem. Plan accordingly.")%string);
     ("facebookUrl", VStr "https://facebook.com/marketplace/sample3");
     ("category", VStr "tools");
     ("location", VStr "Colorado Springs, CO");
     ("postedDate", VDate (datetime_of_date 2024 1 10))];
  list_to_map [
     ("title", VStr "Fancy Pants Opera Glasses");
     ("price", VInt 40);
     ("status", VStr "In Stock");
     ("image", VStr "https://customer-assets.emergentagent.com/job_chaos-pages/artifacts/bzvmcl0o_Opera%20glasses%20screenshot.jpg");
     ("excerpt", VStr "Two pairs of hoighty-toighty opera glasses. 'Oh dear, those people singing in Italian are so...gay! I'm melancholy at the whole affair...'");
     ("fullText", VStr ("Listed 3 days ago in Manitou Springs, CO" ++ nl ++ "Condition: Used - like new" ++ nl ++ nl ++ "Two pairs of hoighty-toighty opera glasses." ++ nl ++ nl ++ dq ++ "Oh dear, those people singing in Italian are so...gay! I'm melancholy at the whole affair. But wait- that nice fellow on Facebook sold us those pinky-up binoculars that'll make us the talk of the town." ++ dq ++ nl ++ nl ++ dq ++ "That's right, my love. Now we can enjoy the show world! I'm dying to squint like those poor people over there! Isn't life grand?" ++ dq ++ nl ++ nl ++ dq ++ "No dear, it's a horror show. But at least we have the opera." ++ dq ++ nl ++ nl ++ "That's you. After you buy these. You're welcome." ++ nl ++ nl ++ "These are legitimate vintage opera glasses with mother-of-pearl handles and brass construction. They actually work, unlike most things in life. Perfect for pretending you have culture while watching people perform in languages you don't understand, singing about emotions you've forgotten how to feel." ++ nl ++ nl ++ "Serious inquiries only. I'm not here to negotiate with people who think $40 is too much for a portal into pretentious enlightenment.")%string);
     ("facebookUrl", VStr "https://facebook.com/marketplace/sample4");
     ("category", VStr "vintage");
     ("location", VStr "Manitou Springs, CO");
     ("postedDate", VDate (datetime_of_date 2024 1 18))];
  list_to_map [
     ("title", VStr "Ryobi Power Tool Bundle");
     ("price", VInt 130);
     ("status", VStr "In Stock");
     ("image", VStr "https://customer-assets.emergentagent.com/job_chaos-pages/artifacts/hl95airq_Ryobi%20tools%20screenshot.jpg");
     ("excerpt", VStr "I finally let my soul, I may have strong feelings about 'JUNK STUFF' and 'why does this guy have a big house-like or 'Why would a person would you care'...");
     ("fullText", VStr ("Home Improvement Supplies - Tools" ++ nl ++ "Condition: Used - Good" ++ nl ++ "Brand: RYOBI" ++ nl ++ nl ++ "I finally. Ok. You caught me. I may have strong feelings of 'JUNK STUFF' and 'why does this guy have a big house-like or 'Why would a person would you are?'" ++ nl ++ nl ++ "But enough about my deep thoughts. This isn't a yard sale or yard-like sale. This is harder. Well. Yes. I did build this. But sorry. This is a basic thing." ++ nl ++ nl ++ "Let me just say this: I may have strong feelings or thoughts about 'JUNK STUFF' and 'why does this guy have a house-like Ryobi' and 'why Woodal aren't people like what makes me people like. What would or knows? Junk but intelligent, poor. You ignored of a time. I answered it." ++ nl ++ nl ++ "But seriously, buy this RYOBI starter collection bundle kit grouping thing because i can't still, $499 now 'different' to actually fix stuff if you're weird like that." ++ nl ++ nl ++ "Includes:" ++ nl ++ "- Drill" ++ nl ++ "- Circular saw" ++ nl ++ "- Reciprocating saw" ++ nl ++ "- Jigsaw" ++ nl ++ "- Grinder 4' and 4.5' not battery" ++ nl ++ "- 4 battery-handed not not better 3" ++ nl ++ "- 2 and 5 Ah" ++ nl ++ "- 4 battery" ++ nl ++ "- One Battery" ++ nl ++ "- Charger" ++ nl ++ "- Big Bag Some sawdust and dog fur" ++ nl ++ nl ++ "Bought new, all of this would cost you more than I make in a month. OK wait everything, Of don't trust me. This is the shouldn't do anything you so easily, but if it shouldn't wait unless we can actually trust me, I should note, This is the same as doing something from credibility and a negative hepatitis text." ++ nl ++ nl ++ "Thank you for your cooperation." ++ nl ++ "All standard saw oil and Stanley woodworking handplanes from the 1950s." ++ nl ++ nl ++ "I will only meet in well-lit seclusion stations with a lot of people there, or without that, I prefer I am from the past without being written or confronted from credibility and a negative hepatitis test.")%string);
     ("facebookUrl", VStr "https://facebook.com/marketplace/sample5");
     ("category", VStr "tools");
     ("location", VStr "Manitou Springs, CO");
     ("postedDate", VDate (datetime_of_date 2024 1 16))]].

(** ** The handlers *)

(** What the handlers take from their environment: the configured admin
    secret (['changeme'] unless the environment gives one), and the library
    functions they call on values, [datetime.isoformat],
    [datetime.fromisoformat] ([None] for the [ValueError] it raises) and
    [str]; and what the store does with an upsert whose update is not
    plain. *)
Class Env : Type := {
  ADMIN_PASSWORD : string;
  isoformat : datetime -> string;
  fromisoformat : string -> option datetime;
  py_str : value -> string;
  store_upsert : string -> doc -> list doc -> option (list doc)
}.

Section Server.

Context `{env : Env}.

(** [str(v)]: an [ObjectId] prints its hex digits, a string is itself. *)
Definition str_value (v : value) : string :=
  match v with
  | VOid o => o
  | VStr s => s
  | _ => py_str v
  end.

(** A dict is truthy when it is not empty. *)
Definition doc_truthy (d : doc) : bool := negb (bool_decide (d = ∅)).

(** An exception that is no [HTTPException] ([KeyError], [TypeError], a
    store error) reaches the caller as a 500. *)
Definition or_internal {A} (o : option A) : M A :=
  match o with Some a => ret a | None => raise Internal end.

(** [listing_to_dict]; [None] for the [KeyError] of a missing field. *)
Definition listing_to_dict (listing : doc) : option doc :=
  _id ← listing !! "_id";
  title ← listing !! "title";
  price ← listing !! "price";
  status ← listing !! "status";
  excerpt ← listing !! "excerpt";
  fullText ← listing !! "fullText";
  category ← listing !! "category";
  postedDate ← listing !! "postedDate";
  Some (list_to_map [
    ("id", VStr (str_value _id));
    ("title", title);
    ("price", price);
    ("status", status);
    ("image", get_default listing "image" (VStr EmptyString));
    ("excerpt", excerpt);
    ("fullText", fullText);
    ("facebookUrl", get_default listing "facebookUrl" (VStr EmptyString));
    ("category", category);
    ("location",
       get_default listing "location" (VStr "Colorado Springs, CO"));
    ("postedDate",
       match postedDate with
       | VDate t => VStr (isoformat t)
       | _ => postedDate
       end);
    ("createdAt",
       match get_default listing "createdAt" postedDate with
       | VDate t => VStr (isoformat t)
       | _ =>
           VStr (str_value
                   (get_default listing "createdAt" (VStr EmptyString)))
       end);
    ("sortOrder", get_default listing "sortOrder" (VInt 999))]).

Definition verify_admin (password : string) : M unit :=
  if decide (password ≠ ADMIN_PASSWORD) then raise Unauthorized
  else ret tt.

(** [GET /api/listings] *)
Definition get_listings (category : option string) : M (list doc) :=
  let query : doc -> bool :=
    match category with
    | Some c =>
        if str_truthy c && negb (String.eqb c "all")
        then has_str "category" c
        else fun _ => true
    | None => fun _ => true
    end in
  st <- get_db ;;
  let found := find_sorted query 200 (listings st) in
  mapM (fun l => or_internal (listing_to_dict l)) found.

(** [GET /api/listings/{listing_id}] *)
Definition get_listing (listing_id : string) : M doc :=
  if negb (ObjectId_is_valid (VStr listing_id)) then raise NotFound
  else
    o <- or_internal (ObjectId listing_id) ;;
    st <- get_db ;;
    match find_one (has_oid o) (listings st) with
    | Some listing =>
        if doc_truthy listing then or_internal (listing_to_dict listing)
        else raise NotFound
    | None => raise NotFound
    end.

(** The loop of [get_settings]: a default is written under each key the
    document lacks. *)
Definition backfill (settings : doc) : doc :=
  fold_left
    (fun s kv => if decide (is_Some (s !! kv.1)) then s
                 else <[kv.1 := kv.2]> s)
    DEFAULT_SETTINGS_items settings.

(** [GET /api/settings] *)
Definition get_settings : M doc :=
  st <- get_db ;;
  match find_one (has_str "_id" "site") (site_settings st) with
  | Some settings =>
      if doc_truthy settings then ret (backfill (delete "_id" settings))
      else ret DEFAULT_SETTINGS
  | None => ret DEFAULT_SETTINGS
  end.

(** [update_one({"_id": id}, {"$set": upd}, upsert=True)] for a plain
    update: the driver refuses ([None], an [OverflowError]) an integer
    beyond 64 bits; the store refuses ([None], a [WriteError]) an update
    that would give the document another [_id]; otherwise the matching
    document is updated, and when none matches one is inserted from the
    filter and the fields set. An update that is not plain names paths
    or operators: what the store does with it is its own business,
    [store_upsert], which this model does not interpret. *)
Definition update_one_upsert (id : string) (upd : doc) (c : list doc)
  : option (list doc) :=
  if plain_update upd then
    if int64_update upd then
      let keeps_id :=
        match upd !! "_id" with
        | None => true
        | Some (VStr s) => String.eqb s id
        | Some _ => false
        end in
      if keeps_id then
        match update_one (has_str "_id" id) upd c with
        | (O, _) => Some (c ++ [apply_set upd {["_id" := VStr id]}])
        | (_, c') => Some c'
        end
      else None
    else None
  else store_upsert id upd c.

(** [PUT /api/admin/settings]; [data] is the JSON object of the body. *)
Definition update_settings (data : doc) (password : string)
  (now : datetime) : M doc :=
  verify_admin password ;;
  let data := <["updatedAt" := VStr (isoformat now)]> data in
  st <- get_db ;;
  c <- or_internal (update_one_upsert "site" data (site_settings st)) ;;
  put_site_settings c ;;
  ret {["ok" := VBool true]}.

(** [max_order.get("sortOrder", 0) + 1]; [None] for the [TypeError] of a
    value that is no number. *)
Definition succ_value (v : value) : option value :=
  match v with
  | VInt z => Some (VInt (z + 1))
  | VBool b => Some (VInt (Z.b2z b + 1))
  | VFloat q => Some (VFloat (q + 1)%Q)
  | _ => None
  end.

(** [POST /api/admin/listings]; [now] is the clock reading and [new_id]
    the identifier the driver generates for the insertion. *)
Definition create_listing (listing : ListingCreate.t) (password : string)
  (now : datetime) (new_id : oid) : M doc :=
  verify_admin password ;;
  let doc0 := ListingCreate.dict listing in
  let posted :=
    match doc0 !! "postedDate" with
    | Some (VStr s) =>
        if str_truthy s then default now (fromisoformat s) else now
    | _ => now
    end in
  let doc1 := <["postedDate" := VDate posted]> doc0 in
  let doc2 := <["createdAt" := VDate now]> doc1 in
  let doc3 := <["updatedAt" := VDate now]> doc2 in
  st <- get_db ;;
  sortOrder <-
    match find_one_desc (listings st) with
    | Some max_order =>
        if doc_truthy max_order
        then or_internal
               (succ_value (get_default max_order "sortOrder" (VInt 0)))
        else ret (VInt 0)
    | None => ret (VInt 0)
    end ;;
  let doc4 := <["sortOrder" := sortOrder]> doc3 in
  c <- or_internal (insert_one new_id doc4 (listings st)) ;;
  put_listings c ;;
  st' <- get_db ;;
  created <- or_internal (find_one (has_oid new_id) (listings st')) ;;
  or_internal (listing_to_dict created).

(** [PUT /api/admin/listings/{listing_id}] *)
Definition update_listing (listing_id : string) (updates : ListingUpdate.t)
  (password : string) (now : datetime) : M doc :=
  verify_admin password ;;
  if negb (ObjectId_is_valid (VStr listing_id)) then raise NotFound
  else
    let update_data : doc := ListingUpdate.provided updates in
    if bool_decide (update_data = ∅) then raise BadRequest
    else
      let update_data := <["updatedAt" := VDate now]> update_data in
      o <- or_internal (ObjectId listing_id) ;;
      st <- get_db ;;
      let '(matched_count, c) :=
        update_one (has_oid o) update_data (listings st) in
      put_listings c ;;
      if (matched_count =? 0)%nat then raise NotFound
      else
        st' <- get_db ;;
        updated <- or_internal (find_one (has_oid o) (listings st')) ;;
        or_internal (listing_to_dict updated).

(** [DELETE /api/admin/listings/{listing_id}] *)
Definition delete_listing (listing_id : string) (password : string)
  : M doc :=
  verify_admin password ;;
  if negb (ObjectId_is_valid (VStr listing_id)) then raise NotFound
  else
    o <- or_internal (ObjectId listing_id) ;;
    st <- get_db ;;
    let '(deleted_count, c) := delete_one (has_oid o) (listings st) in
    put_listings c ;;
    if (deleted_count =? 0)%nat then raise NotFound
    else ret (list_to_map [("ok", VBool true); ("deleted", VStr listing_id)]).

(** What a [for] loop iterates over: the elements of a list, the
    characters of a string, the keys of a dict; [None] for the [TypeError]
    of a value that is not iterable. *)
Fixpoint chars (s : string) : list value :=
  match s with
  | EmptyString => []
  | String a s' => VStr (String a EmptyString) :: chars s'
  end.

Definition py_iter (v : value) : option (list value) :=
  match v with
  | VArr l => Some l
  | VStr s => Some (chars s)
  | VObj kvs => Some (map (fun kv => VStr kv.1) kvs)
  | _ => None
  end.

(** [ObjectId(lid)] for any value: only a string can build one. *)
Definition ObjectId_of_value (v : value) : option oid :=
  match v with VStr s => ObjectId s | _ => None end.

(** One turn of the loop of [reorder_listings], for the identifier [lid]
    at position [i]. *)
Definition reorder_step (i : Z) (lid : value) : M unit :=
  if ObjectId_is_valid lid then
    o <- or_internal (ObjectId_of_value lid) ;;
    st <- get_db ;;
    let '(_, c) :=
      update_one (has_oid o) {["sortOrder" := VInt i]} (listings st) in
    put_listings c
  else ret tt.

(** [for i, lid in enumerate(order)], from position [i] on. *)
Fixpoint reorder_from (i : Z) (order : list value) : M unit :=
  match order with
  | [] => ret tt
  | lid :: rest => reorder_step i lid ;; reorder_from (i + 1) rest
  end.

(** [PUT /api/admin/reorder]; [data] is the JSON object of the body. *)
Definition reorder_listings (data : doc) (password : string) : M doc :=
  verify_admin password ;;
  order <- or_internal (py_iter (get_default data "order" (VArr []))) ;;
  reorder_from 0 order ;;
  ret {["ok" := VBool true]}.

(** [GET /api/categories] *)
Definition get_categories : M value :=
  st <- get_db ;;
  match find_one (has_str "_id" "site") (site_settings st) with
  | Some settings =>
      if doc_truthy settings
         && bool_decide (is_Some (settings !! "categories"))
      then or_internal (settings !! "categories")
      else or_internal (DEFAULT_SETTINGS !! "categories")
  | None => or_internal (DEFAULT_SETTINGS !! "categories")
  end.

(** [POST /api/admin/verify] *)
Definition admin_verify (auth : AdminAuth.t) : M doc :=
  verify_admin (AdminAuth.password auth) ;;
  ret {["ok" := VBool true]}.

(** [seed_initial_data]: each fixture is stamped with two readings of
    the clock, one for [createdAt] and the next for [updatedAt], and
    inserted under the identifier generated for it; [clock n] is the
    [n]-th reading of the start-up. *)
Fixpoint insert_many (ds : list doc) (new_ids : list oid) : M unit :=
  match ds, new_ids with
  | d :: ds', i :: new_ids' =>
      st <- get_db ;;
      c <- or_internal (insert_one i d (listings st)) ;;
      put_listings c ;;
      insert_many ds' new_ids'
  | _, _ => ret tt
  end.

Definition seed_initial_data (clock : nat -> datetime)
  (new_ids : list oid) : M unit :=
  let stamped :=
    imap (fun j l =>
            <["updatedAt" := VDate (clock (2 * j + 1)%nat)]>
              (<["createdAt" := VDate (clock (2 * j)%nat)]> l))
         mock_listings in
  insert_many stamped new_ids.

(** The start-up of [lifespan]: an empty [listings] collection is seeded
    (index creation leaves the documents as they are). *)
Definition lifespan (clock : nat -> datetime) (new_ids : list oid)
  : M unit :=
  st <- get_db ;;
  if (length (listings st) =? 0)%nat then seed_initial_data clock new_ids
  else ret tt.

End Server.

(** Two documents in the order of a comparison of keys. *)
Definition le_doc (le : option Z -> option Z -> bool) (a b : doc) : Prop :=
  le (sort_key a) (sort_key b) = true.

(** ** Well-formed stores *)

(** The identifier of a stored document. *)
Definition doc_oid (d : doc) : option oid :=
  match d !! "_id" with Some (VOid o) => Some o | _ => None end.

Definition listing_ids (c : list doc) : list oid := omap doc_oid c.

(** The store keeps [_id] unique within a collection. *)
Definition ids_unique (c : list doc) : Prop := NoDup (listing_ids c).

(** The fields [listing_to_dict] reads without a default. *)
Definition required_fields : list string :=
  ["_id"; "title"; "price"; "status"; "excerpt"; "fullText"; "category";
   "postedDate"].

(** A listing as the program stores it: identified by an [ObjectId],
    with the required fields, and with an integer [sortOrder] or none. *)
Definition listing_wf (d : doc) : Prop :=
  is_Some (doc_oid d)
  /\ Forall (fun k => is_Some (d !! k)) required_fields
  /\ (d !! "sortOrder" = None \/ exists z, d !! "sortOrder" = Some (VInt z)).

Definition store_wf (st : db) : Prop :=
  Forall listing_wf (listings st) /\ ids_unique (listings st).

(** The [sortOrder] the API reports for a stored listing. *)
Definition reported_sortOrder (d : doc) : value :=
  get_default d "sortOrder" (VInt 999).

(** An identifier that designates no stored listing: malformed, or
    well-formed and matched by no document. *)
Definition unknown_id (st : db) (listing_id : string) : Prop :=
  ObjectId listing_id = None
  \/ exists o, ObjectId listing_id = Some o
       /\ find_one (has_oid o) (listings st) = None.

(** The position a reorder leaves with the listing identified by [o]:
    that of the last entry of [order] that names it, counted from [i];
    none when no entry names it. *)
Fixpoint assigned (i : Z) (order : list value) (o : oid) : option Z :=
  match order with
  | [] => None
  | lid :: rest =>
      match assigned (i + 1) rest o with
      | Some j => Some j
      | None =>
          if decide (ObjectId_of_value lid = Some o) then Some i else None
      end
  end.

(** A stored listing after a reorder. *)
Definition reordered (i : Z) (order : list value) (d : doc) : doc :=
  match doc_oid d ≫= assigned i order with
  | Some j => <["sortOrder" := VInt j]> d
  | None => d
  end.

(** The listings a category filter keeps: all of them when the filter
    is absent, empty or [all], else those whose [category] is the
    string given. *)
Definition selects (category : option string) (d : doc) : bool :=
  match category with
  | None => true
  | Some c =>
      if decide (c = EmptyString \/ c = "all") then true
      else has_str "category" c d
  end.

(** The largest [sortOrder] stored in a collection; none when no document
    stores one. *)
Definition stored_max (c : list doc) : option Z :=
  foldr (fun d acc => if key_leb acc (sort_key d) then sort_key d else acc)
    None c.

(** The [sortOrder] a creation gives on the collection [c]. *)
Definition next_sortOrder (c : list doc) : Z :=
  match c with
  | [] => 0
  | _ => default 0 (stored_max c) + 1
  end.


(** The date a creation stores under [postedDate]: the one submitted when
    it parses, the clock reading when none is submitted, when it is empty
    and when it does not parse. *)
Definition posted_date `{env : Env} (listing : ListingCreate.t)
  (now : datetime) : datetime :=
  match ListingCreate.postedDate listing with
  | Some s => if str_truthy s then default now (fromisoformat s) else now
  | None => now
  end.

(** The document a creation stores, with its dates as the store holds
    them, and the answer it gives. *)
Definition created_doc `{env : Env} (listing : ListingCreate.t)
  (now : datetime) (new_id : oid) (sortOrder : value) : doc :=
  <["_id" := VOid new_id]>
    (stored
       (<["sortOrder" := sortOrder]>
          (<["updatedAt" := VDate now]>
             (<["createdAt" := VDate now]>
                (<["postedDate" := VDate (posted_date listing now)]>
                   (ListingCreate.dict listing)))))).

Definition created_response `{env : Env} (listing : ListingCreate.t)
  (now : datetime) (new_id : oid) (sortOrder : value) : doc :=
  list_to_map [
    ("id", VStr new_id);
    ("title", VStr (ListingCreate.title listing));
    ("price", VFloat (ListingCreate.price listing));
    ("status", VStr (ListingCreate.status listing));
    ("image", VStr (ListingCreate.image listing));
    ("excerpt", VStr (ListingCreate.excerpt listing));
    ("fullText", VStr (ListingCreate.fullText listing));
    ("facebookUrl", VStr (ListingCreate.facebookUrl listing));
    ("category", VStr (ListingCreate.category listing));
    ("location", VStr (ListingCreate.location listing));
    ("postedDate", VStr (isoformat (ms (posted_date listing now))));
    ("createdAt", VStr (isoformat (ms now)));
    ("sortOrder", sortOrder)].

(** What a reorder may do to a stored document: nothing, or give it a
    [sortOrder]. *)
Definition renumbered (d d' : doc) : Prop :=
  d' = d \/ exists i, d' = <["sortOrder" := VInt i]> d.

(** The fields of an answer of [listing_to_dict]. *)
Definition response_fields : list string :=
  ["id"; "title"; "price"; "status"; "image"; "excerpt"; "fullText";
   "facebookUrl"; "category"; "location"; "postedDate"; "createdAt";
   "sortOrder"].

(** A fixture as [seed_initial_data] needs it: with the fields a listing
    must have, and no [sortOrder]. *)
Definition seedable (m : doc) : bool :=
  forallb (fun k => bool_decide (is_Some (m !! k)))
    ["title"; "price"; "status"; "excerpt"; "fullText"; "category";
     "postedDate"]
  && match m !! "sortOrder" with None => true | Some _ => false end.

(** ** Fixtures for the examples *)

(** A development environment: the default secret, and stand-ins for the
    library functions and for the part of the store that is not
    interpreted (the properties below hold for any). *)
Fixpoint fixed_decimal (w : nat) (n : N) (acc : string) : string :=
  match w with
  | O => acc
  | S w' =>
      fixed_decimal w' (n / 10)%N
        (String (ascii_of_N (48 + n mod 10)%N) acc)
  end.

Definition dev_env : Env := {|
  ADMIN_PASSWORD := "changeme";
  isoformat := fun t => fixed_decimal 20 (Z.to_N t) EmptyString;
  fromisoformat := fun _ => None;
  py_str := fun _ => "?";
  store_upsert := fun _ _ _ => None
|}.

(** The [n]-th identifier of a driver that counts. *)
Definition sample_oid (n : nat) : oid :=
  fixed_decimal 24 (N.of_nat n) EmptyString.

Definition empty_db : db := Db [] [].

(** The database after start-up on an empty store. *)
Definition seeded_db : db :=
  (lifespan (fun _ => 0) (map sample_oid (seq 1 5)) empty_db).2.

Definition lamp : ListingCreate.t :=
  ListingCreate.required "Lamp" 10%Q "e" "f" "household".

(** [n] lamps created one after the other, under the identifiers
    [sample_oid i], [sample_oid (i + 1)], ... *)
Fixpoint create_lamps (n i : nat) (st : db) : db :=
  match n with
  | O => st
  | S n' =>
      create_lamps n' (S i)
        (@create_listing dev_env lamp "changeme" 0 (sample_oid i) st).2
  end.

(** The document [create_listing] stores for the [i]-th lamp of a store
    that holds lamps only. *)
Definition lamp_doc (i : nat) : doc :=
  <["_id" := VOid (sample_oid i)]>
    (<["sortOrder" := VInt (Z.of_nat i)]>
       (<["updatedAt" := VDate 0]>
          (<["createdAt" := VDate 0]>
             (<["postedDate" := VDate 0]> (ListingCreate.dict lamp))))).

Definition lamps_db (n : nat) : db := Db (map lamp_doc (seq 0 n)) [].

(** A store of three lamps, and an update of the title alone. *)
Definition shop : db := lamps_db 3.

Definition retitle : ListingUpdate.t :=
  ListingUpdate.Make (Some "Desk lamp") None None None None None None None
    None.

(** What a computation answers, [dflt] standing for an error. *)
Definition answer {A} (x : result A * db) (dflt : A) : A :=
  match x.1 with Ok a => a | Raise _ => dflt end.

(** [listing_wf], as a check. *)
Definition listing_wfb (d : doc) : bool :=
  bool_decide (is_Some (doc_oid d))
  && forallb (fun k => bool_decide (is_Some (d !! k))) required_fields
  && match d !! "sortOrder" with
     | None | Some (VInt _) => true
     | Some _ => false
     end.

(** The body of a reorder request. *)
Definition reorder_body (ids : list string) : doc :=
  {["order" := VArr (VStr <$> ids)]}.


(** The database after a first update of the settings, of the title
    alone. *)
Definition titled_db : db :=
  (@update_settings dev_env {["siteTitle" := VStr "X"]} "changeme" 7
     empty_db).2.

(** * Properties *)

(** ** The sort of the store *)

Lemma key_leb_refl a : key_leb a a = true.
Proof. destruct a; simpl; [apply Z.leb_refl | done]. Qed.

Lemma key_leb_trans a b c :
  key_leb a b = true -> key_leb b c = true -> key_leb a c = true.
Proof.
  destruct a, b, c; simpl; try done.
  rewrite !Z.leb_le. lia.
Qed.

Lemma key_leb_total a b : key_leb a b = true \/ key_leb b a = true.
Proof.
  destruct a, b; simpl; auto.
  rewrite !Z.leb_le. lia.
Qed.

Lemma key_leb_false a b : key_leb a b = false -> key_leb b a = true.
Proof. destruct (key_leb_total a b); congruence. Qed.

Section Sorting.

Variable le : option Z -> option Z -> bool.
Hypothesis le_trans :
  forall a b c, le a b = true -> le b c = true -> le a c = true.
Hypothesis le_false : forall a b, le a b = false -> le b a = true.

Lemma insert_sorted_perm x l : insert_sorted le x l ≡ₚ x :: l.
Proof.
  induction l as [|y l IH]; simpl; [done|].
  destruct (le _ _); [done|].
  rewrite IH. apply Permutation_swap.
Qed.

Lemma sort_docs_perm l : sort_docs le l ≡ₚ l.
Proof.
  induction l as [|x l IH]; simpl; [done|].
  by rewrite insert_sorted_perm, IH.
Qed.

Lemma insert_sorted_sorted x l :
  StronglySorted (le_doc le) l -> StronglySorted (le_doc le) (insert_sorted le x l).
Proof.
  induction 1 as [|y l Hs IH Hy]; simpl.
  - repeat constructor.
  - destruct (le (sort_key x) (sort_key y)) eqn:E.
    + constructor; [by constructor|].
      constructor; [done|].
      eapply Forall_impl; [exact Hy|].
      intros z Hz. unfold le_doc in *. eauto.
    + constructor; [done|].
      rewrite insert_sorted_perm. constructor; [|done].
      by apply le_false.
Qed.

Lemma sort_docs_sorted l : StronglySorted (le_doc le) (sort_docs le l).
Proof.
  induction l; simpl; [constructor | by apply insert_sorted_sorted].
Qed.



Lemma sort_docs_head l m rest :
  sort_docs le l = m :: rest ->
  m ∈ l /\ forall x, x ∈ l -> x = m \/ le_doc le m x.
Proof.
  intros E. pose proof (sort_docs_sorted l) as Hs.
  pose proof (sort_docs_perm l) as Hp. rewrite E in Hs, Hp.
  split.
  - rewrite <- Hp. by left.
  - intros x Hx. rewrite <- Hp in Hx.
    apply StronglySorted_inv in Hs as [_ Hall].
    rewrite Forall_forall in Hall.
    apply elem_of_cons in Hx as [->|Hx]; auto.
Qed.

End Sorting.

(** ** The operations of the store *)

Lemma has_oid_doc_oid o d : has_oid o d = true <-> doc_oid d = Some o.
Proof.
  unfold has_oid, doc_oid.
  destruct (d !! "_id") as [[]|]; try (split; [done | congruence]).
  rewrite String.eqb_eq. split; congruence.
Qed.

Lemma has_oid_false o d : has_oid o d = false <-> doc_oid d <> Some o.
Proof.
  rewrite <- has_oid_doc_oid. destruct (has_oid o d); split; congruence.
Qed.

Lemma find_one_None p (c : list doc) :
  find_one p c = None <-> forall d, d ∈ c -> p d = false.
Proof.
  unfold find_one. induction c as [|d c IH]; simpl.
  - split; [intros _ d Hd; inversion Hd | done].
  - destruct (p d) eqn:E.
    + split; [done|]. intros H. rewrite H in E by (by left). done.
    + rewrite IH. split.
      * intros H d' Hd'. apply elem_of_cons in Hd' as [->|Hd']; auto.
      * intros H d' Hd'. apply H. by right.
Qed.

Lemma find_one_Some p (c : list doc) d :
  find_one p c = Some d -> d ∈ c /\ p d = true.
Proof.
  unfold find_one. induction c as [|d' c IH]; simpl; [done|].
  destruct (p d') eqn:E.
  - intros [= ->]. split; [by left | done].
  - intros H. destruct (IH H). split; [by right | done].
Qed.

Lemma update_one_no_match p upd c :
  find_one p c = None -> update_one p upd c = (0%nat, c).
Proof.
  unfold find_one. induction c as [|d c IH]; simpl; [done|].
  destruct (p d); [done|]. intros H. by rewrite IH.
Qed.

Lemma update_one_match p upd c d :
  find_one p c = Some d ->
  exists i, c !! i = Some d /\ p d = true
    /\ update_one p upd c = (1%nat, <[i := apply_set upd d]> c).
Proof.
  unfold find_one. induction c as [|d' c IH]; simpl; [done|].
  destruct (p d') eqn:E.
  - intros [= ->]. by exists 0%nat.
  - intros H. destruct (IH H) as (i & Hi & Hp & Hu).
    exists (S i). rewrite Hu. done.
Qed.

(** The document an update writes is the first that matches. *)
Lemma update_one_match_first p upd c d :
  find_one p c = Some d ->
  exists i, c !! i = Some d /\ p d = true
    /\ (forall j d0, (j < i)%nat -> c !! j = Some d0 -> p d0 = false)
    /\ update_one p upd c = (1%nat, <[i := apply_set upd d]> c).
Proof.
  unfold find_one. induction c as [|d' c IH]; simpl; [done|].
  destruct (p d') eqn:E.
  - intros [= ->]. exists 0%nat. split; [done|]. split; [done|].
    split; [intros j d0 Hj; lia | done].
  - intros H. destruct (IH H) as (i & Hi & Hp & Hfirst & Hu).
    exists (S i). rewrite Hu. split; [done|]. split; [done|].
    split; [|done]. intros [|j] d0 Hj Hd0.
    + injection Hd0 as <-. exact E.
    + apply (Hfirst j d0); [lia | done].
Qed.

Lemma update_one_length p upd c : length (update_one p upd c).2 = length c.
Proof.
  induction c as [|d c IH]; simpl; [done|].
  destruct (p d); simpl; [done|].
  destruct (update_one p upd c); simpl in *. by rewrite IH.
Qed.

Lemma delete_one_no_match p c :
  find_one p c = None -> delete_one p c = (0%nat, c).
Proof.
  unfold find_one. induction c as [|d c IH]; simpl; [done|].
  destruct (p d); [done|]. intros H. by rewrite IH.
Qed.

Lemma delete_one_match p c d :
  find_one p c = Some d ->
  exists i, c !! i = Some d /\ delete_one p c = (1%nat, delete i c).
Proof.
  unfold find_one. induction c as [|d' c IH]; simpl; [done|].
  destruct (p d') eqn:E.
  - intros [= ->]. by exists 0%nat.
  - intros H. destruct (IH H) as (i & Hi & Hu).
    exists (S i). rewrite Hu. done.
Qed.

Lemma listing_ids_cons d c :
  listing_ids (d :: c) =
  match doc_oid d with Some o => o :: listing_ids c | None => listing_ids c end.
Proof. unfold listing_ids. simpl. by destruct (doc_oid d). Qed.

Lemma elem_of_listing_ids o c :
  o ∈ listing_ids c <-> exists d, d ∈ c /\ doc_oid d = Some o.
Proof. unfold listing_ids. apply list_elem_of_omap. Qed.

Lemma ids_unique_tail d c : ids_unique (d :: c) -> ids_unique c.
Proof.
  unfold ids_unique. rewrite listing_ids_cons.
  destruct (doc_oid d); [|done]. by intros ?%NoDup_cons_1_2.
Qed.

Lemma ids_unique_head d c o :
  ids_unique (d :: c) -> doc_oid d = Some o -> find_one (has_oid o) c = None.
Proof.
  unfold ids_unique. rewrite listing_ids_cons. intros Hnd Ho.
  rewrite Ho in Hnd. apply NoDup_cons_1_1 in Hnd.
  apply find_one_None. intros d' Hd'. apply has_oid_false.
  intros Ho'. apply Hnd, elem_of_listing_ids. eauto.
Qed.

(** With unique identifiers, updating the first match updates every
    match. *)
Lemma update_one_map o upd c :
  ids_unique c ->
  (update_one (has_oid o) upd c).2 =
  map (fun d => if has_oid o d then apply_set upd d else d) c.
Proof.
  induction c as [|d c IH]; intros Hu; simpl; [done|].
  destruct (has_oid o d) eqn:E; simpl.
  - f_equal. apply has_oid_doc_oid in E.
    pose proof (ids_unique_head _ _ _ Hu E) as Hnone.
    rewrite find_one_None in Hnone.
    clear IH Hu. induction c as [|d' c IH]; simpl; [done|].
    rewrite Hnone by (by left). f_equal. apply IH.
    intros d'' Hd''. apply Hnone. by right.
  - specialize (IH (ids_unique_tail _ _ Hu)).
    destruct (update_one (has_oid o) upd c); simpl in *. by rewrite IH.
Qed.

Lemma listing_ids_map f c :
  (forall d, doc_oid (f d) = doc_oid d) ->
  listing_ids (map f c) = listing_ids c.
Proof.
  intros Hf. induction c as [|d c IH]; [done|].
  cbn [map]. rewrite !listing_ids_cons, Hf, IH. done.
Qed.

Lemma stored_lookup d k : stored d !! k = bson_dates <$> d !! k.
Proof. apply lookup_fmap. Qed.

Lemma stored_lookup_None d k : d !! k = None -> stored d !! k = None.
Proof. intros H. by rewrite stored_lookup, H. Qed.

Lemma stored_insert d k v : stored (<[k := v]> d) = <[k := bson_dates v]> (stored d).
Proof. apply fmap_insert. Qed.

Lemma doc_oid_apply_set upd d :
  upd !! "_id" = None -> doc_oid (apply_set upd d) = doc_oid d.
Proof.
  intros H. unfold doc_oid, apply_set.
  rewrite lookup_union_r by (by apply stored_lookup_None). done.
Qed.

(** ** The handlers *)

Lemma db_eta st : Db (listings st) (site_settings st) = st.
Proof. by destruct st. Qed.

Lemma ObjectId_is_valid_Some s o :
  ObjectId s = Some o -> ObjectId_is_valid (VStr s) = true.
Proof. intros H. simpl. apply bool_decide_eq_true. by rewrite H. Qed.

Lemma ObjectId_is_valid_None s :
  ObjectId s = None -> ObjectId_is_valid (VStr s) = false.
Proof.
  intros H. simpl. apply bool_decide_eq_false. rewrite H.
  by intros [? ?].
Qed.

Lemma ObjectId_is_valid_true s :
  ObjectId_is_valid (VStr s) = true -> exists o, ObjectId s = Some o.
Proof. simpl. intros H%bool_decide_eq_true. exact H. Qed.

Lemma delete_one_gone o c :
  ids_unique c -> find_one (has_oid o) (delete_one (has_oid o) c).2 = None.
Proof.
  induction c as [|d c IH]; intros Hu; simpl; [done|].
  destruct (has_oid o d) eqn:E; simpl.
  - apply has_oid_doc_oid in E. by eapply ids_unique_head.
  - specialize (IH (ids_unique_tail _ _ Hu)).
    destruct (delete_one (has_oid o) c) as [n c']; simpl in *.
    unfold find_one in *. simpl. by rewrite E.
Qed.

Lemma update_one_find p upd c d :
  find_one p c = Some d -> p (apply_set upd d) = true ->
  find_one p (update_one p upd c).2 = Some (apply_set upd d).
Proof.
  unfold find_one. induction c as [|d' c IH]; simpl; [done|].
  destruct (p d') eqn:E.
  - intros [= ->] Hp. simpl. by rewrite Hp.
  - intros Hf Hp. specialize (IH Hf Hp).
    destruct (update_one p upd c); simpl in *. by rewrite E.
Qed.

Lemma provided_spec u k :
  ListingUpdate.provided u !! k = ListingUpdate.field u k.
Proof.
  destruct u as [t p s i e f fb c l].
  unfold ListingUpdate.provided. rewrite map_lookup_filter.
  unfold ListingUpdate.field.
  repeat case_decide; subst.
  10: { assert (ListingUpdate.dict (ListingUpdate.Make t p s i e f fb c l)
                  !! k = None) as ->; [|done].
    apply not_elem_of_list_to_map_1. unfold ListingUpdate.dict.
    cbn [fmap list_fmap fst].
    rewrite !elem_of_cons, elem_of_nil. intuition. }
  all: match goal with |- context [ListingUpdate.dict ?u' !! ?k] =>
    let v := eval vm_compute in (ListingUpdate.dict u' !! k) in
    change (ListingUpdate.dict u' !! k) with v end.
  all: match goal with |- context [match ?x with _ => _ end] =>
         is_var x; destruct x end; done.
Qed.

Lemma field_outside u k :
  k ∉ ListingUpdate.fields -> ListingUpdate.field u k = None.
Proof.
  unfold ListingUpdate.fields, ListingUpdate.field.
  rewrite !elem_of_cons, elem_of_nil. intros H.
  repeat case_decide; subst; try done; exfalso; apply H; tauto.
Qed.

Lemma provided_empty : ListingUpdate.provided ListingUpdate.empty = ∅.
Proof. apply map_eq. intros k. rewrite provided_spec, lookup_empty.
  unfold ListingUpdate.field. by repeat case_decide. Qed.

(** The fields an update sets: those provided, and [updatedAt]. *)
Lemma update_data_lookup u now k :
  (<["updatedAt" := VDate now]> (ListingUpdate.provided u) : doc) !! k =
  if decide (k = "updatedAt") then Some (VDate now)
  else ListingUpdate.field u k.
Proof.
  case_decide as E.
  - subst. apply lookup_insert_eq.
  - rewrite lookup_insert_ne by done. apply provided_spec.
Qed.

Lemma field_stored u k :
  bson_dates <$> ListingUpdate.field u k = ListingUpdate.field u k.
Proof.
  destruct u as [t p s i e f fb c l]. unfold ListingUpdate.field.
  repeat case_decide; cbn;
    first [ done | by destruct t | by destruct p | by destruct s
          | by destruct i | by destruct e | by destruct f | by destruct fb
          | by destruct c | by destruct l ].
Qed.

(** The same, as the store holds them: the stamp to the millisecond. *)
Lemma stored_update_data_lookup u now k :
  stored (<["updatedAt" := VDate now]> (ListingUpdate.provided u)) !! k =
  if decide (k = "updatedAt") then Some (VDate (ms now))
  else ListingUpdate.field u k.
Proof.
  rewrite stored_lookup, update_data_lookup. case_decide; [done|].
  apply field_stored.
Qed.

Section Handlers.

Context `{env : Env}.

Lemma verify_admin_ok st : verify_admin ADMIN_PASSWORD st = (Ok tt, st).
Proof. unfold verify_admin. by rewrite decide_False by auto. Qed.

Lemma verify_admin_wrong password st :
  password <> ADMIN_PASSWORD ->
  verify_admin password st = (Raise Unauthorized, st).
Proof. intros H. unfold verify_admin. by rewrite decide_True. Qed.

(** C2. A password that differs from the configured secret makes each
    of the five mutating handlers (create, update, delete and reorder
    listings, update settings) answer Unauthorized, and the database it
    leaves is the database it was given. *)
Theorem wrong_password_changes_nothing password st :
  password <> ADMIN_PASSWORD ->
  (forall listing now new_id,
     create_listing listing password now new_id st
     = (Raise Unauthorized, st))
  /\ (forall listing_id updates now,
        update_listing listing_id updates password now st
        = (Raise Unauthorized, st))
  /\ (forall listing_id,
        delete_listing listing_id password st = (Raise Unauthorized, st))
  /\ (forall data,
        reorder_listings data password st = (Raise Unauthorized, st))
  /\ (forall data now,
        update_settings data password now st = (Raise Unauthorized, st)).
Proof.
  intros Hpw.
  repeat split; intros;
    [unfold create_listing | unfold update_listing | unfold delete_listing
    | unfold reorder_listings | unfold update_settings];
    unfold bind; by rewrite verify_admin_wrong.
Qed.

Lemma get_listing_unknown st listing_id :
  unknown_id st listing_id ->
  get_listing listing_id st = (Raise NotFound, st).
Proof.
  unfold get_listing. intros [Hn | (o & Ho & Hf)].
  - by rewrite (ObjectId_is_valid_None _ Hn).
  - rewrite (ObjectId_is_valid_Some _ _ Ho), Ho. simpl.
    unfold bind, or_internal, ret, get_db. by rewrite Hf.
Qed.

Lemma delete_listing_unknown st listing_id :
  unknown_id st listing_id ->
  delete_listing listing_id ADMIN_PASSWORD st = (Raise NotFound, st).
Proof.
  unfold delete_listing, bind. rewrite verify_admin_ok.
  intros [Hn | (o & Ho & Hf)].
  - by rewrite (ObjectId_is_valid_None _ Hn).
  - rewrite (ObjectId_is_valid_Some _ _ Ho), Ho. simpl.
    unfold bind, or_internal, ret, get_db.
    rewrite (delete_one_no_match _ _ Hf). simpl.
    unfold put_listings, raise. by rewrite db_eta.
Qed.

Lemma delete_listing_done st listing_id r st' :
  ids_unique (listings st) ->
  delete_listing listing_id ADMIN_PASSWORD st = (Ok r, st') ->
  unknown_id st' listing_id.
Proof.
  intros Hu. unfold delete_listing, bind. rewrite verify_admin_ok.
  destruct (ObjectId listing_id) as [o|] eqn:Ho.
  - rewrite (ObjectId_is_valid_Some _ _ Ho). simpl.
    unfold bind, or_internal, ret, get_db.
    pose proof (delete_one_gone o _ Hu) as Hg.
    destruct (delete_one (has_oid o) (listings st)) as [n c]; simpl in *.
    unfold put_listings, raise.
    destruct (n =? 0)%nat; [done|]. intros [= _ <-].
    right. exists o. done.
  - by rewrite (ObjectId_is_valid_None _ Ho).
Qed.

(** C8. For an identifier that is malformed or matches no stored
    listing, Get and (authorized) Delete answer NotFound and leave the
    database as it was; after a Delete that succeeded, a second Delete of
    the same identifier and a Get answer NotFound as well, again without
    any change. *)
Theorem unknown_id_not_found st listing_id :
  (unknown_id st listing_id ->
   get_listing listing_id st = (Raise NotFound, st)
   /\ delete_listing listing_id ADMIN_PASSWORD st = (Raise NotFound, st))
  /\ (ids_unique (listings st) ->
      forall r st',
        delete_listing listing_id ADMIN_PASSWORD st = (Ok r, st') ->
        delete_listing listing_id ADMIN_PASSWORD st' = (Raise NotFound, st')
        /\ get_listing listing_id st' = (Raise NotFound, st')).
Proof.
  split.
  - intros H. split;
      [by apply get_listing_unknown | by apply delete_listing_unknown].
  - intros Hu r st' Hd.
    pose proof (delete_listing_done _ _ _ _ Hu Hd) as H. split;
      [by apply delete_listing_unknown | by apply get_listing_unknown].
Qed.

(** What a successful update did: it was authorized, its identifier is
    well-formed and matched the listing at some position, and that
    listing received the fields provided and the new [updatedAt]. *)
Lemma update_listing_Ok listing_id updates password now st r st' :
  update_listing listing_id updates password now st = (Ok r, st') ->
  password = ADMIN_PASSWORD
  /\ ListingUpdate.provided updates <> ∅
  /\ exists o i d,
       ObjectId listing_id = Some o
       /\ listings st !! i = Some d
       /\ has_oid o d = true
       /\ st' = Db (<[i := apply_set
                            (<["updatedAt" := VDate now]>
                               (ListingUpdate.provided updates)) d]>
                     (listings st))
                  (site_settings st)
       /\ listing_to_dict
            (apply_set (<["updatedAt" := VDate now]>
                          (ListingUpdate.provided updates)) d) = Some r
       /\ find_one (has_oid o) (listings st) = Some d
       /\ forall j d0, (j < i)%nat -> listings st !! j = Some d0 ->
                       has_oid o d0 = false.
Proof.
  unfold update_listing, bind.
  destruct (decide (password = ADMIN_PASSWORD)) as [->|Hpw];
    [rewrite verify_admin_ok | by rewrite verify_admin_wrong].
  destruct (ObjectId_is_valid (VStr listing_id)) eqn:Hv; cbn [negb];
    [|done].
  apply ObjectId_is_valid_true in Hv as [o Ho].
  case_bool_decide as Hne; [done|].
  rewrite Ho. cbv [bind or_internal ret get_db].
  set (upd := <["updatedAt" := VDate now]> (ListingUpdate.provided updates)).
  destruct (find_one (has_oid o) (listings st)) as [d|] eqn:Hf.
  - destruct (update_one_match_first _ upd _ _ Hf)
      as (i & Hi & Hp & Hfirst & Hu).
    assert (has_oid o (apply_set upd d) = true) as Hp'.
    { apply has_oid_doc_oid. rewrite doc_oid_apply_set.
      - by apply has_oid_doc_oid.
      - unfold upd. rewrite update_data_lookup. done. }
    pose proof (update_one_find _ upd _ _ Hf Hp') as Hfind.
    rewrite Hu in Hfind |- *. cbn [snd] in Hfind.
    cbv [put_listings]. cbn [Nat.eqb listings]. rewrite Hfind.
    destruct (listing_to_dict (apply_set upd d)) as [r'|] eqn:Hr; [|done].
    intros [= <- <-].
    split; [reflexivity|]. split; [exact Hne|].
    exists o, i, d. split_and!; first [reflexivity | assumption].
  - rewrite (update_one_no_match _ upd _ Hf). done.
Qed.

(** C9. A successful Update leaves [createdAt], the identifier,
    [postedDate] and [sortOrder] of every stored listing as they were:
    the only fields it writes are the nine content fields of the update
    model and [updatedAt]. The settings are untouched too. *)
Theorem update_keeps_other_fields listing_id updates password now st r st' :
  update_listing listing_id updates password now st = (Ok r, st') ->
  length (listings st') = length (listings st)
  /\ site_settings st' = site_settings st
  /\ (forall j k,
        k ∉ "updatedAt" :: ListingUpdate.fields ->
        listings st' !! j ≫= (fun d : doc => d !! k)
        = listings st !! j ≫= (fun d : doc => d !! k))
  /\ Forall (fun k => k ∉ "updatedAt" :: ListingUpdate.fields)
       ["_id"; "createdAt"; "postedDate"; "sortOrder"].
Proof.
  intros H. apply update_listing_Ok in H
    as (_ & _ & o & i & d & Ho & Hi & Hp & -> & Hr).
  cbn [listings site_settings].
  split; [by rewrite length_insert|]. split; [done|]. split.
  - intros j k Hk. apply not_elem_of_cons in Hk as [Hk1 Hk2].
    destruct (decide (j = i)) as [->|Hji].
    + rewrite list_lookup_insert_eq by (by eapply lookup_lt_Some).
      rewrite Hi. cbn [mbind option_bind]. unfold apply_set.
      rewrite lookup_union_r; [done|].
      rewrite stored_update_data_lookup, decide_False by done.
      by apply field_outside.
    + by rewrite list_lookup_insert_ne.
  - repeat constructor; unfold ListingUpdate.fields;
      rewrite !not_elem_of_cons, elem_of_nil; intuition discriminate.
Qed.

(** C6, as the code has it. An authorised Update checks the identifier
    first: a malformed one answers NotFound whatever the fields.  With a
    well-formed identifier, an update that provides no field (none
    given, or every one null) answers BadRequest.  Both leave the
    database as it was.  An Update that succeeds has written, at the
    first listing stored under the identifier, each field provided and
    [updatedAt] with the current time, which the store keeps to the
    millisecond, in one update; it keeps every other field of that
    listing and every other listing, and answers the listing so
    updated. *)
Theorem update_applies_provided_fields listing_id now st :
  (ObjectId listing_id = None ->
   forall updates,
     update_listing listing_id updates ADMIN_PASSWORD now st
     = (Raise NotFound, st))
  /\ (is_Some (ObjectId listing_id) ->
      update_listing listing_id ListingUpdate.empty ADMIN_PASSWORD now st
      = (Raise BadRequest, st))
  /\ (forall updates password r st',
        update_listing listing_id updates password now st = (Ok r, st') ->
        exists o i d d',
          ObjectId listing_id = Some o
          /\ find_one (has_oid o) (listings st) = Some d
          /\ listings st !! i = Some d
          /\ (forall j d0, (j < i)%nat -> listings st !! j = Some d0 ->
                           has_oid o d0 = false)
          /\ listings st' = <[i := d']> (listings st)
          /\ site_settings st' = site_settings st
          /\ listing_to_dict d' = Some r
          /\ forall k,
               d' !! k =
               if decide (k = "updatedAt") then Some (VDate (ms now))
               else match ListingUpdate.field updates k with
                    | Some v => Some v
                    | None => d !! k
                    end).
Proof.
  split; [|split].
  - intros Hn updates. unfold update_listing, bind.
    rewrite verify_admin_ok. by rewrite (ObjectId_is_valid_None _ Hn).
  - intros [o Ho]. unfold update_listing, bind.
    rewrite verify_admin_ok, (ObjectId_is_valid_Some _ _ Ho).
    cbn [negb]. rewrite provided_empty. by rewrite bool_decide_eq_true_2.
  - intros updates password r st' H. apply update_listing_Ok in H
      as (_ & _ & o & i & d & Ho & Hi & Hp & -> & Hr & Hf & Hfirst).
    eexists o, i, d, _. split; [exact Ho|]. split; [exact Hf|].
    split; [exact Hi|]. split; [exact Hfirst|]. split; [reflexivity|].
    split; [reflexivity|]. split; [exact Hr|].
    intros k. unfold apply_set. rewrite lookup_union.
    rewrite stored_update_data_lookup. case_decide.
    + by destruct (d !! k).
    + destruct (ListingUpdate.field updates k); by destruct (d !! k).
Qed.

(** *** Reorder *)

Lemma ObjectId_is_valid_of_value lid :
  ObjectId_is_valid lid = true <-> is_Some (ObjectId_of_value lid).
Proof.
  destruct lid; simpl; try (split; [done | by intros [? ?]]).
  apply bool_decide_eq_true.
Qed.

Lemma reorder_step_miss i lid o st :
  ObjectId_of_value lid = Some o ->
  find_one (has_oid o) (listings st) = None ->
  reorder_step i lid st = (Ok tt, st).
Proof.
  intros Ho Hf. unfold reorder_step.
  rewrite (proj2 (ObjectId_is_valid_of_value lid)) by (by rewrite Ho).
  rewrite Ho. cbv [bind or_internal ret get_db].
  rewrite (update_one_no_match _ _ _ Hf). cbv [put_listings].
  by rewrite db_eta.
Qed.

Lemma reorder_step_invalid i lid st :
  ObjectId_of_value lid = None -> reorder_step i lid st = (Ok tt, st).
Proof.
  intros Ho. unfold reorder_step.
  destruct (ObjectId_is_valid lid) eqn:E; [|done].
  apply ObjectId_is_valid_of_value in E as [o E]. congruence.
Qed.

(** A turn of the loop never fails and touches the listings only. *)
Lemma reorder_step_ok i lid st :
  exists c, reorder_step i lid st = (Ok tt, Db c (site_settings st))
            /\ length c = length (listings st).
Proof.
  destruct (ObjectId_of_value lid) as [o|] eqn:Ho.
  - unfold reorder_step.
    rewrite (proj2 (ObjectId_is_valid_of_value lid)) by (by rewrite Ho).
    rewrite Ho. cbv [bind or_internal ret get_db].
    pose proof (update_one_length (has_oid o) {["sortOrder" := VInt i]}
                  (listings st)) as Hl.
    destruct (update_one _ _ _) as [n c]. cbv [put_listings].
    by exists c.
  - exists (listings st). by rewrite reorder_step_invalid, db_eta.
Qed.

Lemma reorder_from_ok order : forall i st,
  exists c, reorder_from i order st = (Ok tt, Db c (site_settings st))
            /\ length c = length (listings st).
Proof.
  induction order as [|lid rest IH]; intros i st; cbn [reorder_from].
  - exists (listings st). by rewrite db_eta.
  - unfold bind. destruct (reorder_step_ok i lid st) as (c & -> & Hc).
    destruct (IH (i + 1) (Db c (site_settings st))) as (c' & -> & Hc').
    exists c'. cbn [listings site_settings] in *. split; [done | congruence].
Qed.

(** With unique identifiers, a turn of the loop gives [sortOrder] the
    position [i] at every listing the identifier names. *)
Lemma reorder_step_map i lid st :
  ids_unique (listings st) ->
  reorder_step i lid st =
  (Ok tt,
   Db (map (fun d => if decide (ObjectId_of_value lid = doc_oid d
                                /\ is_Some (doc_oid d))
                     then <["sortOrder" := VInt i]> d else d)
         (listings st))
      (site_settings st)).
Proof.
  intros Hu. destruct (ObjectId_of_value lid) as [o|] eqn:Ho.
  - unfold reorder_step.
    rewrite (proj2 (ObjectId_is_valid_of_value lid)) by (by rewrite Ho).
    rewrite Ho. cbv [bind or_internal ret get_db].
    pose proof (update_one_map o {["sortOrder" := VInt i]} _ Hu) as Hm.
    destruct (update_one _ _ _) as [n c]. cbn [snd] in Hm. subst c.
    cbv [put_listings]. do 2 f_equal. apply map_ext. intros d.
    destruct (has_oid o d) eqn:E.
    + apply has_oid_doc_oid in E. rewrite decide_True by (by rewrite E).
      unfold apply_set. by rewrite insert_union_singleton_l.
    + apply has_oid_false in E. rewrite decide_False; [done|].
      intros [? ?]. congruence.
  - rewrite reorder_step_invalid by done. rewrite <- (db_eta st) at 1.
    do 2 f_equal. rewrite <- (map_id (listings st)) at 1.
    apply map_ext. intros d. rewrite decide_False; [done|].
    intros [E [? E']]. congruence.
Qed.

Lemma doc_oid_insert_sortOrder j d :
  doc_oid (<["sortOrder" := VInt j]> d) = doc_oid d.
Proof. unfold doc_oid. by rewrite lookup_insert_ne. Qed.

Lemma reorder_from_map order : forall i st,
  ids_unique (listings st) ->
  reorder_from i order st =
  (Ok tt, Db (map (reordered i order) (listings st)) (site_settings st)).
Proof.
  induction order as [|lid rest IH]; intros i st Hu; cbn [reorder_from].
  - unfold ret. rewrite <- (db_eta st) at 1. do 2 f_equal.
    rewrite <- (map_id (listings st)) at 1. apply map_ext. intros d.
    unfold reordered. by destruct (doc_oid d).
  - unfold bind. rewrite reorder_step_map by done.
    rewrite IH.
    2: { cbn [listings]. unfold ids_unique.
         rewrite listing_ids_map; [done|].
         intros d. case_decide; [apply doc_oid_insert_sortOrder | done]. }
    cbn [listings site_settings]. do 2 f_equal.
    rewrite map_map. apply map_ext. intros d.
    unfold reordered. case_decide as E.
    + rewrite doc_oid_insert_sortOrder.
      destruct E as [E [o Ho]]. rewrite Ho in E |- *.
      cbn [mbind option_bind assigned].
      destruct (assigned (i + 1) rest o).
      * by rewrite insert_insert_eq.
      * by rewrite decide_True.
    + destruct (doc_oid d) as [o|] eqn:Ho; [|done].
      cbn [mbind option_bind assigned].
      destruct (assigned (i + 1) rest o); [done|].
      rewrite decide_False; [done|]. intros E'. apply E. by rewrite E'.
Qed.

Lemma assigned_None i order o :
  assigned i order o = None <->
  forall lid, lid ∈ order -> ObjectId_of_value lid <> Some o.
Proof.
  revert i. induction order as [|lid rest IH]; intros i; cbn [assigned].
  - split; [intros _ lid Hl; inversion Hl | done].
  - destruct (assigned (i + 1) rest o) eqn:E.
    + split; [done|]. intros H.
      assert (assigned (i + 1) rest o = None) as E'.
      { apply IH. intros lid' Hl. apply H. by right. }
      congruence.
    + pose proof (proj1 (IH (i + 1)) E) as E'. case_decide as D.
      * split; [done|]. intros H. exfalso. by apply (H lid); [left|].
      * split; [|done]. intros _ lid' Hl.
        apply elem_of_cons in Hl as [->|Hl]; auto.
Qed.

(** An entry that no later entry repeats decides the position. *)
Lemma assigned_at order : forall i j lid o,
  order !! j = Some lid ->
  ObjectId_of_value lid = Some o ->
  (forall j' lid', (j < j')%nat -> order !! j' = Some lid' ->
                   ObjectId_of_value lid' <> Some o) ->
  assigned i order o = Some (i + Z.of_nat j).
Proof.
  induction order as [|x rest IH]; intros i j lid o Hj Ho Hlater; [done|].
  cbn [assigned]. destruct j as [|j].
  - injection Hj as ->.
    assert (assigned (i + 1) rest o = None) as ->.
    { apply assigned_None. intros lid' Hl.
      apply list_elem_of_lookup in Hl as [j' Hj'].
      apply (Hlater (S j') lid'); [lia | done]. }
    rewrite decide_True by done. f_equal. lia.
  - rewrite (IH (i + 1) j lid o Hj Ho).
    + f_equal. lia.
    + intros j' lid' Hlt Hj'. apply (Hlater (S j') lid'); [lia | done].
Qed.

Lemma reorder_from_miss order : forall i st,
  (forall lid o, lid ∈ order -> ObjectId_of_value lid = Some o ->
                 find_one (has_oid o) (listings st) = None) ->
  reorder_from i order st = (Ok tt, st).
Proof.
  induction order as [|lid rest IH]; intros i st Hall; [done|].
  cbn [reorder_from]. unfold bind.
  destruct (ObjectId_of_value lid) as [o|] eqn:Ho.
  - rewrite (reorder_step_miss i lid o);
      [| done | apply (Hall lid o); [by left | done]].
    apply IH. intros lid' o' Hl. apply Hall. by right.
  - rewrite reorder_step_invalid by done.
    apply IH. intros lid' o' Hl. apply Hall. by right.
Qed.

(** C10. A well-formed identifier that matches no stored listing costs
    a reorder nothing: its turn of the loop succeeds and leaves the
    database as it was, whatever the position and the state; the
    request answers [{ok: true}] for every submitted sequence, and when
    none of its identifiers matches a listing the database is left
    unchanged. *)
Theorem reorder_ignores_unknown_ids :
  (forall i lid o st,
     ObjectId_of_value lid = Some o ->
     find_one (has_oid o) (listings st) = None ->
     reorder_step i lid st = (Ok tt, st))
  /\ (forall data order st,
        py_iter (get_default data "order" (VArr [])) = Some order ->
        exists st',
          reorder_listings data ADMIN_PASSWORD st
          = (Ok {["ok" := VBool true]}, st')
          /\ site_settings st' = site_settings st
          /\ length (listings st') = length (listings st)
          /\ ((forall lid o, lid ∈ order ->
                 ObjectId_of_value lid = Some o ->
                 find_one (has_oid o) (listings st) = None) ->
              st' = st)).
Proof.
  split; [apply reorder_step_miss|].
  intros data order st Hit. unfold reorder_listings, bind.
  rewrite verify_admin_ok, Hit. cbv [or_internal ret].
  destruct (reorder_from_ok order 0 st) as (c & E & Hc).
  exists (Db c (site_settings st)). rewrite E.
  split; [done|]. split; [done|]. split; [done|].
  intros Hall. clear Hc.
  rewrite (reorder_from_miss order 0 st Hall) in E.
  injection E as E. by rewrite E.
Qed.

(** *** Listing the listings *)

Lemma filter_all {A} (l : list A) : List.filter (fun _ => true) l = l.
Proof. induction l as [|a l IH]; cbn [List.filter]; congruence. Qed.

Lemma has_str_spec k s d :
  has_str k s d = true <-> d !! k = Some (VStr s).
Proof.
  unfold has_str. destruct (d !! k) as [[]|]; try (split; done).
  rewrite String.eqb_eq. split; [by intros -> | by intros [= ->]].
Qed.

Lemma str_truthy_false c : str_truthy c = false <-> c = EmptyString.
Proof. by destruct c. Qed.

(** The query [get_listings] builds is the filter [selects]. *)
Lemma get_listings_query category st :
  get_listings category st =
  mapM (fun l => or_internal (listing_to_dict l))
    (find_sorted (selects category) 200 (listings st)) st.
Proof.
  unfold get_listings, bind, get_db. destruct category as [c|]; [|done].
  unfold selects. destruct (decide (c = EmptyString \/ c = "all")) as [D|D].
  - destruct D as [-> | ->]; done.
  - destruct (str_truthy c) eqn:T.
    + destruct (String.eqb_spec c "all") as [->|]; [|done].
      exfalso. apply D. by right.
    + apply str_truthy_false in T. exfalso. apply D. by left.
Qed.

Lemma listing_wf_to_dict d : listing_wf d -> is_Some (listing_to_dict d).
Proof.
  intros (_ & Hreq & _). unfold required_fields in Hreq.
  repeat (apply Forall_cons in Hreq as [[? ?] Hreq]).
  unfold listing_to_dict.
  repeat match goal with
         | H : d !! _ = Some _ |- _ =>
             rewrite H; clear H; cbn [mbind option_bind]
         end.
  eexists. reflexivity.
Qed.

Lemma mapM_listing_to_dict l st :
  Forall listing_wf l ->
  exists rs,
    mapM (fun l => or_internal (listing_to_dict l)) l st = (Ok rs, st)
    /\ Forall2 (fun d r => listing_to_dict d = Some r) l rs.
Proof.
  induction 1 as [|d l Hd Hl (rs & E & F)].
  - exists []. split; [done | constructor].
  - destruct (listing_wf_to_dict d Hd) as [r Hr].
    exists (r :: rs). cbn [mapM]. cbv [bind or_internal ret].
    rewrite Hr. cbv beta iota.
    change (mapM (fun l => or_internal (listing_to_dict l)) l st) with
      (mapM (fun l => or_internal (listing_to_dict l)) l st) in E.
    cbv [or_internal ret] in E. rewrite E.
    split; [reflexivity | by constructor].
Qed.

(** What a response says of the stored listing. *)
Lemma listing_to_dict_fields d r :
  listing_to_dict d = Some r ->
  r !! "id" = (fun v => VStr (str_value v)) <$> d !! "_id"
  /\ r !! "category" = d !! "category"
  /\ r !! "sortOrder" = Some (reported_sortOrder d).
Proof.
  unfold listing_to_dict, reported_sortOrder.
  destruct (d !! "_id") as [_id|]; [|done].
  destruct (d !! "title") as [title|]; [|done].
  destruct (d !! "price") as [price|]; [|done].
  destruct (d !! "status") as [status|]; [|done].
  destruct (d !! "excerpt") as [excerpt|]; [|done].
  destruct (d !! "fullText") as [fullText|]; [|done].
  destruct (d !! "category") as [category|]; [|done].
  destruct (d !! "postedDate") as [postedDate|]; [|done].
  cbn [mbind option_bind fmap option_fmap option_map].
  intros [= <-]. split; [reflexivity|]. split; reflexivity.
Qed.

Lemma Forall_List_filter {A} (P : A -> Prop) p (l : list A) :
  Forall P l -> Forall P (List.filter p l).
Proof.
  induction 1 as [|a l Ha Hl IH]; cbn [List.filter]; [constructor|].
  destruct (p a); [by constructor | done].
Qed.

Lemma elem_of_List_filter {A} p (l : list A) x :
  x ∈ List.filter p l <-> x ∈ l /\ p x = true.
Proof. rewrite !list_elem_of_In. apply filter_In. Qed.

Lemma find_sorted_wf p n c :
  Forall listing_wf c -> Forall listing_wf (find_sorted p n c).
Proof.
  intros Hc. unfold find_sorted, sort_asc. apply Forall_take.
  eapply Permutation_Forall; [symmetry; apply sort_docs_perm|].
  by apply Forall_List_filter.
Qed.

Lemma elem_of_find_sorted p n c d :
  d ∈ find_sorted p n c -> d ∈ c /\ p d = true.
Proof.
  unfold find_sorted, sort_asc. intros Hd.
  apply elem_of_take in Hd as (i & Hd & _).
  apply list_elem_of_lookup_2 in Hd.
  rewrite sort_docs_perm in Hd. by apply elem_of_List_filter.
Qed.

Lemma Forall2_elem_of_r {A B} (R : A -> B -> Prop) l k y :
  Forall2 R l k -> y ∈ k -> exists x, x ∈ l /\ R x y.
Proof.
  induction 1 as [|a b l k Hab Hlk IH]; intros Hy; [inversion Hy|].
  apply elem_of_cons in Hy as [->|Hy].
  - exists a. split; [by left | done].
  - destruct (IH Hy) as (x & Hx & HR). exists x. split; [by right | done].
Qed.

(** C4, as the code has it. On a store of well-formed listings a
    listing request never fails and changes nothing.  It answers the
    responses of the first 200 listings, in ascending order of stored
    [sortOrder] (a listing that stores none comes first), among those
    the filter selects: all listings when the filter is absent, empty
    or [all], and otherwise exactly those whose category is the filter. *)
Theorem list_selects_sorts_caps category st :
  Forall listing_wf (listings st) ->
  let selected := List.filter (selects category) (listings st) in
  exists rs,
    get_listings category st = (Ok rs, st)
    /\ Forall2 (fun d r => listing_to_dict d = Some r)
         (take 200 (sort_asc selected)) rs
    /\ sort_asc selected ≡ₚ selected
    /\ StronglySorted (le_doc key_leb) (sort_asc selected)
    /\ (length rs <= 200)%nat
    /\ (forall d, d ∈ selected <->
          d ∈ listings st
          /\ match category with
             | None => True
             | Some c => c = EmptyString \/ c = "all"
                         \/ d !! "category" = Some (VStr c)
             end)
    /\ (forall c r, category = Some c -> c <> EmptyString -> c <> "all" ->
          r ∈ rs -> r !! "category" = Some (VStr c))
    /\ get_listings (Some "all") st = get_listings None st
    /\ get_listings (Some EmptyString) st = get_listings None st.
Proof.
  intros Hwf selected.
  destruct (mapM_listing_to_dict _ st (find_sorted_wf (selects category) 200 _ Hwf))
    as (rs & E & F).
  exists rs. rewrite get_listings_query.
  split; [exact E|]. split; [exact F|].
  split; [apply sort_docs_perm|].
  split; [apply sort_docs_sorted; [apply key_leb_trans | apply key_leb_false]|].
  split.
  { rewrite <- (Forall2_length _ _ _ F). unfold find_sorted.
    rewrite length_take. lia. }
  split.
  { intros d. unfold selected. rewrite elem_of_List_filter.
    destruct category as [c|]; cbn [selects]; [|tauto].
    destruct (decide (c = EmptyString \/ c = "all")) as [D|D].
    - tauto.
    - rewrite has_str_spec. tauto. }
  split.
  { intros c r -> Hc1 Hc2 Hr.
    destruct (Forall2_elem_of_r _ _ _ _ F Hr) as (d & Hd & Hdr).
    apply elem_of_find_sorted in Hd as [_ Hd]. cbn [selects] in Hd.
    rewrite decide_False in Hd by tauto. apply has_str_spec in Hd.
    apply listing_to_dict_fields in Hdr as (_ & -> & _). exact Hd. }
  split; by rewrite !get_listings_query.
Qed.

(** *** A full reorder *)

Lemma key_leb_antisym a b :
  key_leb a b = true -> key_leb b a = true -> a = b.
Proof.
  destruct a, b; cbn [key_leb]; try done.
  rewrite !Z.leb_le. intros. f_equal. lia.
Qed.

Lemma NoDup_fmap_elem_of {A B} (f : A -> B) l x y :
  NoDup (f <$> l) -> x ∈ l -> y ∈ l -> f x = f y -> x = y.
Proof.
  intros Hn Hx Hy E.
  apply list_elem_of_lookup in Hx as [i Hi].
  apply list_elem_of_lookup in Hy as [j Hj].
  assert (i = j) as ->; [|congruence].
  apply (NoDup_lookup (f <$> l) i j (f x)); [done | |].
  - by rewrite list_lookup_fmap, Hi.
  - by rewrite list_lookup_fmap, Hj, E.
Qed.

(** Listings whose keys are [z], [z + 1], ... in this order are sorted,
    and no two of them share a key. *)
Lemma consecutive_keys_sorted l : forall z : Z,
  (forall j d, l !! j = Some d -> sort_key d = Some (z + Z.of_nat j)) ->
  StronglySorted (le_doc key_leb) l /\ NoDup (sort_key <$> l).
Proof.
  induction l as [|a l IH]; intros z Hk.
  - split; constructor.
  - destruct (IH (z + 1)) as [Hs Hn].
    { intros j d Hj. rewrite (Hk (S j) d Hj). f_equal. lia. }
    pose proof (Hk 0%nat a eq_refl) as Ha.
    split.
    + constructor; [done|]. apply Forall_forall. intros d Hd.
      apply list_elem_of_lookup in Hd as [j Hj].
      unfold le_doc. rewrite Ha, (Hk (S j) d Hj). cbn [key_leb].
      apply Z.leb_le. lia.
    + rewrite fmap_cons. constructor; [|done].
      intros Hin. apply list_elem_of_fmap in Hin as (d & E & Hd).
      apply list_elem_of_lookup in Hd as [j Hj].
      rewrite Ha, (Hk (S j) d Hj) in E. injection E. lia.
Qed.

Lemma reordered_wf i order d : listing_wf d -> listing_wf (reordered i order d).
Proof.
  intros Hwf. unfold reordered.
  destruct (doc_oid d ≫= assigned i order) as [j|]; [|done].
  destruct Hwf as (Hid & Hreq & _). split; [|split].
  - by rewrite doc_oid_insert_sortOrder.
  - unfold required_fields in *.
    repeat (apply Forall_cons in Hreq as [? Hreq]).
    repeat (constructor; [by rewrite lookup_insert_ne|]). constructor.
  - right. exists j. apply lookup_insert_eq.
Qed.

Lemma reordered_at ids oids j d o :
  Forall2 (fun s o => ObjectId s = Some o) ids oids ->
  NoDup oids ->
  oids !! j = Some o ->
  doc_oid d = Some o ->
  reordered 0 (VStr <$> ids) d = <["sortOrder" := VInt (Z.of_nat j)]> d.
Proof.
  intros Hids Hn Hj Hd.
  destruct (Forall2_lookup_r _ _ _ _ _ Hids Hj) as (s & Hs & Ho).
  unfold reordered. rewrite Hd. cbn [mbind option_bind].
  rewrite (assigned_at (VStr <$> ids) 0 j (VStr s) o).
  - by rewrite Z.add_0_l.
  - by rewrite list_lookup_fmap, Hs.
  - exact Ho.
  - intros j' lid' Hlt Hj' Ho'.
    rewrite list_lookup_fmap in Hj'.
    destruct (ids !! j') as [s'|] eqn:Hs'; [|done].
    injection Hj' as <-. cbn [ObjectId_of_value] in Ho'.
    destruct (Forall2_lookup_l _ _ _ _ _ Hids Hs') as (o' & Ho'' & E).
    assert (o' = o) as -> by congruence.
    pose proof (NoDup_lookup _ _ _ _ Hn Hj Ho''). lia.
Qed.

Lemma doc_oid_fmap c :
  Forall listing_wf c -> doc_oid <$> c = Some <$> listing_ids c.
Proof.
  induction 1 as [|d c Hd Hc IH]; [done|].
  destruct Hd as ([o Ho] & _). rewrite fmap_cons, IH.
  by rewrite (listing_ids_cons d c), Ho.
Qed.

Lemma reorder_listings_map data order st :
  ids_unique (listings st) ->
  py_iter (get_default data "order" (VArr [])) = Some order ->
  reorder_listings data ADMIN_PASSWORD st =
  (Ok {["ok" := VBool true]},
   Db (map (reordered 0 order) (listings st)) (site_settings st)).
Proof.
  intros Hu Hit. unfold reorder_listings, bind.
  rewrite verify_admin_ok, Hit. cbv [or_internal ret].
  by rewrite reorder_from_map.
Qed.

(** After a full reorder the listings, sorted, are the stored listings
    in the submitted order. *)
Lemma full_reorder_sorted ids oids c :
  Forall2 (fun s o => ObjectId s = Some o) ids oids ->
  NoDup oids ->
  oids ≡ₚ listing_ids c ->
  Forall listing_wf c ->
  exists ds,
    c ≡ₚ ds
    /\ doc_oid <$> ds = Some <$> oids
    /\ sort_asc (map (reordered 0 (VStr <$> ids)) c)
       = imap (fun j d => <["sortOrder" := VInt (Z.of_nat j)]> d) ds.
Proof.
  intros Hids Hn Hp Hwf.
  assert (Permutation (Some <$> oids) (map doc_oid c)) as Hp'.
  { change (map doc_oid c) with (doc_oid <$> c).
    rewrite (doc_oid_fmap c Hwf). by apply fmap_Permutation. }
  apply Permutation_map_inv in Hp' as (ds & Hds & Hcd).
  change (map doc_oid ds) with (doc_oid <$> ds) in Hds.
  exists ds. split; [done|]. split; [done|].
  set (f := reordered 0 (VStr <$> ids)).
  assert (map f ds
          = imap (fun j d => <["sortOrder" := VInt (Z.of_nat j)]> d) ds) as Hf.
  { apply list_eq. intros j. change (map f ds) with (f <$> ds).
    rewrite list_lookup_fmap, list_lookup_imap.
    destruct (ds !! j) as [d|] eqn:Hd; [|done].
    cbn [fmap option_fmap option_map].
    f_equal. assert ((doc_oid <$> ds) !! j = Some (doc_oid d)) as Hj.
    { by rewrite list_lookup_fmap, Hd. }
    rewrite <- Hds, list_lookup_fmap in Hj.
    destruct (oids !! j) as [o|] eqn:Ho; [|done]. injection Hj as Hj.
    by apply (reordered_at ids oids j d o). }
  rewrite <- Hf. symmetry.
  destruct (consecutive_keys_sorted (map f ds) 0) as [Hs Hk].
  { intros j d. rewrite Hf, list_lookup_imap.
    destruct (ds !! j) as [d'|]; [|done]. intros [= <-].
    unfold sort_key. by rewrite lookup_insert_eq, Z.add_0_l. }
  apply (StronglySorted_unique_strong (le_doc key_leb)).
  - intros x1 x2 H1 H2 H12 H21.
    apply (NoDup_fmap_elem_of sort_key (map f ds)); [done | done | |].
    + unfold sort_asc in H2. rewrite sort_docs_perm in H2.
      pose proof (Permutation_map f Hcd) as Hm. by rewrite Hm in H2.
    + by apply key_leb_antisym.
  - exact Hs.
  - apply sort_docs_sorted; [apply key_leb_trans | apply key_leb_false].
  - unfold sort_asc. rewrite sort_docs_perm. apply Permutation_map.
    by symmetry.
Qed.

Lemma response_ids l rs :
  Forall2 (fun d r => listing_to_dict d = Some r) l rs ->
  (fun r : doc => r !! "id") <$> rs
  = (fun d : doc => (fun v => VStr (str_value v)) <$> d !! "_id") <$> l.
Proof.
  induction 1 as [|d r l rs Hdr Hl IH]; [done|].
  rewrite !fmap_cons, IH.
  by apply listing_to_dict_fields in Hdr as (-> & _).
Qed.

(** C3, as the code has it. On a store with unique identifiers a
    reorder always answers [{ok: true}] and leaves every listing as
    [reordered] describes: a listing that no entry of the sequence names
    (malformed entries name none) is unchanged, and a listing named at
    position [j] and by no later entry gets [sortOrder = j] and keeps
    its other fields.  After a full reorder (the identifiers of all the
    stored listings, each once) a listing request answers the first 200
    listings of the submitted order. *)
Theorem reorder_assigns_positions data order st :
  ids_unique (listings st) ->
  py_iter (get_default data "order" (VArr [])) = Some order ->
  let st' := Db (map (reordered 0 order) (listings st)) (site_settings st) in
  reorder_listings data ADMIN_PASSWORD st = (Ok {["ok" := VBool true]}, st')
  /\ (forall d,
        (forall lid, lid ∈ order -> ObjectId_of_value lid = None
                                   \/ ObjectId_of_value lid <> doc_oid d) ->
        reordered 0 order d = d)
  /\ (forall d o j lid,
        doc_oid d = Some o ->
        order !! j = Some lid ->
        ObjectId_of_value lid = Some o ->
        (forall j' lid', (j < j')%nat -> order !! j' = Some lid' ->
                         ObjectId_of_value lid' <> Some o) ->
        reordered 0 order d = <["sortOrder" := VInt (Z.of_nat j)]> d)
  /\ (forall ids oids,
        order = VStr <$> ids ->
        Forall2 (fun s o => ObjectId s = Some o) ids oids ->
        NoDup oids ->
        oids ≡ₚ listing_ids (listings st) ->
        Forall listing_wf (listings st) ->
        exists rs,
          get_listings None st' = (Ok rs, st')
          /\ (fun r : doc => r !! "id") <$> rs
             = take 200 ((fun o => Some (VStr o)) <$> oids)).
Proof.
  intros Hu Hit st'. split; [by apply reorder_listings_map|].
  split; [|split].
  - intros d Hd. unfold reordered.
    destruct (doc_oid d) as [o|] eqn:Ho; [|done].
    cbn [mbind option_bind].
    rewrite (proj2 (assigned_None 0 order o)); [done|].
    intros lid Hl E. destruct (Hd lid Hl) as [E'|E']; congruence.
  - intros d o j lid Ho Hj Hlid Hlater. unfold reordered.
    rewrite Ho. cbn [mbind option_bind].
    rewrite (assigned_at order 0 j lid o Hj Hlid Hlater).
    by rewrite Z.add_0_l.
  - intros ids oids -> Hids Hn Hp Hwf.
    destruct (full_reorder_sorted ids oids _ Hids Hn Hp Hwf)
      as (ds & Hcd & Hds & Hsort).
    assert (Forall listing_wf (listings st')) as Hwf'.
    { cbn [st' listings]. apply Forall_forall. intros d Hd.
      change (d ∈ reordered 0 (VStr <$> ids) <$> listings st) in Hd.
      apply list_elem_of_fmap in Hd as (d0 & -> & Hd0).
      apply reordered_wf. by apply (proj1 (Forall_forall _ _) Hwf). }
    destruct (mapM_listing_to_dict _ st' (find_sorted_wf (selects None) 200 _ Hwf'))
      as (rs & E & F).
    exists rs. rewrite get_listings_query. split; [exact E|].
    rewrite (response_ids _ _ F). unfold find_sorted.
    cbn [selects]. rewrite filter_all. cbn [st' listings].
    rewrite Hsort, fmap_take. f_equal.
    apply list_eq. intros j.
    rewrite (list_lookup_fmap _ (imap _ ds) j), list_lookup_imap.
    rewrite (list_lookup_fmap _ oids j).
    assert ((doc_oid <$> ds) !! j = (Some <$> oids) !! j) as Hj
      by (by rewrite Hds).
    rewrite !list_lookup_fmap in Hj.
    destruct (ds !! j) as [d|] eqn:Hd, (oids !! j) as [o|] eqn:Ho;
      try done.
    cbn [fmap option_fmap option_map] in Hj |- *. injection Hj as Hj.
    f_equal. rewrite lookup_insert_ne by done.
    unfold doc_oid in Hj.
    destruct (d !! "_id") as [[]|]; try done.
    injection Hj as ->. reflexivity.
Qed.

(** *** Create *)

Lemma stored_max_ge c d :
  d ∈ c -> key_leb (sort_key d) (stored_max c) = true.
Proof.
  induction c as [|x c IH]; intros Hd; [inversion Hd|].
  cbn [stored_max foldr]. fold (stored_max c).
  apply elem_of_cons in Hd as [->|Hd].
  - destruct (key_leb (stored_max c) (sort_key x)) eqn:E.
    + apply key_leb_refl.
    + by apply key_leb_false.
  - specialize (IH Hd).
    destruct (key_leb (stored_max c) (sort_key x)) eqn:E; [|done].
    by apply (key_leb_trans _ (stored_max c)).
Qed.

Lemma stored_max_in c :
  c <> [] -> exists d, d ∈ c /\ sort_key d = stored_max c.
Proof.
  induction c as [|x c IH]; intros Hc; [done|].
  cbn [stored_max foldr]. fold (stored_max c).
  destruct (key_leb (stored_max c) (sort_key x)) eqn:E.
  - exists x. split; [by left | done].
  - destruct c as [|y c].
    + cbn in E. done.
    + destruct IH as (d & Hd & Hk); [done|].
      exists d. split; [by right | done].
Qed.

Lemma find_one_desc_None c : find_one_desc c = None -> c = [].
Proof.
  unfold find_one_desc, sort_desc. intros E.
  pose proof (sort_docs_perm (fun a b => key_leb b a) c) as Hp.
  destruct (sort_docs _ c); [|done]. by apply Permutation_nil_l in Hp.
Qed.

Lemma find_one_desc_max c m :
  find_one_desc c = Some m -> m ∈ c /\ sort_key m = stored_max c.
Proof.
  unfold find_one_desc, sort_desc. intros E.
  destruct (sort_docs _ c) as [|m' rest] eqn:Hs; [done|].
  injection E as ->.
  apply sort_docs_head in Hs as [Hm Hmax].
  2: { intros a b c' H1 H2. by apply (key_leb_trans _ b). }
  2: { intros a b. apply key_leb_false. }
  split; [done|].
  apply key_leb_antisym; [by apply stored_max_ge|].
  destruct (stored_max_in c) as (d & Hd & <-).
  { intros ->. inversion Hm. }
  destruct (Hmax d Hd) as [->|H]; [apply key_leb_refl | exact H].
Qed.

Lemma find_app_miss {A} p (c l : list A) :
  existsb p c = false -> List.find p (c ++ l) = List.find p l.
Proof.
  induction c as [|x c IH]; [done|]. cbn [existsb app List.find].
  destruct (p x); [done|]. exact IH.
Qed.

Lemma existsb_find_one p c :
  existsb p c = false <-> find_one p c = None.
Proof.
  unfold find_one. induction c as [|x c IH]; [done|].
  cbn [existsb List.find]. destruct (p x); [done|]. exact IH.
Qed.

Lemma has_oid_insert_id o d : has_oid o (<["_id" := VOid o]> d) = true.
Proof. unfold has_oid. rewrite lookup_insert_eq. apply String.eqb_refl. Qed.

Lemma listing_wf_truthy d : listing_wf d -> doc_truthy d = true.
Proof.
  intros ([o Ho] & _). unfold doc_truthy.
  rewrite bool_decide_eq_false_2; [done|].
  intros ->. unfold doc_oid in Ho. by rewrite lookup_empty in Ho.
Qed.

(** The number [create_listing] computes from the stored listings. *)
Lemma create_sortOrder c :
  Forall listing_wf c ->
  match find_one_desc c with
  | Some max_order =>
      doc_truthy max_order = true
      /\ succ_value (get_default max_order "sortOrder" (VInt 0))
         = Some (VInt (next_sortOrder c))
  | None => next_sortOrder c = 0
  end.
Proof.
  intros Hwf. destruct (find_one_desc c) as [m|] eqn:Hm.
  - apply find_one_desc_max in Hm as [Hin Hk].
    pose proof (proj1 (Forall_forall _ _) Hwf m Hin) as Hwm.
    split; [by apply listing_wf_truthy|].
    unfold next_sortOrder. destruct c as [|x c]; [inversion Hin|].
    rewrite <- Hk. unfold sort_key, get_default.
    destruct Hwm as (_ & _ & [-> | [z ->]]); reflexivity.
  - by apply find_one_desc_None in Hm as ->.
Qed.

Lemma ListingCreate_dict_required listing k :
  k ∈ ["title"; "price"; "status"; "excerpt"; "fullText"; "category"] ->
  is_Some (ListingCreate.dict listing !! k).
Proof.
  intros Hk. unfold ListingCreate.dict.
  repeat (apply elem_of_cons in Hk as [->|Hk];
          [eexists; reflexivity|]).
  inversion Hk.
Qed.

(** The document a creation stores is a well-formed listing. *)
Lemma created_wf listing o z p t1 t2 :
  listing_wf
    (<["_id" := VOid o]>
       (<["sortOrder" := VInt z]>
          (<["updatedAt" := VDate t2]>
             (<["createdAt" := VDate t1]>
                (<["postedDate" := VDate p]> (ListingCreate.dict listing)))))).
Proof.
  split; [|split].
  - unfold doc_oid. rewrite lookup_insert_eq. by eexists.
  - unfold required_fields.
    repeat apply Forall_cons_2; [..|apply Forall_nil_2].
    all: rewrite ?lookup_insert_ne by discriminate.
    all: first
           [ rewrite lookup_insert_eq; by eexists
           | apply ListingCreate_dict_required;
             repeat first [ apply list_elem_of_here
                          | apply list_elem_of_further ] ].
  - right. exists z. rewrite lookup_insert_ne by discriminate.
    apply lookup_insert_eq.
Qed.

Lemma posted_date_spec listing now :
  match ListingCreate.dict listing !! "postedDate" with
  | Some (VStr s) =>
      if str_truthy s then default now (fromisoformat s) else now
  | _ => now
  end = posted_date listing now.
Proof.
  unfold posted_date. destruct listing as [t p s i e f fb c l [pd|]];
    reflexivity.
Qed.

Lemma stored_dict listing :
  stored (ListingCreate.dict listing) = ListingCreate.dict listing.
Proof.
  destruct listing as [t p s i e f fb c l [pd|]]; vm_compute; reflexivity.
Qed.

(** The stored document, field by field. *)
Lemma created_doc_unfold listing now new_id so :
  created_doc listing now new_id so
  = <["_id" := VOid new_id]>
      (<["sortOrder" := bson_dates so]>
         (<["updatedAt" := VDate (ms now)]>
            (<["createdAt" := VDate (ms now)]>
               (<["postedDate" := VDate (ms (posted_date listing now))]>
                  (ListingCreate.dict listing))))).
Proof. unfold created_doc. by rewrite !stored_insert, stored_dict. Qed.

Lemma created_doc_response listing now new_id so :
  listing_to_dict (created_doc listing now new_id so)
  = Some (created_response listing now new_id (bson_dates so)).
Proof.
  rewrite created_doc_unfold. unfold created_response.
  generalize (ms (posted_date listing now)) (ms now) (bson_dates so).
  intros posted t so'.
  destruct listing as [t0 p s i e f fb c l pd]. vm_compute. reflexivity.
Qed.

(** [create_listing] for the right password: the number it computes, the
    insertion, and the answer read back. *)
Lemma create_listing_unfold listing now new_id st :
  create_listing listing ADMIN_PASSWORD now new_id st =
  match
    match find_one_desc (listings st) with
    | Some max_order =>
        if doc_truthy max_order
        then succ_value (get_default max_order "sortOrder" (VInt 0))
        else Some (VInt 0)
    | None => Some (VInt 0)
    end
  with
  | Some sortOrder =>
      match find_one (has_oid new_id) (listings st) with
      | Some _ => (Raise Internal, st)
      | None =>
          let d := created_doc listing now new_id sortOrder in
          let st' := Db (listings st ++ [d]) (site_settings st) in
          match listing_to_dict d with
          | Some r => (Ok r, st')
          | None => (Raise Internal, st')
          end
      end
  | None => (Raise Internal, st)
  end.
Proof.
  unfold create_listing, bind. rewrite verify_admin_ok. cbv [get_db].
  rewrite posted_date_spec.
  assert (forall so,
            (let doc4 :=
               <["sortOrder" := so]>
                 (<["updatedAt" := VDate now]>
                    (<["createdAt" := VDate now]>
                       (<["postedDate" := VDate (posted_date listing now)]>
                          (ListingCreate.dict listing)))) in
             match or_internal (insert_one new_id doc4 (listings st)) st with
             | (Ok c, st1) =>
                 match put_listings c st1 with
                 | (Ok _, st2) =>
                     match or_internal
                             (find_one (has_oid new_id) (listings st2)) st2 with
                     | (Ok created, st3) =>
                         or_internal (listing_to_dict created) st3
                     | (Raise e, st3) => (Raise e, st3)
                     end
                 | (Raise e, st2) => (Raise e, st2)
                 end
             | (Raise e, st1) => (Raise e, st1)
             end)
            = match find_one (has_oid new_id) (listings st) with
              | Some _ => (Raise Internal, st)
              | None =>
                  let d := created_doc listing now new_id so in
                  let st' := Db (listings st ++ [d]) (site_settings st) in
                  match listing_to_dict d with
                  | Some r => (Ok r, st')
                  | None => (Raise Internal, st')
                  end
              end) as Hrest.
  { intros so. cbv zeta. unfold insert_one.
    destruct (existsb (has_oid new_id) (listings st)) eqn:Hex.
    - destruct (find_one (has_oid new_id) (listings st)) eqn:Hf; [done|].
      apply existsb_find_one in Hf. congruence.
    - rewrite (proj1 (existsb_find_one _ _) Hex).
      cbv [or_internal ret put_listings]. cbn [listings].
      fold (created_doc listing now new_id so).
      unfold find_one. rewrite find_app_miss by done.
      cbn [List.find]. unfold created_doc at 1.
      rewrite has_oid_insert_id. fold (created_doc listing now new_id so).
      by destruct (listing_to_dict _). }
  destruct (find_one_desc (listings st)) as [m|].
  - destruct (doc_truthy m).
    + destruct (succ_value _) as [so|]; cbv [or_internal ret raise];
        [|done].
      cbv [or_internal ret] in Hrest. apply Hrest.
    + cbv [or_internal ret] in Hrest |- *. apply Hrest.
  - cbv [or_internal ret] in Hrest |- *. apply Hrest.
Qed.






Lemma find_one_app_None p c l :
  find_one p c = None -> find_one p l = None -> find_one p (c ++ l) = None.
Proof.
  rewrite <- !existsb_find_one, existsb_app. by intros -> ->.
Qed.

Lemma find_one_other_id o d :
  doc_oid d <> Some o -> find_one (has_oid o) [d] = None.
Proof.
  intros Hd. unfold find_one. cbn [List.find].
  destruct (has_oid o d) eqn:E; [|done].
  by apply has_oid_doc_oid in E.
Qed.






(** *** Settings *)

(** The loop of [get_settings] keeps what the document holds and takes
    the default for every other key. *)
Lemma backfill_items items : forall (s : doc) k,
  fold_left
    (fun (s : doc) (kv : string * value) =>
       if decide (is_Some (s !! kv.1)) then s else <[kv.1 := kv.2]> s)
    items s !! k
  = match s !! k with
    | Some v => Some v
    | None => (list_to_map items : doc) !! k
    end.
Proof.
  induction items as [|[k0 v0] items IH]; intros s k; cbn [fold_left].
  - cbn [list_to_map foldr]. rewrite lookup_empty. by destruct (s !! k).
  - rewrite IH. cbn [fst snd list_to_map foldr].
    destruct (decide (is_Some (s !! k0))) as [[v Hv]|Hn].
    + destruct (s !! k) eqn:Hk; [done|].
      rewrite lookup_insert_ne; [done|]. intros ->. congruence.
    + apply eq_None_not_Some in Hn. destruct (decide (k = k0)) as [->|Hne].
      * by rewrite Hn, !lookup_insert_eq.
      * by rewrite !lookup_insert_ne.
Qed.

Lemma backfill_lookup s k :
  backfill s !! k
  = match s !! k with Some v => Some v | None => DEFAULT_SETTINGS !! k end.
Proof. apply backfill_items. Qed.

Lemma has_str_truthy k s d : has_str k s d = true -> doc_truthy d = true.
Proof.
  intros H. apply has_str_spec in H. unfold doc_truthy.
  rewrite bool_decide_eq_false_2; [done|]. intros ->.
  by rewrite lookup_empty in H.
Qed.

Lemma get_settings_found st settings :
  find_one (has_str "_id" "site") (site_settings st) = Some settings ->
  get_settings st = (Ok (backfill (delete "_id" settings)), st).
Proof.
  intros Hf. unfold get_settings, bind, get_db. rewrite Hf.
  apply find_one_Some in Hf as [_ Hs].
  by rewrite (has_str_truthy _ _ _ Hs).
Qed.

Lemma get_settings_none st :
  find_one (has_str "_id" "site") (site_settings st) = None ->
  get_settings st = (Ok DEFAULT_SETTINGS, st).
Proof. intros Hf. unfold get_settings, bind, get_db. by rewrite Hf. Qed.

(** The store keeps a value of a JSON body as it is. *)
Lemma bson_dates_json : forall v, json_value v = true -> bson_dates v = v.
Proof.
  fix IH 1. intros [| b | z | q | s | t | o | l | kvs]; cbn; try done.
  - intros H. f_equal. induction l as [|x l IHl]; [done|].
    cbn in H |- *. apply andb_true_iff in H as [Hx Hl].
    f_equal; [by apply IH | by apply IHl].
  - intros H. f_equal. induction kvs as [|[k x] kvs IHl]; [done|].
    cbn in H |- *. apply andb_true_iff in H as [Hx Hl].
    f_equal; [f_equal; by apply IH | by apply IHl].
Qed.

Lemma json_body_lookup data k v :
  json_body data = true -> data !! k = Some v -> bson_dates v = v.
Proof.
  intros H Hk. apply bool_decide_eq_true_1 in H.
  apply bson_dates_json. by apply (H k v).
Qed.

Lemma plain_update_insert k v upd :
  plain_key k = true -> plain_value v = true ->
  plain_update upd = true -> plain_update (<[k := v]> upd) = true.
Proof.
  intros Hk Hv H. apply bool_decide_eq_true_1 in H.
  apply bool_decide_eq_true_2, map_Forall_insert_2; [|done].
  by rewrite Hk, Hv.
Qed.

Lemma int64_update_insert k v upd :
  int64_value v = true ->
  int64_update upd = true -> int64_update (<[k := v]> upd) = true.
Proof.
  intros Hv H. apply bool_decide_eq_true_1 in H.
  by apply bool_decide_eq_true_2, map_Forall_insert_2.
Qed.

Lemma int64_update_delete k upd :
  int64_update upd = true -> int64_update (delete k upd) = true.
Proof.
  intros H. apply bool_decide_eq_true_1 in H.
  apply bool_decide_eq_true_2. intros k' v Hk.
  apply lookup_delete_Some in Hk as [_ Hk]. by apply (H k' v).
Qed.

(** The stamp replaces a submitted [updatedAt] before the store sees
    the body, so only the other fields decide whether it is storable. *)
Lemma int64_update_stamp (data : doc) s :
  int64_update (<["updatedAt" := VStr s]> data)
  = int64_update (delete "updatedAt" data).
Proof.
  rewrite <- (insert_delete_eq data).
  destruct (int64_update (delete "updatedAt" data)) eqn:E.
  - by apply int64_update_insert.
  - apply bool_decide_eq_false_2. apply bool_decide_eq_false_1 in E.
    intros H. apply E. intros k v Hk. apply (H k v).
    rewrite lookup_insert_ne; [done|].
    intros <-. by rewrite lookup_delete_eq in Hk.
Qed.

(** What [update_settings] does with a plain body. *)
Lemma update_settings_plain data now st :
  plain_update data = true ->
  update_settings data ADMIN_PASSWORD now st
  = let upd : doc := <["updatedAt" := VStr (isoformat now)]> data in
    if int64_update upd then
      if match upd !! "_id" with
         | None => true
         | Some (VStr s) => String.eqb s "site"
         | Some _ => false
         end
      then
        match update_one (has_str "_id" "site") upd (site_settings st) with
        | (O, _) =>
            (Ok {["ok" := VBool true]},
             Db (listings st)
                (site_settings st
                   ++ [apply_set upd {["_id" := VStr "site"]}]))
        | (_, c') => (Ok {["ok" := VBool true]}, Db (listings st) c')
        end
      else (Raise Internal, st)
    else (Raise Internal, st).
Proof.
  intros Hp. unfold update_settings, bind. rewrite verify_admin_ok.
  cbv [get_db]. cbv zeta. unfold update_one_upsert.
  rewrite (plain_update_insert "updatedAt" (VStr (isoformat now)) data)
    by done.
  destruct (int64_update _); [|reflexivity].
  destruct (match _ !! "_id" with Some _ => _ | None => _ end);
    [|reflexivity].
  destruct (update_one _ _ _) as [[|n] c']; reflexivity.
Qed.

Lemma update_settings_ok data now st :
  plain_update data = true ->
  int64_update (delete "updatedAt" data) = true ->
  data !! "_id" = None \/ data !! "_id" = Some (VStr "site") ->
  let upd : doc := <["updatedAt" := VStr (isoformat now)]> data in
  let old := find_one (has_str "_id" "site") (site_settings st) in
  let new := apply_set upd (default {["_id" := VStr "site"]} old) in
  exists c,
    update_settings data ADMIN_PASSWORD now st
    = (Ok {["ok" := VBool true]}, Db (listings st) c)
    /\ find_one (has_str "_id" "site") c = Some new
    /\ match old with
       | Some d =>
           exists i, site_settings st !! i = Some d
                     /\ c = <[i := new]> (site_settings st)
       | None => c = site_settings st ++ [new]
       end.
Proof.
  intros Hplain Hint Hid upd old new.
  assert (upd !! "_id" = data !! "_id") as Hupd.
  { unfold upd. by rewrite lookup_insert_ne. }
  assert (has_str "_id" "site" new = true) as Hnew.
  { apply has_str_spec. unfold new, apply_set.
    destruct Hid as [Hid|Hid]; rewrite Hid in Hupd.
    - rewrite lookup_union_r by (by apply stored_lookup_None). unfold old.
      destruct (find_one _ _) as [d|] eqn:Hf; cbn [default from_option id].
      + apply find_one_Some in Hf as [_ Hf]. by apply has_str_spec.
      + apply lookup_singleton_eq.
    - apply lookup_union_Some_l. by rewrite stored_lookup, Hupd. }
  rewrite update_settings_plain by done. cbv zeta. fold upd.
  unfold upd at 1. rewrite int64_update_stamp, Hint, Hupd.
  assert (match data !! "_id" with
          | Some (VStr s) => String.eqb s "site"
          | Some _ => false
          | None => true
          end = true) as ->.
  { by destruct Hid as [-> | ->]. }
  destruct (find_one (has_str "_id" "site") (site_settings st))
    as [d|] eqn:Hf.
  - destruct (update_one_match _ upd _ _ Hf) as (i & Hi & Hp & E).
    pose proof (update_one_find _ upd _ _ Hf) as Hfind.
    rewrite E in Hfind |- *. cbn [snd] in Hfind.
    exists (<[i := new]> (site_settings st)).
    split; [reflexivity|]. split; [by apply Hfind|].
    exists i. by split.
  - rewrite (update_one_no_match _ upd _ Hf).
    exists (site_settings st ++ [new]).
    split; [reflexivity|]. split; [|reflexivity].
    unfold find_one. rewrite find_app_miss by (by apply existsb_find_one).
    cbn [List.find]. by rewrite Hnew.
Qed.

(** The fields a settings update sets: those submitted, under the new
    [updatedAt], as the store holds them. *)
Lemma settings_merge_lookup (data old : doc) stamp k :
  apply_set (<["updatedAt" := stamp]> data) old !! k
  = if decide (k = "updatedAt") then Some (bson_dates stamp)
    else match data !! k with
         | Some v => Some (bson_dates v)
         | None => old !! k
         end.
Proof.
  unfold apply_set. case_decide as Hk.
  - subst k. apply lookup_union_Some_l.
    by rewrite stored_lookup, lookup_insert_eq.
  - destruct (data !! k) as [v|] eqn:Hd.
    + apply lookup_union_Some_l.
      by rewrite stored_lookup, lookup_insert_ne, Hd.
    + apply lookup_union_r.
      by rewrite stored_lookup, lookup_insert_ne, Hd.
Qed.

Lemma plain_update_singleton k v :
  plain_key k = true -> plain_value v = true ->
  plain_update {[k := v]} = true.
Proof.
  intros Hk Hv. apply bool_decide_eq_true_2, map_Forall_singleton.
  by rewrite Hk, Hv.
Qed.

Lemma int64_update_singleton k v :
  int64_value v = true -> int64_update {[k := v]} = true.
Proof.
  intros Hv. by apply bool_decide_eq_true_2, map_Forall_singleton.
Qed.

Lemma json_body_singleton k v :
  json_value v = true -> json_body {[k := v]} = true.
Proof.
  intros Hv. by apply bool_decide_eq_true_2, map_Forall_singleton.
Qed.

(** The updates the listing handlers send name top-level fields, which
    [$set] reads as [apply_set] does. *)
Lemma listing_updates_are_plain u now i :
  plain_update (<["updatedAt" := VDate now]> (ListingUpdate.provided u))
  = true
  /\ plain_update ({["sortOrder" := VInt i]} : doc) = true.
Proof.
  split; [|by apply plain_update_singleton].
  apply plain_update_insert; [reflexivity..|].
  apply bool_decide_eq_true_2. intros k v Hk.
  rewrite provided_spec in Hk.
  destruct u as [t p s i0 e f fb c l]. unfold ListingUpdate.field in Hk.
  repeat case_decide; subst; cbn in Hk; try discriminate Hk.
  all: apply fmap_Some in Hk as (x & _ & ->); reflexivity.
Qed.

Lemma int64_update_false k v upd :
  upd !! k = Some v -> int64_value v = false -> int64_update upd = false.
Proof.
  intros Hk Hv. apply bool_decide_eq_false_2. intros H.
  specialize (H k v Hk). congruence.
Qed.

(** C5. Reading the settings never fails and leaves the database as it
    is.  It answers the stored settings document without its [_id], each
    key of the default map that the document lacks taking its default;
    with no settings document it answers the default map.  After an
    authorised update of [siteTitle] alone on a store without settings
    document, it answers the new title, the update's [updatedAt] stamp,
    and the default under every other key. *)
Theorem settings_get_backfills_defaults st :
  (exists r,
     get_settings st = (Ok r, st)
     /\ match find_one (has_str "_id" "site") (site_settings st) with
        | Some settings =>
            forall k,
              r !! k = match delete "_id" settings !! k with
                       | Some v => Some v
                       | None => DEFAULT_SETTINGS !! k
                       end
        | None => r = DEFAULT_SETTINGS
        end)
  /\ (forall X now,
        find_one (has_str "_id" "site") (site_settings st) = None ->
        exists st' r,
          update_settings {["siteTitle" := VStr X]} ADMIN_PASSWORD now st
          = (Ok {["ok" := VBool true]}, st')
          /\ listings st' = listings st
          /\ get_settings st' = (Ok r, st')
          /\ r !! "siteTitle" = Some (VStr X)
          /\ r !! "updatedAt" = Some (VStr (isoformat now))
          /\ forall k, k <> "siteTitle" -> k <> "updatedAt" ->
                       r !! k = DEFAULT_SETTINGS !! k).
Proof.
  split.
  - destruct (find_one (has_str "_id" "site") (site_settings st))
      as [settings|] eqn:Hf.
    + exists (backfill (delete "_id" settings)).
      split; [by apply get_settings_found|]. intros k. apply backfill_lookup.
    + exists DEFAULT_SETTINGS. split; [by apply get_settings_none | done].
  - intros X now Hf.
    pose proof (update_settings_ok {["siteTitle" := VStr X]} now st) as H.
    cbv zeta in H. rewrite Hf in H. cbn [default from_option id] in H.
    destruct H as (c & E & Hfind & _).
    { by apply plain_update_singleton. }
    { by apply int64_update_delete, int64_update_singleton. }
    { left. by rewrite lookup_singleton_ne. }
    eexists (Db (listings st) c), _. split; [exact E|].
    split; [reflexivity|].
    split; [by apply (get_settings_found (Db (listings st) c))|].
    split; [|split].
    + rewrite backfill_lookup, lookup_delete_ne by discriminate.
      rewrite settings_merge_lookup, decide_False by discriminate.
      by rewrite lookup_singleton_eq.
    + rewrite backfill_lookup, lookup_delete_ne by discriminate.
      by rewrite settings_merge_lookup, decide_True.
    + intros k Hk1 Hk2. rewrite backfill_lookup.
      destruct (decide (k = "_id")) as [->|Hk3].
      * by rewrite lookup_delete_eq.
      * rewrite lookup_delete_ne by done.
        rewrite settings_merge_lookup, decide_False by done.
        by rewrite !lookup_singleton_ne.
Qed.

(** C7, as the code has it. Take an authorised settings update whose
    body has plain field names.  If a submitted field other than
    [updatedAt] holds an integer beyond 64 bits, the request fails with
    a 500 and nothing is stored.  Otherwise, for a JSON body that does
    not move the document to another [_id], the request answers
    [{ok: true}] and touches the settings document only, which it
    creates when there is none: there every submitted field overwrites,
    as submitted, every other field stays, and [updatedAt] holds the
    clock reading, also when the body submits an [updatedAt] of its
    own. *)
Theorem settings_update_merges data now st :
  plain_update data = true ->
  (int64_update (delete "updatedAt" data) = false ->
   update_settings data ADMIN_PASSWORD now st = (Raise Internal, st))
  /\ (int64_update (delete "updatedAt" data) = true ->
      json_body data = true ->
      data !! "_id" = None \/ data !! "_id" = Some (VStr "site") ->
      let found := find_one (has_str "_id" "site") (site_settings st) in
      let old : doc := default {["_id" := VStr "site"]} found in
      exists c new,
        update_settings data ADMIN_PASSWORD now st
        = (Ok {["ok" := VBool true]}, Db (listings st) c)
        /\ find_one (has_str "_id" "site") c = Some new
        /\ (forall k,
              new !! k = if decide (k = "updatedAt")
                         then Some (VStr (isoformat now))
                         else match data !! k with
                              | Some v => Some v
                              | None => old !! k
                              end)
        /\ match found with
           | Some d =>
               exists i, site_settings st !! i = Some d
                         /\ c = <[i := new]> (site_settings st)
           | None => c = site_settings st ++ [new]
           end).
Proof.
  intros Hplain. split.
  - intros Hint. rewrite update_settings_plain by done. cbv zeta.
    by rewrite int64_update_stamp, Hint.
  - intros Hint Hjson Hid found old.
    destruct (update_settings_ok data now st Hplain Hint Hid)
      as (c & E & Hfind & Hc).
    exists c. eexists. split; [exact E|]. split; [exact Hfind|].
    split; [|exact Hc]. intros k. rewrite settings_merge_lookup.
    case_decide; [done|].
    destruct (data !! k) as [v|] eqn:Hk; [|done].
    by rewrite (json_body_lookup data k v).
Qed.

End Handlers.

(** ** Further properties of the handlers *)

Section MoreHandlers.
Context `{env : Env}.

(** *** Reading *)

Lemma mapM_or_internal_state {A B} (f : A -> option B) l st :
  (mapM (fun a => or_internal (f a)) l st).2 = st.
Proof.
  induction l as [|a l IH]; [done|]. cbn [mapM]. unfold bind at 1.
  destruct (f a) as [b|]; cbv [or_internal ret raise]; [|done].
  unfold bind. destruct (mapM _ l st) as [[bs|e] st1]; exact IH.
Qed.

(** X1. The public endpoints and the password check only read: whatever the
    input and whatever the store holds, and whether they answer or fail,
    the database is afterwards what it was. *)
Theorem reading_changes_nothing st :
  (forall category, (get_listings category st).2 = st)
  /\ (forall listing_id, (get_listing listing_id st).2 = st)
  /\ (get_settings st).2 = st
  /\ (get_categories st).2 = st
  /\ (forall auth, (admin_verify auth st).2 = st).
Proof.
  split; [|split; [|split; [|split]]].
  - intros category. unfold get_listings, bind, get_db.
    apply mapM_or_internal_state.
  - intros listing_id. unfold get_listing.
    destruct (ObjectId_is_valid (VStr listing_id)); cbn [negb]; [|done].
    unfold bind. destruct (ObjectId listing_id) as [o|];
      cbv [or_internal ret raise get_db]; [|done].
    destruct (find_one (has_oid o) (listings st)) as [d|]; [|done].
    destruct (doc_truthy d); [|done]. by destruct (listing_to_dict d).
  - unfold get_settings, bind, get_db.
    destruct (find_one _ _) as [d|]; [|done]. by destruct (doc_truthy d).
  - unfold get_categories, bind, get_db.
    destruct (find_one _ _) as [d|].
    + destruct (doc_truthy d && _).
      * by destruct (d !! "categories").
      * by destruct (DEFAULT_SETTINGS !! "categories").
    + by destruct (DEFAULT_SETTINGS !! "categories").
  - intros auth. unfold admin_verify, bind, verify_admin.
    by destruct (decide (AdminAuth.password auth ≠ ADMIN_PASSWORD)).
Qed.

(** *** Categories and settings *)

Lemma default_categories :
  is_Some (DEFAULT_SETTINGS !! "categories").
Proof.
  destruct (DEFAULT_SETTINGS !! "categories") eqn:E; [by eexists|].
  vm_compute in E. discriminate E.
Qed.

Lemma default_no_id : DEFAULT_SETTINGS !! "_id" = None.
Proof. vm_compute. reflexivity. Qed.

(** X2. The categories endpoint never fails, and answers what the settings
    endpoint answers under [categories]: the stored value when the
    settings document has the key, the default list otherwise. *)
Theorem categories_agree_with_settings st :
  exists v r,
    get_categories st = (Ok v, st)
    /\ get_settings st = (Ok r, st)
    /\ r !! "categories" = Some v
    /\ match find_one (has_str "_id" "site") (site_settings st)
             ≫= (fun d : doc => d !! "categories") with
       | Some stored => v = stored
       | None => DEFAULT_SETTINGS !! "categories" = Some v
       end.
Proof.
  destruct default_categories as [dc Hdc].
  unfold get_categories, bind, get_db.
  destruct (find_one (has_str "_id" "site") (site_settings st))
    as [d|] eqn:Hf; cbn [mbind option_bind].
  - rewrite (get_settings_found st d Hf).
    pose proof (find_one_Some _ _ _ Hf) as [_ Hs].
    rewrite (has_str_truthy _ _ _ Hs). cbn [andb].
    destruct (d !! "categories") as [v|] eqn:Hc.
    + rewrite bool_decide_eq_true_2 by (by eexists).
      exists v. eexists. split; [reflexivity|]. split; [reflexivity|].
      split; [|done].
      by rewrite backfill_lookup, lookup_delete_ne, Hc by discriminate.
    + rewrite bool_decide_eq_false_2 by (by intros [? ?]).
      rewrite Hdc. exists dc. eexists. split; [reflexivity|].
      split; [reflexivity|]. split; [|done].
      by rewrite backfill_lookup, lookup_delete_ne, Hc by discriminate.
  - rewrite (get_settings_none st Hf), Hdc.
    exists dc, DEFAULT_SETTINGS. by repeat split.
Qed.

(** X3. The answer of the settings endpoint always carries every key of the
    default map, and never the [_id] of the stored document. *)
Theorem settings_answer_shape st r :
  get_settings st = (Ok r, st) ->
  r !! "_id" = None
  /\ forall k, is_Some (DEFAULT_SETTINGS !! k) -> is_Some (r !! k).
Proof.
  destruct (find_one (has_str "_id" "site") (site_settings st))
    as [d|] eqn:Hf.
  - rewrite (get_settings_found st d Hf). intros H.
    assert (r = backfill (delete "_id" d)) as -> by congruence. split.
    + by rewrite backfill_lookup, lookup_delete_eq, default_no_id.
    + intros k Hk. rewrite backfill_lookup.
      by destruct (delete "_id" d !! k).
  - rewrite (get_settings_none st Hf). intros H.
    assert (r = DEFAULT_SETTINGS) as -> by congruence.
    split; [apply default_no_id | done].
Qed.

(** X4. Reading the settings after an update of a JSON body with plain
    field names and storable integers: the body's fields and the
    update's stamp, over what was read before. *)
Theorem settings_update_reads_back data now st :
  json_body data = true ->
  plain_update data = true ->
  int64_update (delete "updatedAt" data) = true ->
  data !! "_id" = None \/ data !! "_id" = Some (VStr "site") ->
  exists st' before after,
    get_settings st = (Ok before, st)
    /\ update_settings data ADMIN_PASSWORD now st
       = (Ok {["ok" := VBool true]}, st')
    /\ get_settings st' = (Ok after, st')
    /\ (forall k,
          after !! k =
          if decide (k = "_id") then None
          else if decide (k = "updatedAt") then Some (VStr (isoformat now))
          else match data !! k with
               | Some v => Some v
               | None => before !! k
               end)
    /\ (forall v, data !! "categories" = Some v ->
                  get_categories st' = (Ok v, st')).
Proof.
  intros Hjson Hplain Hint Hid.
  pose proof (update_settings_ok data now st Hplain Hint Hid) as H.
  cbv zeta in H.
  destruct H as (c & E & Hfind & _).
  set (found := find_one (has_str "_id" "site") (site_settings st)) in *.
  set (new := apply_set (<["updatedAt" := VStr (isoformat now)]> data)
                (default {["_id" := VStr "site"]} found)) in *.
  exists (Db (listings st) c).
  exists (match found with
          | Some d => backfill (delete "_id" d)
          | None => DEFAULT_SETTINGS
          end), (backfill (delete "_id" new)).
  split.
  { unfold found. destruct (find_one _ _) as [d|] eqn:Hf.
    - by apply get_settings_found.
    - by apply get_settings_none. }
  split; [exact E|].
  split; [by apply (get_settings_found (Db (listings st) c))|].
  split.
  - intros k. rewrite backfill_lookup.
    destruct (decide (k = "_id")) as [->|Hk].
    { by rewrite lookup_delete_eq, default_no_id. }
    rewrite lookup_delete_ne by done. unfold new.
    rewrite settings_merge_lookup.
    destruct (decide (k = "updatedAt")) as [->|Hk2]; [done|].
    destruct (data !! k) as [v|] eqn:Hv.
    { by rewrite (json_body_lookup data k v). }
    destruct found as [d|]; cbn [default from_option id].
    + by rewrite backfill_lookup, lookup_delete_ne.
    + by rewrite lookup_singleton_ne.
  - intros v Hv. unfold get_categories, bind, get_db.
    cbn [site_settings]. rewrite Hfind.
    pose proof (find_one_Some _ _ _ Hfind) as [_ Hs].
    rewrite (has_str_truthy _ _ _ Hs). cbn [andb].
    assert (new !! "categories" = Some v) as Hn.
    { unfold new. rewrite settings_merge_lookup.
      rewrite decide_False, Hv by discriminate.
      by rewrite (json_body_lookup data "categories" v). }
    rewrite Hn. by rewrite bool_decide_eq_true_2 by (by eexists).
Qed.

(** The verification endpoint accepts the configured secret and nothing
    else, by exact comparison. *)
Lemma admin_verify_accepts_the_secret auth st :
  admin_verify auth st
  = (if decide (AdminAuth.password auth = ADMIN_PASSWORD)
     then Ok {["ok" := VBool true]} else Raise Unauthorized, st).
Proof.
  unfold admin_verify, bind.
  destruct (decide (AdminAuth.password auth = ADMIN_PASSWORD)) as [->|Hp].
  - by rewrite verify_admin_ok.
  - by rewrite verify_admin_wrong.
Qed.

(** *** Create, step by step *)

Lemma create_listing_Ok listing password now new_id st r st' :
  create_listing listing password now new_id st = (Ok r, st') ->
  password = ADMIN_PASSWORD
  /\ find_one (has_oid new_id) (listings st) = None
  /\ exists so,
       r = created_response listing now new_id (bson_dates so)
       /\ st' = Db (listings st ++ [created_doc listing now new_id so])
                  (site_settings st).
Proof.
  destruct (decide (password = ADMIN_PASSWORD)) as [->|Hp].
  2: { unfold create_listing, bind. by rewrite verify_admin_wrong. }
  rewrite create_listing_unfold. intros H. split; [done|].
  destruct (match find_one_desc (listings st) with
            | Some m => _ | None => _ end) as [so|]; [|done].
  destruct (find_one (has_oid new_id) (listings st)); [done|].
  split; [done|]. exists so. cbv zeta in H.
  rewrite created_doc_response in H. split; congruence.
Qed.

(** X6. A creation answers the fields submitted, the identifier generated,
    [createdAt] at the clock reading, and under [postedDate] the date
    submitted when it parses and the clock reading otherwise; both dates
    are answered as the store keeps them, cut to the millisecond. *)
Theorem create_answers_the_submitted_fields
  listing password now new_id st r st' :
  create_listing listing password now new_id st = (Ok r, st') ->
  (exists sortOrder, r = created_response listing now new_id sortOrder)
  /\ r !! "createdAt" = Some (VStr (isoformat (ms now)))
  /\ r !! "postedDate"
     = Some (VStr (isoformat (ms (posted_date listing now))))
  /\ (ListingCreate.postedDate listing = None -> posted_date listing now = now)
  /\ (ListingCreate.postedDate listing = Some EmptyString ->
      posted_date listing now = now)
  /\ (forall s, ListingCreate.postedDate listing = Some s ->
                fromisoformat s = None -> posted_date listing now = now)
  /\ (forall s t, ListingCreate.postedDate listing = Some s ->
                  s <> EmptyString -> fromisoformat s = Some t ->
                  posted_date listing now = t).
Proof.
  intros H. apply create_listing_Ok in H as (_ & _ & so & -> & _).
  split; [by eexists|]. split; [reflexivity|]. split; [reflexivity|].
  unfold posted_date. split; [by intros ->|]. split; [by intros ->|].
  split.
  - intros s -> ->. by destruct (str_truthy s).
  - intros s t -> Hs ->. by destruct s.
Qed.

Lemma created_doc_id listing now new_id so :
  has_oid new_id (created_doc listing now new_id so) = true.
Proof. apply has_oid_insert_id. Qed.

Lemma has_oid_truthy o d : has_oid o d = true -> doc_truthy d = true.
Proof.
  intros H. apply has_oid_doc_oid in H. unfold doc_truthy.
  rewrite bool_decide_eq_false_2; [done|]. intros ->.
  unfold doc_oid in H. by rewrite lookup_empty in H.
Qed.

(** What [get_listing] answers for a stored listing. *)
Lemma get_listing_found listing_id o d st :
  ObjectId listing_id = Some o ->
  find_one (has_oid o) (listings st) = Some d ->
  get_listing listing_id st
  = (match listing_to_dict d with Some r => Ok r | None => Raise Internal end,
     st).
Proof.
  intros Ho Hf. unfold get_listing.
  rewrite (ObjectId_is_valid_Some _ _ Ho). cbn [negb]. unfold bind.
  rewrite Ho. cbv [or_internal ret get_db]. rewrite Hf.
  apply find_one_Some in Hf as [_ Hd].
  rewrite (has_oid_truthy _ _ Hd). by destruct (listing_to_dict d).
Qed.

(** X7. Reading a listing back under the identifier a creation answered gives
    the creation's answer. *)
Theorem create_then_get listing password now new_id st r st' :
  ObjectId new_id = Some new_id ->
  create_listing listing password now new_id st = (Ok r, st') ->
  r !! "id" = Some (VStr new_id)
  /\ get_listing new_id st' = (Ok r, st').
Proof.
  intros Hid H. apply create_listing_Ok in H as (_ & Hf & so & -> & ->).
  split; [reflexivity|].
  rewrite (get_listing_found new_id new_id
             (created_doc listing now new_id so)); [|done|].
  - by rewrite created_doc_response.
  - cbn [listings]. unfold find_one.
    rewrite find_app_miss by (by apply existsb_find_one).
    cbn [List.find]. by rewrite created_doc_id.
Qed.

(** X8. Reading a listing back after an update gives the update's answer. *)
Theorem update_then_get listing_id updates password now st r st' :
  update_listing listing_id updates password now st = (Ok r, st') ->
  get_listing listing_id st' = (Ok r, st').
Proof.
  unfold update_listing, bind.
  destruct (decide (password = ADMIN_PASSWORD)) as [->|Hpw];
    [rewrite verify_admin_ok | by rewrite verify_admin_wrong].
  destruct (ObjectId_is_valid (VStr listing_id)) eqn:Hv; cbn [negb];
    [|done].
  apply ObjectId_is_valid_true in Hv as [o Ho].
  destruct (bool_decide (ListingUpdate.provided updates = ∅)); [done|].
  rewrite Ho. cbv [or_internal ret get_db].
  destruct (update_one _ _ _) as [n c]. cbv [put_listings].
  destruct (n =? 0)%nat; [done|]. cbn [listings].
  destruct (find_one (has_oid o) c) as [d|] eqn:Hf; [|done].
  destruct (listing_to_dict d) as [r'|] eqn:Hr; [|done].
  intros H. assert (r' = r) as -> by congruence.
  assert (st' = Db c (site_settings st)) as -> by congruence.
  rewrite (get_listing_found listing_id o d); [|done|done].
  by rewrite Hr.
Qed.

(** X9. An update of a listing that is not there: a malformed identifier is
    not found whatever the fields, the empty set included, and a
    well-formed identifier that matches no listing is not found when some
    field is provided.  Neither changes the database. *)
Theorem update_of_unknown_listing listing_id updates now st :
  (ObjectId listing_id = None ->
   update_listing listing_id updates ADMIN_PASSWORD now st
   = (Raise NotFound, st))
  /\ (forall o,
        ObjectId listing_id = Some o ->
        find_one (has_oid o) (listings st) = None ->
        ListingUpdate.provided updates <> ∅ ->
        update_listing listing_id updates ADMIN_PASSWORD now st
        = (Raise NotFound, st)).
Proof.
  split.
  - intros Hn. unfold update_listing, bind. rewrite verify_admin_ok.
    by rewrite (ObjectId_is_valid_None _ Hn).
  - intros o Ho Hf Hp. unfold update_listing, bind.
    rewrite verify_admin_ok, (ObjectId_is_valid_Some _ _ Ho). cbn [negb].
    rewrite bool_decide_eq_false_2 by done.
    rewrite Ho. cbv [or_internal ret get_db].
    rewrite (update_one_no_match _ _ _ Hf). cbv [put_listings].
    cbn [Nat.eqb]. by rewrite db_eta.
Qed.

(** X10. Deleting a stored listing removes the first document under the
    identifier and no other, answers the identifier as it was submitted,
    and with unique identifiers leaves no listing under it. *)
Theorem delete_removes_the_listing listing_id o d st :
  ObjectId listing_id = Some o ->
  find_one (has_oid o) (listings st) = Some d ->
  exists i,
    listings st !! i = Some d
    /\ delete_listing listing_id ADMIN_PASSWORD st
       = (Ok (list_to_map [("ok", VBool true); ("deleted", VStr listing_id)]),
          Db (delete i (listings st)) (site_settings st))
    /\ (ids_unique (listings st) ->
        find_one (has_oid o) (delete i (listings st)) = None).
Proof.
  intros Ho Hf. destruct (delete_one_match _ _ _ Hf) as (i & Hi & E).
  exists i. split; [done|]. split.
  - unfold delete_listing, bind. rewrite verify_admin_ok.
    rewrite (ObjectId_is_valid_Some _ _ Ho). cbn [negb].
    rewrite Ho. cbv [or_internal ret get_db]. rewrite E.
    cbv [put_listings]. reflexivity.
  - intros Hu. pose proof (delete_one_gone o _ Hu) as Hg.
    by rewrite E in Hg.
Qed.

(** *** Reorder, whatever the body *)

Lemma renumbered_trans d1 d2 d3 :
  renumbered d1 d2 -> renumbered d2 d3 -> renumbered d1 d3.
Proof.
  intros [->|[i ->]] [->|[j ->]]; unfold renumbered; eauto.
  right. exists j. by rewrite insert_insert_eq.
Qed.

Lemma Forall2_renumbered_refl c : Forall2 renumbered c c.
Proof. apply Forall_Forall2_diag, Forall_forall. intros d _. by left. Qed.

Lemma update_one_renumbered p i c :
  Forall2 renumbered c (update_one p {["sortOrder" := VInt i]} c).2.
Proof.
  induction c as [|d c IH]; cbn [update_one]; [constructor|].
  destruct (p d); cbn [snd].
  - constructor; [|apply Forall2_renumbered_refl].
    right. exists i. unfold apply_set. by rewrite insert_union_singleton_l.
  - destruct (update_one p _ c) as [n c']. cbn [snd] in *.
    constructor; [by left | done].
Qed.

Lemma reorder_step_renumbered i lid st :
  exists c, reorder_step i lid st = (Ok tt, Db c (site_settings st))
            /\ Forall2 renumbered (listings st) c.
Proof.
  destruct (ObjectId_of_value lid) as [o|] eqn:Ho.
  - unfold reorder_step.
    rewrite (proj2 (ObjectId_is_valid_of_value lid)) by (by rewrite Ho).
    rewrite Ho. cbv [bind or_internal ret get_db].
    pose proof (update_one_renumbered (has_oid o) i (listings st)) as Hr.
    destruct (update_one _ _ _) as [n c]. cbv [put_listings].
    by exists c.
  - exists (listings st). rewrite reorder_step_invalid, db_eta by done.
    split; [done | apply Forall2_renumbered_refl].
Qed.

Lemma reorder_from_renumbered order : forall i st,
  exists c, reorder_from i order st = (Ok tt, Db c (site_settings st))
            /\ Forall2 renumbered (listings st) c.
Proof.
  induction order as [|lid rest IH]; intros i st; cbn [reorder_from].
  - exists (listings st). rewrite db_eta.
    split; [done | apply Forall2_renumbered_refl].
  - unfold bind. destruct (reorder_step_renumbered i lid st) as (c & -> & Hc).
    destruct (IH (i + 1) (Db c (site_settings st))) as (c' & -> & Hc').
    exists c'. cbn [listings site_settings] in *. split; [done|].
    eapply Forall2_trans; [apply renumbered_trans | exact Hc | exact Hc'].
Qed.

Lemma reorder_listings_renumbered data password st :
  exists c, (reorder_listings data password st).2 = Db c (site_settings st)
            /\ Forall2 renumbered (listings st) c.
Proof.
  unfold reorder_listings, bind.
  destruct (decide (password = ADMIN_PASSWORD)) as [->|Hp].
  - rewrite verify_admin_ok.
    destruct (py_iter _) as [order|]; cbv [or_internal ret raise].
    + destruct (reorder_from_renumbered order 0 st) as (c & -> & Hc).
      by exists c.
    + exists (listings st). rewrite db_eta.
      split; [done | apply Forall2_renumbered_refl].
  - rewrite verify_admin_wrong by done. exists (listings st).
    rewrite db_eta. split; [done | apply Forall2_renumbered_refl].
Qed.

(** X11. Whatever the body and the password, and whether it answers or
    fails, a reorder adds no listing, removes none, leaves the settings
    alone, and changes no field of a listing but [sortOrder]. *)
Theorem reorder_touches_only_sortOrder data password st :
  let st' := (reorder_listings data password st).2 in
  site_settings st' = site_settings st
  /\ length (listings st') = length (listings st)
  /\ forall j k,
       k <> "sortOrder" ->
       listings st' !! j ≫= (fun d : doc => d !! k)
       = listings st !! j ≫= (fun d : doc => d !! k).
Proof.
  destruct (reorder_listings_renumbered data password st) as (c & E & Hc).
  cbv zeta. rewrite E. cbn [listings site_settings].
  split; [done|]. split; [symmetry; by eapply Forall2_length|].
  intros j k Hk. pose proof (proj1 (Forall2_lookup _ _ _) Hc j) as Hj.
  inversion Hj as [d d' [->|[i ->]] E1 E2 | E1 E2]; try done.
  cbn [mbind option_bind]. by rewrite lookup_insert_ne.
Qed.

Lemma ObjectId_of_char a : ObjectId (String a EmptyString) = None.
Proof. reflexivity. Qed.

Lemma chars_invalid s lid :
  lid ∈ chars s -> ObjectId_of_value lid = None.
Proof.
  induction s as [|a s IH]; cbn [chars]; [by intros ?%elem_of_nil|].
  intros [->|H]%elem_of_cons; [apply ObjectId_of_char | by apply IH].
Qed.

(** X12. The bodies a client may send in place of a list of identifiers: with
    no [order] the reorder answers [{ok: true}] and changes nothing; so
    it does when [order] is a string, whose characters are no
    identifiers; when [order] is null, a boolean or a number the loop
    cannot start, the request fails with a 500 and changes nothing. *)
Theorem reorder_of_other_bodies data st :
  (data !! "order" = None ->
   reorder_listings data ADMIN_PASSWORD st = (Ok {["ok" := VBool true]}, st))
  /\ (forall s,
        data !! "order" = Some (VStr s) ->
        reorder_listings data ADMIN_PASSWORD st
        = (Ok {["ok" := VBool true]}, st))
  /\ (forall v,
        data !! "order" = Some v ->
        v = VNull \/ (exists b, v = VBool b) \/ (exists z, v = VInt z)
        \/ (exists q, v = VFloat q) ->
        reorder_listings data ADMIN_PASSWORD st = (Raise Internal, st)
        /\ status_code Internal = 500).
Proof.
  unfold reorder_listings, bind, get_default. rewrite verify_admin_ok.
  split; [|split].
  - intros ->. reflexivity.
  - intros s ->. cbn [default from_option id py_iter].
    cbv [or_internal ret]. rewrite reorder_from_miss; [done|].
    intros lid o Hl Ho. apply chars_invalid in Hl. congruence.
  - intros v -> Hv. split; [|reflexivity].
    by destruct Hv as [->|[[b ->]|[[z ->]|[q ->]]]].
Qed.

(** *** The shape of the store is kept *)

Lemma listing_ids_app c1 c2 :
  listing_ids (c1 ++ c2) = listing_ids c1 ++ listing_ids c2.
Proof. apply omap_app. Qed.

Lemma listing_ids_insert i d' c d :
  c !! i = Some d -> doc_oid d' = doc_oid d ->
  listing_ids (<[i := d']> c) = listing_ids c.
Proof.
  revert i. induction c as [|x c IH]; intros [|i] Hi Hd; try done.
  - injection Hi as ->. change (<[0%nat := d']> (d :: c)) with (d' :: c).
    by rewrite !listing_ids_cons, Hd.
  - change (<[S i := d']> (x :: c)) with (x :: <[i := d']> c).
    by rewrite !listing_ids_cons, (IH i Hi Hd).
Qed.

Lemma listing_ids_delete i c :
  listing_ids (delete i c) `sublist_of` listing_ids c.
Proof.
  revert i. induction c as [|x c IH]; intros [|i]; try done.
  - change (delete 0%nat (x :: c)) with c. rewrite listing_ids_cons.
    destruct (doc_oid x); [by apply sublist_cons | done].
  - change (delete (S i) (x :: c)) with (x :: delete i c).
    rewrite !listing_ids_cons.
    destruct (doc_oid x); [by apply sublist_skip | apply IH].
Qed.

Lemma renumbered_wf d d' : renumbered d d' -> listing_wf d -> listing_wf d'.
Proof.
  intros [->|[i ->]]; [done|]. intros (Hid & Hreq & _). split; [|split].
  - by rewrite doc_oid_insert_sortOrder.
  - unfold required_fields in *.
    repeat (apply Forall_cons in Hreq as [? Hreq]).
    repeat (constructor; [by rewrite lookup_insert_ne|]). constructor.
  - right. exists i. apply lookup_insert_eq.
Qed.

Lemma renumbered_oid d d' : renumbered d d' -> doc_oid d' = doc_oid d.
Proof. intros [->|[i ->]]; [done | apply doc_oid_insert_sortOrder]. Qed.

Lemma renumbered_store_wf c c' :
  Forall2 renumbered c c' ->
  Forall listing_wf c /\ ids_unique c ->
  Forall listing_wf c' /\ ids_unique c'.
Proof.
  intros H [Hwf Hu]. split.
  - induction H as [|d d' c c' Hd Hc IH]; [constructor|].
    apply Forall_cons in Hwf as [Hwd Hwf].
    apply ids_unique_tail in Hu.
    constructor; [by eapply renumbered_wf | by apply IH].
  - unfold ids_unique in *.
    assert (listing_ids c' = listing_ids c) as ->; [|done].
    clear Hwf Hu. induction H as [|d d' c c' Hd Hc IH]; [done|].
    by rewrite !listing_ids_cons, (renumbered_oid _ _ Hd), IH.
Qed.

(** An update's fields over a well-formed listing. *)
Lemma updated_wf updates now d :
  listing_wf d ->
  listing_wf (apply_set (<["updatedAt" := VDate now]>
                           (ListingUpdate.provided updates)) d).
Proof.
  intros (Hid & Hreq & Hso).
  assert (forall k, k ∉ "updatedAt" :: ListingUpdate.fields ->
            (<["updatedAt" := VDate now]> (ListingUpdate.provided updates)
               : doc) !! k = None) as Hout.
  { intros k Hk. apply not_elem_of_cons in Hk as [Hk1 Hk2].
    rewrite update_data_lookup, decide_False by done.
    by apply field_outside. }
  split; [|split].
  - rewrite doc_oid_apply_set; [done|]. apply Hout.
    unfold ListingUpdate.fields. rewrite !elem_of_cons, elem_of_nil.
    intros H. repeat destruct H as [H|H]; done.
  - eapply Forall_impl; [exact Hreq|]. intros k Hk. cbv beta in *.
    unfold apply_set. apply lookup_union_is_Some. by right.
  - unfold apply_set. rewrite lookup_union_r; [done|].
    apply stored_lookup_None, Hout.
    unfold ListingUpdate.fields. rewrite !elem_of_cons, elem_of_nil.
    intros H. repeat destruct H as [H|H]; done.
Qed.

Lemma updated_oid updates now d :
  doc_oid (apply_set (<["updatedAt" := VDate now]>
                        (ListingUpdate.provided updates)) d)
  = doc_oid d.
Proof.
  apply doc_oid_apply_set.
  rewrite update_data_lookup, decide_False by discriminate.
  apply field_outside. unfold ListingUpdate.fields.
  rewrite !elem_of_cons, elem_of_nil.
  intros H. repeat destruct H as [H|H]; done.
Qed.

(** The database an update leaves, whatever it answers. *)
Lemma update_listing_state listing_id updates password now st :
  (update_listing listing_id updates password now st).2 = st
  \/ exists i d,
       listings st !! i = Some d
       /\ (update_listing listing_id updates password now st).2
          = Db (<[i := apply_set (<["updatedAt" := VDate now]>
                                    (ListingUpdate.provided updates)) d]>
                  (listings st))
               (site_settings st).
Proof.
  unfold update_listing, bind.
  destruct (decide (password = ADMIN_PASSWORD)) as [->|Hpw];
    [rewrite verify_admin_ok | rewrite verify_admin_wrong by done; by left].
  destruct (ObjectId_is_valid (VStr listing_id)) eqn:Hv; cbn [negb];
    [|by left].
  apply ObjectId_is_valid_true in Hv as [o Ho].
  destruct (bool_decide (ListingUpdate.provided updates = ∅)); [by left|].
  rewrite Ho. cbv [or_internal ret get_db].
  destruct (find_one (has_oid o) (listings st)) as [d|] eqn:Hf.
  - destruct (update_one_match _ (<["updatedAt" := VDate now]>
                                    (ListingUpdate.provided updates))
                _ _ Hf) as (i & Hi & _ & E).
    rewrite E. cbv [put_listings]. cbn [Nat.eqb listings].
    right. exists i, d. split; [done|].
    cbv [raise]. clear Hf E.
    destruct (find_one (has_oid o) (<[i := _]> (listings st))) as [d'|];
      [|reflexivity].
    destruct (listing_to_dict d'); reflexivity.
  - rewrite (update_one_no_match _ _ _ Hf). cbv [put_listings raise].
    cbn [Nat.eqb snd]. left. apply db_eta.
Qed.

(** The database a deletion leaves, whatever it answers. *)
Lemma delete_listing_state listing_id password st :
  (delete_listing listing_id password st).2 = st
  \/ exists i,
       (delete_listing listing_id password st).2
       = Db (delete i (listings st)) (site_settings st).
Proof.
  unfold delete_listing, bind.
  destruct (decide (password = ADMIN_PASSWORD)) as [->|Hpw];
    [rewrite verify_admin_ok | rewrite verify_admin_wrong by done; by left].
  destruct (ObjectId_is_valid (VStr listing_id)) eqn:Hv; cbn [negb];
    [|by left].
  apply ObjectId_is_valid_true in Hv as [o Ho].
  rewrite Ho. cbv [or_internal ret get_db].
  destruct (find_one (has_oid o) (listings st)) as [d|] eqn:Hf.
  - destruct (delete_one_match _ _ _ Hf) as (i & _ & E).
    rewrite E. cbv [put_listings]. cbn [Nat.eqb]. right. by exists i.
  - rewrite (delete_one_no_match _ _ Hf). cbv [put_listings raise].
    cbn [Nat.eqb snd]. left. apply db_eta.
Qed.

(** The database a creation leaves, on a store of well-formed listings. *)
Lemma create_listing_state listing password now new_id st :
  Forall listing_wf (listings st) ->
  (create_listing listing password now new_id st).2 = st
  \/ find_one (has_oid new_id) (listings st) = None
     /\ (create_listing listing password now new_id st).2
        = Db (listings st
                ++ [created_doc listing now new_id
                      (VInt (next_sortOrder (listings st)))])
             (site_settings st).
Proof.
  intros Hwf.
  destruct (decide (password = ADMIN_PASSWORD)) as [->|Hpw].
  2: { left. unfold create_listing, bind.
       by rewrite verify_admin_wrong. }
  rewrite create_listing_unfold.
  pose proof (create_sortOrder _ Hwf) as Hso.
  assert (match find_one_desc (listings st) with
          | Some max_order =>
              if doc_truthy max_order
              then succ_value (get_default max_order "sortOrder" (VInt 0))
              else Some (VInt 0)
          | None => Some (VInt 0)
          end = Some (VInt (next_sortOrder (listings st)))) as ->.
  { destruct (find_one_desc (listings st)) as [m|].
    - destruct Hso as [-> ->]. done.
    - by rewrite Hso. }
  destruct (find_one (has_oid new_id) (listings st)); [by left|].
  right. split; [done|]. cbv zeta. by rewrite created_doc_response.
Qed.

Lemma created_doc_ids listing now new_id so :
  listing_ids [created_doc listing now new_id so] = [new_id].
Proof.
  rewrite listing_ids_cons. unfold doc_oid, created_doc.
  by rewrite lookup_insert_eq.
Qed.

Lemma update_settings_listings data password now st :
  listings (update_settings data password now st).2 = listings st.
Proof.
  unfold update_settings, bind.
  destruct (decide (password = ADMIN_PASSWORD)) as [->|Hpw];
    [rewrite verify_admin_ok | by rewrite verify_admin_wrong].
  cbv [get_db]. destruct (update_one_upsert _ _ _) as [c|];
    cbv [or_internal ret raise put_site_settings]; done.
Qed.

(** X13. Every mutating handler, whatever its input and whether it answers or
    fails, takes a store of well-formed listings with unique identifiers
    to such a store: no request can leave a listing that the listing
    endpoints could not answer. *)
Theorem handlers_keep_the_store_well_formed st :
  store_wf st ->
  (forall listing password now new_id,
      store_wf (create_listing listing password now new_id st).2)
  /\ (forall listing_id updates password now,
        store_wf (update_listing listing_id updates password now st).2)
  /\ (forall listing_id password,
        store_wf (delete_listing listing_id password st).2)
  /\ (forall data password, store_wf (reorder_listings data password st).2)
  /\ (forall data password now,
        store_wf (update_settings data password now st).2).
Proof.
  intros [Hwf Hu]. split; [|split; [|split; [|split]]].
  - intros listing password now new_id.
    destruct (create_listing_state listing password now new_id st Hwf)
      as [-> | [Hf ->]]; [done|].
    split; cbn [listings].
    + apply Forall_app. split; [done|]. constructor; [|constructor].
      apply created_wf.
    + unfold ids_unique. rewrite listing_ids_app, created_doc_ids.
      apply NoDup_app. split; [done|]. split; [|apply NoDup_singleton].
      intros o Ho H%list_elem_of_singleton. subst o.
      apply elem_of_listing_ids in Ho as (d & Hd & Hd').
      apply has_oid_doc_oid in Hd'.
      pose proof (proj1 (find_one_None _ _) Hf d Hd). congruence.
  - intros listing_id updates password now.
    destruct (update_listing_state listing_id updates password now st)
      as [-> | (i & d & Hi & ->)]; [done|].
    split; cbn [listings].
    + apply Forall_insert; [done|]. apply updated_wf.
      by apply (proj1 (Forall_forall _ _) Hwf), list_elem_of_lookup_2 with i.
    + unfold ids_unique.
      by rewrite (listing_ids_insert i _ _ d Hi (updated_oid _ _ _)).
  - intros listing_id password.
    destruct (delete_listing_state listing_id password st)
      as [-> | (i & ->)]; [done|].
    split; cbn [listings].
    + by apply Forall_delete.
    + unfold ids_unique.
      apply (sublist_NoDup _ (listing_ids (listings st)));
        first [exact Hu | apply listing_ids_delete].
  - intros data password.
    destruct (reorder_listings_renumbered data password st) as (c & -> & Hc).
    by apply (renumbered_store_wf _ _ Hc).
  - intros data password now. unfold store_wf.
    by rewrite update_settings_listings.
Qed.

(** *** The answer for a listing *)

(** X14. [listing_to_dict] answers exactly for the documents that hold the
    eight fields it indexes; the fields it reads with a default may be
    missing.  Its answer has the thirteen fields of a listing and no
    other. *)
Theorem listing_to_dict_needs_required_fields d :
  (is_Some (listing_to_dict d)
   <-> Forall (fun k => is_Some (d !! k)) required_fields)
  /\ forall r, listing_to_dict d = Some r ->
               forall k, is_Some (r !! k) <-> k ∈ response_fields.
Proof.
  unfold listing_to_dict, required_fields.
  destruct (d !! "_id") as [v1|] eqn:E1; cbn [mbind option_bind].
  2: { split; [|done]. split; [by intros [? ?]|].
       intros H. apply Forall_cons in H as [[? ?] _]. congruence. }
  destruct (d !! "title") as [v2|] eqn:E2; cbn [mbind option_bind].
  2: { split; [|done]. split; [by intros [? ?]|]. intros H.
       do 1 apply Forall_cons in H as [_ H].
       apply Forall_cons in H as [[? ?] _]. congruence. }
  destruct (d !! "price") as [v3|] eqn:E3; cbn [mbind option_bind].
  2: { split; [|done]. split; [by intros [? ?]|]. intros H.
       do 2 apply Forall_cons in H as [_ H].
       apply Forall_cons in H as [[? ?] _]. congruence. }
  destruct (d !! "status") as [v4|] eqn:E4; cbn [mbind option_bind].
  2: { split; [|done]. split; [by intros [? ?]|]. intros H.
       do 3 apply Forall_cons in H as [_ H].
       apply Forall_cons in H as [[? ?] _]. congruence. }
  destruct (d !! "excerpt") as [v5|] eqn:E5; cbn [mbind option_bind].
  2: { split; [|done]. split; [by intros [? ?]|]. intros H.
       do 4 apply Forall_cons in H as [_ H].
       apply Forall_cons in H as [[? ?] _]. congruence. }
  destruct (d !! "fullText") as [v6|] eqn:E6; cbn [mbind option_bind].
  2: { split; [|done]. split; [by intros [? ?]|]. intros H.
       do 5 apply Forall_cons in H as [_ H].
       apply Forall_cons in H as [[? ?] _]. congruence. }
  destruct (d !! "category") as [v7|] eqn:E7; cbn [mbind option_bind].
  2: { split; [|done]. split; [by intros [? ?]|]. intros H.
       do 6 apply Forall_cons in H as [_ H].
       apply Forall_cons in H as [[? ?] _]. congruence. }
  destruct (d !! "postedDate") as [v8|] eqn:E8; cbn [mbind option_bind].
  2: { split; [|done]. split; [by intros [? ?]|]. intros H.
       do 7 apply Forall_cons in H as [_ H].
       apply Forall_cons in H as [[? ?] _]. congruence. }
  split.
  - split; [|by eexists]. intros _.
    repeat (apply Forall_cons_2; [by eexists|]). apply Forall_nil_2.
  - intros r Hr k.
    pose proof (f_equal (fun o : option doc => default ∅ o) Hr) as Hr'.
    cbn [default from_option id] in Hr'. subst r. clear Hr. split.
    + intros Hk. destruct (decide (k ∈ response_fields)) as [|Hn]; [done|].
      exfalso. rewrite not_elem_of_list_to_map_1 in Hk by exact Hn.
      by destruct Hk.
    + unfold response_fields. intros Hk.
      repeat (apply elem_of_cons in Hk as [->|Hk]; [eexists; reflexivity|]).
      by apply elem_of_nil in Hk.
Qed.

(** *** Start-up *)

Lemma insert_many_ok ds : forall new_ids st,
  length new_ids = length ds ->
  NoDup new_ids ->
  (forall o, o ∈ new_ids -> find_one (has_oid o) (listings st) = None) ->
  insert_many ds new_ids st
  = (Ok tt,
     Db (listings st
           ++ zip_with (fun o d => <["_id" := VOid o]> (stored d))
                new_ids ds)
        (site_settings st)).
Proof.
  induction ds as [|d ds IH]; intros [|o new_ids] st Hlen Hn Hfresh;
    try done.
  - cbn [insert_many zip_with]. by rewrite app_nil_r, db_eta.
  - cbn [insert_many zip_with]. cbv [bind get_db]. unfold insert_one.
    rewrite (proj2 (existsb_find_one _ _)) by (apply Hfresh; by left).
    cbv [or_internal ret put_listings]. apply NoDup_cons in Hn as [Ho Hn].
    rewrite IH; cbn [listings site_settings].
    + by rewrite <- app_assoc.
    + cbn [length] in Hlen. congruence.
    + done.
    + intros o' Ho'. apply find_one_app_None.
      * apply Hfresh. by right.
      * apply find_one_other_id. unfold doc_oid.
        rewrite lookup_insert_eq. intros [= <-]. done.
Qed.

Lemma listing_ids_zip new_ids : forall ds,
  length new_ids = length ds ->
  listing_ids (zip_with (fun o d => <["_id" := VOid o]> (stored d))
                 new_ids ds)
  = new_ids.
Proof.
  induction new_ids as [|o new_ids IH]; intros [|d ds] Hlen; try done.
  cbn [zip_with]. rewrite listing_ids_cons. unfold doc_oid at 1.
  rewrite lookup_insert_eq, IH; [done|]. cbn [length] in Hlen. congruence.
Qed.

Lemma seedable_mock_listings : forallb seedable mock_listings = true.
Proof. vm_compute. reflexivity. Qed.

(** The dates of the fixtures are whole days: the store keeps them. *)
Lemma stored_mock_listings :
  Forall (fun m => stored m = m) mock_listings.
Proof.
  unfold mock_listings. repeat apply Forall_cons_2; [..|apply Forall_nil_2].
  all: vm_compute; reflexivity.
Qed.

Lemma seeded_wf m o t1 t2 :
  seedable m = true ->
  listing_wf (<["_id" := VOid o]>
                (<["updatedAt" := VDate t2]> (<["createdAt" := VDate t1]> m)))
  /\ (<["_id" := VOid o]>
        (<["updatedAt" := VDate t2]> (<["createdAt" := VDate t1]> m)))
     !! "sortOrder" = None.
Proof.
  unfold seedable. rewrite andb_true_iff, forallb_forall.
  intros [Hreq Hso].
  assert (m !! "sortOrder" = None) as Hnone.
  { by destruct (m !! "sortOrder"). }
  assert (forall k,
            k ∈ ["title"; "price"; "status"; "excerpt"; "fullText";
                 "category"; "postedDate"] -> is_Some (m !! k)) as Hm.
  { intros k Hk. apply (bool_decide_eq_true_1 _), Hreq.
    by apply list_elem_of_In. }
  split.
  - split; [|split].
    + unfold doc_oid. rewrite lookup_insert_eq. by eexists.
    + unfold required_fields.
      repeat apply Forall_cons_2; [..|apply Forall_nil_2].
      all: rewrite ?lookup_insert_ne by discriminate.
      all: first
             [ rewrite lookup_insert_eq; by eexists
             | apply Hm;
               repeat first [ apply list_elem_of_here
                            | apply list_elem_of_further ] ].
    + left. by rewrite !lookup_insert_ne by discriminate.
  - by rewrite !lookup_insert_ne by discriminate.
Qed.

(** X15. Start-up seeds an empty collection and no other.  A store that holds
    a listing is left as it is, so a restart seeds nothing twice.  On an
    empty collection, with as many fresh identifiers as fixtures, the
    collection becomes the fixtures in their order, each under its
    identifier, with [createdAt] and [updatedAt] at the two clock
    readings taken for it, cut to the millisecond, and its other fields
    as written: well-formed listings, none of which stores a
    [sortOrder]. *)
Theorem lifespan_seeds_once clock new_ids st :
  (listings st <> [] -> lifespan clock new_ids st = (Ok tt, st))
  /\ (listings st = [] ->
      NoDup new_ids ->
      length new_ids = length mock_listings ->
      exists c,
        lifespan clock new_ids st = (Ok tt, Db c (site_settings st))
        /\ c = zip_with
                 (fun o d => <["_id" := VOid o]> d) new_ids
                 (imap (fun j m =>
                          <["updatedAt" := VDate (ms (clock (2 * j + 1)%nat))]>
                            (<["createdAt" := VDate (ms (clock (2 * j)%nat))]>
                               m))
                       mock_listings)
        /\ listing_ids c = new_ids
        /\ Forall listing_wf c
        /\ Forall (fun d : doc => d !! "sortOrder" = None) c
        /\ forall clock' new_ids',
             lifespan clock' new_ids' (Db c (site_settings st))
             = (Ok tt, Db c (site_settings st))).
Proof.
  unfold lifespan, bind, get_db. split.
  - intros Hne. by destruct (listings st).
  - intros Hnil Hn Hlen. rewrite Hnil. cbn [length Nat.eqb].
    unfold seed_initial_data.
    set (stamped := imap _ mock_listings).
    assert (length new_ids = length stamped) as Hlen'.
    { unfold stamped. by rewrite length_imap. }
    rewrite insert_many_ok; [|done|done|].
    2: { intros o _. by rewrite Hnil. }
    rewrite Hnil. cbn [app].
    assert (forall m, m ∈ mock_listings -> stored m = m) as Hst.
    { intros m Hm.
      by apply (proj1 (Forall_forall _ _) stored_mock_listings). }
    assert (forall m, m ∈ mock_listings -> seedable m = true) as Hseed.
    { intros m Hm. pose proof seedable_mock_listings as H.
      rewrite forallb_forall in H. by apply H, list_elem_of_In. }
    set (c := zip_with _ new_ids stamped).
    set (c' := zip_with _ new_ids (imap _ mock_listings)).
    assert (c = c') as Hcc.
    { apply list_eq. intros j. unfold c, c', stamped.
      rewrite !lookup_zip_with. destruct (new_ids !! j) as [o|]; [|done].
      cbn [mbind option_bind]. rewrite !list_lookup_imap.
      destruct (mock_listings !! j) as [m|] eqn:Hm; [|done].
      cbn [fmap option_fmap option_map mbind option_bind]. do 2 f_equal.
      rewrite !stored_insert. cbn [bson_dates].
      by rewrite (Hst m) by (by eapply list_elem_of_lookup_2). }
    assert (forall j d, c' !! j = Some d ->
              exists o m t1 t2, m ∈ mock_listings
                /\ d = <["_id" := VOid o]>
                         (<["updatedAt" := VDate t2]>
                            (<["createdAt" := VDate t1]> m))) as Hc.
    { intros j d Hj. unfold c' in Hj.
      apply lookup_zip_with_Some in Hj as (o & s & -> & Ho & Hs).
      rewrite list_lookup_imap in Hs.
      apply fmap_Some in Hs as (m & Hm & ->).
      exists o, m. eexists _, _. split; [|done].
      by eapply list_elem_of_lookup_2. }
    exists c. split; [done|]. split; [exact Hcc|].
    split; [|split; [|split]].
    + by apply listing_ids_zip.
    + rewrite Hcc. apply Forall_forall. intros d Hd.
      apply list_elem_of_lookup in Hd as [j Hj].
      destruct (Hc j d Hj) as (o & m & t1 & t2 & Hm & ->).
      by apply seeded_wf, Hseed.
    + rewrite Hcc. apply Forall_forall. intros d Hd.
      apply list_elem_of_lookup in Hd as [j Hj].
      destruct (Hc j d Hj) as (o & m & t1 & t2 & Hm & ->).
      by apply seeded_wf, Hseed.
    + intros now' new_ids'. cbn [listings].
      destruct c as [|d c0] eqn:Ec; [|done].
      exfalso. assert (length c = length new_ids) as Hl.
      { unfold c. rewrite length_zip_with. lia. }
      rewrite Ec, Hlen in Hl. done.
Qed.

(** *** The verification endpoint and the gate *)

Ltac not_unauthorized :=
  intros H; cbn [fst] in H; discriminate H.

Lemma create_listing_authorized listing now new_id st :
  (create_listing listing ADMIN_PASSWORD now new_id st).1
  <> Raise Unauthorized.
Proof.
  rewrite create_listing_unfold.
  destruct (match find_one_desc (listings st) with
            | Some m => _ | None => _ end) as [so|]; [|not_unauthorized].
  destruct (find_one (has_oid new_id) (listings st)); [not_unauthorized|].
  cbv zeta. rewrite created_doc_response. not_unauthorized.
Qed.

Lemma update_listing_authorized listing_id updates now st :
  (update_listing listing_id updates ADMIN_PASSWORD now st).1
  <> Raise Unauthorized.
Proof.
  unfold update_listing, bind. rewrite verify_admin_ok.
  destruct (ObjectId_is_valid (VStr listing_id)) eqn:Hv; cbn [negb];
    [|not_unauthorized].
  apply ObjectId_is_valid_true in Hv as [o Ho].
  destruct (bool_decide (ListingUpdate.provided updates = ∅));
    [not_unauthorized|].
  rewrite Ho. cbv [or_internal ret raise get_db].
  destruct (update_one _ _ _) as [n c]. cbv [put_listings].
  destruct (n =? 0)%nat; [not_unauthorized|]. cbn [listings].
  destruct (find_one (has_oid o) c) as [d|]; [|not_unauthorized].
  destruct (listing_to_dict d); not_unauthorized.
Qed.

Lemma delete_listing_authorized listing_id st :
  (delete_listing listing_id ADMIN_PASSWORD st).1 <> Raise Unauthorized.
Proof.
  unfold delete_listing, bind. rewrite verify_admin_ok.
  destruct (ObjectId_is_valid (VStr listing_id)) eqn:Hv; cbn [negb];
    [|not_unauthorized].
  apply ObjectId_is_valid_true in Hv as [o Ho].
  rewrite Ho. cbv [or_internal ret raise get_db].
  destruct (delete_one _ _) as [n c]. cbv [put_listings].
  destruct (n =? 0)%nat; not_unauthorized.
Qed.

Lemma reorder_listings_authorized data st :
  (reorder_listings data ADMIN_PASSWORD st).1 <> Raise Unauthorized.
Proof.
  unfold reorder_listings, bind. rewrite verify_admin_ok.
  destruct (py_iter _) as [order|]; cbv [or_internal ret raise];
    [|not_unauthorized].
  destruct (reorder_from_ok order 0 st) as (c & -> & _). not_unauthorized.
Qed.

Lemma update_settings_authorized data now st :
  (update_settings data ADMIN_PASSWORD now st).1 <> Raise Unauthorized.
Proof.
  unfold update_settings, bind. rewrite verify_admin_ok. cbv [get_db].
  destruct (update_one_upsert _ _ _) as [c|];
    cbv [or_internal ret raise put_site_settings]; not_unauthorized.
Qed.

(** X5. The verification endpoint tells what the gate of the mutating
    operations will do: with a password it accepts none of them answers
    401, whatever else it answers, and with a password it refuses each of
    them answers 401 and changes nothing. *)
Theorem admin_verify_agrees_with_the_gate auth st :
  let password := AdminAuth.password auth in
  (password = ADMIN_PASSWORD ->
   admin_verify auth st = (Ok {["ok" := VBool true]}, st)
   /\ (forall listing now new_id,
         (create_listing listing password now new_id st).1
         <> Raise Unauthorized)
   /\ (forall listing_id updates now,
         (update_listing listing_id updates password now st).1
         <> Raise Unauthorized)
   /\ (forall listing_id,
         (delete_listing listing_id password st).1 <> Raise Unauthorized)
   /\ (forall data,
         (reorder_listings data password st).1 <> Raise Unauthorized)
   /\ (forall data now,
         (update_settings data password now st).1 <> Raise Unauthorized))
  /\ (password <> ADMIN_PASSWORD ->
      admin_verify auth st = (Raise Unauthorized, st)
      /\ (forall listing now new_id,
            create_listing listing password now new_id st
            = (Raise Unauthorized, st))
      /\ (forall listing_id updates now,
            update_listing listing_id updates password now st
            = (Raise Unauthorized, st))
      /\ (forall listing_id,
            delete_listing listing_id password st = (Raise Unauthorized, st))
      /\ (forall data,
            reorder_listings data password st = (Raise Unauthorized, st))
      /\ (forall data now,
            update_settings data password now st
            = (Raise Unauthorized, st))).
Proof.
  intros password. split.
  - intros Hp. rewrite Hp. split.
    { unfold admin_verify, bind. fold password. rewrite Hp.
      by rewrite verify_admin_ok. }
    split; [intros; apply create_listing_authorized|].
    split; [intros; apply update_listing_authorized|].
    split; [intros; apply delete_listing_authorized|].
    split; [intros; apply reorder_listings_authorized|].
    intros; apply update_settings_authorized.
  - intros Hp.
    split; [|split; [|split; [|split; [|split]]]]; intros;
      unfold admin_verify, create_listing, update_listing, delete_listing,
        reorder_listings, update_settings, bind;
      fold password; by rewrite verify_admin_wrong.
Qed.

End MoreHandlers.

(** * Examples *)

#[local] Existing Instance dev_env.

Lemma listing_wfb_spec d : listing_wfb d = true -> listing_wf d.
Proof.
  unfold listing_wfb. rewrite !andb_true_iff.
  intros [[H1 H2] H3]. split; [|split].
  - exact (bool_decide_eq_true_1 _ H1).
  - apply Forall_forall. intros k Hk.
    rewrite forallb_forall in H2.
    apply (bool_decide_eq_true_1 _). apply H2. by apply list_elem_of_In.
  - destruct (d !! "sortOrder") as [[]|]; try done; eauto.
Qed.

Lemma store_wfb_spec c : forallb listing_wfb c = true -> Forall listing_wf c.
Proof.
  rewrite forallb_forall. intros H. apply Forall_forall. intros d Hd.
  apply listing_wfb_spec, H. by apply list_elem_of_In.
Qed.

Lemma ids_unique_check c :
  bool_decide (NoDup (listing_ids c)) = true -> ids_unique c.
Proof. apply bool_decide_eq_true_1. Qed.

Lemma wrong_password_changes_nothing_witness :
  (forall listing now new_id,
      create_listing listing "guess" now new_id shop
      = (Raise Unauthorized, shop))
  /\ (forall listing_id updates now,
        update_listing listing_id updates "guess" now shop
        = (Raise Unauthorized, shop))
  /\ (forall listing_id,
        delete_listing listing_id "guess" shop = (Raise Unauthorized, shop))
  /\ (forall data,
        reorder_listings data "guess" shop = (Raise Unauthorized, shop))
  /\ (forall data now,
        update_settings data "guess" now shop = (Raise Unauthorized, shop)).
Proof.
  apply (wrong_password_changes_nothing "guess" shop). discriminate.
Defined.

Lemma unknown_id_not_found_witness :
  (get_listing "no-such-id" shop = (Raise NotFound, shop)
   /\ delete_listing "no-such-id" ADMIN_PASSWORD shop
      = (Raise NotFound, shop))
  /\ (let st' := (delete_listing (sample_oid 1) ADMIN_PASSWORD shop).2 in
      delete_listing (sample_oid 1) ADMIN_PASSWORD st'
      = (Raise NotFound, st')
      /\ get_listing (sample_oid 1) st' = (Raise NotFound, st')).
Proof.
  split.
  - apply (proj1 (unknown_id_not_found shop "no-such-id")).
    left. vm_compute. reflexivity.
  - apply (proj2 (unknown_id_not_found shop (sample_oid 1))
             (ids_unique_check (listings shop)
                ltac:(vm_compute; reflexivity))
             (answer (delete_listing (sample_oid 1) ADMIN_PASSWORD shop) ∅)).
    vm_compute. reflexivity.
Defined.


Lemma update_keeps_other_fields_witness :
  let out := update_listing (sample_oid 1) retitle ADMIN_PASSWORD 7 shop in
  length (listings out.2) = length (listings shop)
  /\ site_settings out.2 = site_settings shop
  /\ (forall j k,
        k ∉ "updatedAt" :: ListingUpdate.fields ->
        listings out.2 !! j ≫= (fun d : doc => d !! k)
        = listings shop !! j ≫= (fun d : doc => d !! k))
  /\ Forall (fun k => k ∉ "updatedAt" :: ListingUpdate.fields)
       ["_id"; "createdAt"; "postedDate"; "sortOrder"].
Proof.
  cbv zeta.
  apply (update_keeps_other_fields (sample_oid 1) retitle ADMIN_PASSWORD 7
           shop
           (answer (update_listing (sample_oid 1) retitle ADMIN_PASSWORD 7
                      shop) ∅)).
  vm_compute. reflexivity.
Defined.

Lemma update_applies_provided_fields_witness :
  let out := update_listing (sample_oid 1) retitle ADMIN_PASSWORD 7 shop in
  (forall updates,
      update_listing "no-such-id" updates ADMIN_PASSWORD 7 shop
      = (Raise NotFound, shop))
  /\ update_listing (sample_oid 1) ListingUpdate.empty ADMIN_PASSWORD 7 shop
     = (Raise BadRequest, shop)
  /\ exists o i d d',
       ObjectId (sample_oid 1) = Some o
       /\ find_one (has_oid o) (listings shop) = Some d
       /\ listings shop !! i = Some d
       /\ (forall j d0, (j < i)%nat -> listings shop !! j = Some d0 ->
                        has_oid o d0 = false)
       /\ listings out.2 = <[i := d']> (listings shop)
       /\ site_settings out.2 = site_settings shop
       /\ listing_to_dict d' = Some (answer out ∅)
       /\ forall k,
            d' !! k =
            if decide (k = "updatedAt") then Some (VDate (ms 7))
            else match ListingUpdate.field retitle k with
                 | Some v => Some v
                 | None => d !! k
                 end.
Proof.
  cbv zeta. split; [|split].
  - apply (proj1 (update_applies_provided_fields "no-such-id" 7 shop)).
    vm_compute. reflexivity.
  - apply (proj1 (proj2 (update_applies_provided_fields (sample_oid 1) 7
                           shop))).
    exists (sample_oid 1). vm_compute. reflexivity.
  - apply (proj2 (proj2 (update_applies_provided_fields (sample_oid 1) 7
                           shop))
             retitle ADMIN_PASSWORD).
    vm_compute. reflexivity.
Defined.

Lemma reorder_ignores_unknown_ids_witness :
  reorder_step 0 (VStr (sample_oid 9)) shop = (Ok tt, shop)
  /\ exists st',
       reorder_listings {["order" := VArr [VStr (sample_oid 9)]]}
         ADMIN_PASSWORD shop
       = (Ok {["ok" := VBool true]}, st')
       /\ st' = shop.
Proof.
  destruct reorder_ignores_unknown_ids as [Hstep Hall]. split.
  - apply (Hstep 0 (VStr (sample_oid 9)) (sample_oid 9) shop);
      vm_compute; reflexivity.
  - assert (py_iter (get_default {["order" := VArr [VStr (sample_oid 9)]]}
                       "order" (VArr []))
            = Some [VStr (sample_oid 9)]) as Hit
      by (vm_compute; reflexivity).
    destruct (Hall _ _ shop Hit) as (st' & E & _ & _ & Hsame).
    exists st'. split; [exact E|]. apply Hsame.
    intros lid o Hl Ho. apply list_elem_of_singleton in Hl. subst lid.
    vm_compute in Ho. injection Ho as <-. vm_compute. reflexivity.
Defined.

Lemma list_selects_sorts_caps_witness :
  exists rs,
    get_listings (Some "household") shop = (Ok rs, shop)
    /\ (length rs <= 200)%nat
    /\ forall r, r ∈ rs -> r !! "category" = Some (VStr "household").
Proof.
  destruct (list_selects_sorts_caps (Some "household") shop
              (store_wfb_spec (listings shop)
                 ltac:(vm_compute; reflexivity)))
    as (rs & E & _ & _ & _ & Hlen & _ & Hcat & _).
  exists rs. split; [exact E|]. split; [exact Hlen|].
  intros r Hr. apply (Hcat "household" r eq_refl); [discriminate.. | exact Hr].
Defined.

Lemma reorder_assigns_positions_witness :
  let order := [sample_oid 1; sample_oid 0; sample_oid 2] in
  let st' :=
    Db (map (reordered 0 (VStr <$> order)) (listings shop))
       (site_settings shop) in
  reorder_listings (reorder_body order) ADMIN_PASSWORD shop
  = (Ok {["ok" := VBool true]}, st')
  /\ exists rs,
       get_listings None st' = (Ok rs, st')
       /\ (fun r : doc => r !! "id") <$> rs
          = take 200 ((fun o => Some (VStr o)) <$> order).
Proof.
  intros order st'.
  assert (py_iter (get_default (reorder_body order) "order" (VArr []))
          = Some (VStr <$> order)) as Hit by (vm_compute; reflexivity).
  destruct (reorder_assigns_positions (reorder_body order) (VStr <$> order)
              shop
              (ids_unique_check (listings shop)
                 ltac:(vm_compute; reflexivity))
              Hit)
    as (E & _ & _ & Hfull).
  split; [exact E|].
  apply (Hfull order order eq_refl).
  - repeat constructor.
  - apply (bool_decide_eq_true_1 _). vm_compute. reflexivity.
  - vm_compute. apply perm_swap.
  - apply store_wfb_spec. vm_compute. reflexivity.
Defined.


Lemma settings_get_backfills_defaults_witness :
  exists st' r,
    update_settings {["siteTitle" := VStr "X"]} ADMIN_PASSWORD 7 empty_db
    = (Ok {["ok" := VBool true]}, st')
    /\ listings st' = listings empty_db
    /\ get_settings st' = (Ok r, st')
    /\ r !! "siteTitle" = Some (VStr "X")
    /\ r !! "updatedAt" = Some (VStr (isoformat 7))
    /\ forall k, k <> "siteTitle" -> k <> "updatedAt" ->
                 r !! k = DEFAULT_SETTINGS !! k.
Proof.
  apply (proj2 (settings_get_backfills_defaults empty_db) "X" 7).
  reflexivity.
Defined.

Lemma settings_update_merges_witness :
  update_settings {["visits" := VInt (2 ^ 63)]} ADMIN_PASSWORD 7 empty_db
  = (Raise Internal, empty_db)
  /\ exists c new,
       update_settings {["siteTitle" := VStr "X"]} ADMIN_PASSWORD 7 empty_db
       = (Ok {["ok" := VBool true]}, Db [] c)
       /\ find_one (has_str "_id" "site") c = Some new
       /\ new !! "siteTitle" = Some (VStr "X")
       /\ new !! "updatedAt" = Some (VStr (isoformat 7))
       /\ new !! "_id" = Some (VStr "site").
Proof.
  split.
  - apply (proj1 (settings_update_merges {["visits" := VInt (2 ^ 63)]} 7
                    empty_db
                    (plain_update_singleton "visits" (VInt (2 ^ 63))
                       eq_refl eq_refl))).
    apply (int64_update_false "visits" (VInt (2 ^ 63)));
      vm_compute; reflexivity.
  - destruct (proj2 (settings_update_merges {["siteTitle" := VStr "X"]} 7
                       empty_db
                       (plain_update_singleton "siteTitle" (VStr "X")
                          eq_refl eq_refl)))
      as (c & new & E & Hf & Hk & _).
    + apply int64_update_delete, int64_update_singleton. reflexivity.
    + apply json_body_singleton. reflexivity.
    + left. vm_compute. reflexivity.
    + exists c, new. split; [exact E|]. split; [exact Hf|].
      rewrite !Hk. vm_compute. repeat split; reflexivity.
Defined.

(** An empty update under a malformed identifier is answered with
    NotFound, not with BadRequest: the identifier is checked first. *)
Lemma empty_update_of_malformed_id_is_not_found :
  ListingUpdate.provided ListingUpdate.empty = ∅
  /\ update_listing "no-such-id" ListingUpdate.empty ADMIN_PASSWORD 7 shop
     = (Raise NotFound, shop)
  /\ status_code NotFound = 404
  /\ status_code BadRequest = 400.
Proof. vm_compute. repeat split; reflexivity. Qed.

(** An identifier of 24 characters that holds white space between its
    bytes is well formed for the driver, and names fewer bytes. *)
Example spaced_id_is_well_formed :
  ObjectId "00 00 00 00 00 00 00 00 " = Some "0000000000000000"
  /\ update_listing "00 00 00 00 00 00 00 00 " ListingUpdate.empty
       ADMIN_PASSWORD 7 shop
     = (Raise BadRequest, shop)
  /\ get_listing "00 00 00 00 00 00 00 00 " shop = (Raise NotFound, shop).
Proof. vm_compute. repeat split; reflexivity. Qed.


(** With 201 listings a reorder that submits all their identifiers is
    followed by a listing of 200 of them. *)
Lemma full_reorder_of_201_lists_200 :
  let ids := map sample_oid (seq 0 201) in
  listing_ids (listings (lamps_db 201)) = ids
  /\ match reorder_listings (reorder_body ids) ADMIN_PASSWORD (lamps_db 201)
     with
     | (Ok _, st') =>
         match (get_listings None st').1 with
         | Ok rs =>
             length rs = 200%nat
             /\ length ids = 201%nat
             /\ (fun r : doc => r !! "id") <$> rs
                = take 200 ((fun o => Some (VStr o)) <$> ids)
         | Raise _ => False
         end
     | (Raise _, _) => False
     end.
Proof. vm_compute. repeat split; reflexivity. Qed.

(** An empty category filter selects every listing, none of which has
    the empty category. *)
Lemma empty_category_lists_everything :
  match (get_listings (Some EmptyString) seeded_db).1 with
  | Ok rs =>
      length rs = 5%nat
      /\ forallb (fun r => negb (has_str "category" EmptyString r)) rs = true
  | Raise _ => False
  end.
Proof. vm_compute. split; reflexivity. Qed.

(** A submitted [updatedAt] is not what the store keeps. *)
Lemma submitted_updatedAt_is_overwritten :
  match update_settings {["updatedAt" := VStr "never"]} ADMIN_PASSWORD 7
          empty_db
  with
  | (Ok _, st') =>
      match find_one (has_str "_id" "site") (site_settings st') with
      | Some d =>
          d !! "updatedAt" = Some (VStr (isoformat 7))
          /\ d !! "updatedAt" <> Some (VStr "never")
      | None => False
      end
  | (Raise _, _) => False
  end.
Proof. vm_compute. split; [reflexivity | discriminate]. Qed.

(** ** Examples for the further properties *)

Lemma settings_answer_shape_witness :
  answer (get_settings titled_db) ∅ !! "_id" = None
  /\ forall k, is_Some (DEFAULT_SETTINGS !! k) ->
               is_Some (answer (get_settings titled_db) ∅ !! k).
Proof.
  apply (settings_answer_shape titled_db). vm_compute. reflexivity.
Defined.

Lemma settings_update_reads_back_witness :
  exists st' before after,
    get_settings empty_db = (Ok before, empty_db)
    /\ update_settings {["siteTitle" := VStr "X"]} ADMIN_PASSWORD 7 empty_db
       = (Ok {["ok" := VBool true]}, st')
    /\ get_settings st' = (Ok after, st')
    /\ after !! "siteTitle" = Some (VStr "X")
    /\ after !! "tagline" = before !! "tagline".
Proof.
  destruct (settings_update_reads_back {["siteTitle" := VStr "X"]} 7
              empty_db)
    as (st' & before & after & E1 & E2 & E3 & Hk & _).
  - apply json_body_singleton. reflexivity.
  - apply plain_update_singleton; reflexivity.
  - apply int64_update_delete, int64_update_singleton. reflexivity.
  - left. vm_compute. reflexivity.
  - exists st', before, after. split; [exact E1|]. split; [exact E2|].
    split; [exact E3|]. rewrite !Hk. split; vm_compute; reflexivity.
Defined.

Lemma create_answers_the_submitted_fields_witness :
  let out := create_listing lamp ADMIN_PASSWORD 1007 (sample_oid 9) shop in
  answer out ∅ !! "createdAt" = Some (VStr (isoformat 1000))
  /\ answer out ∅ !! "postedDate" = Some (VStr (isoformat 1000))
  /\ posted_date lamp 1007 = 1007.
Proof.
  cbv zeta.
  destruct (create_answers_the_submitted_fields lamp ADMIN_PASSWORD 1007
              (sample_oid 9) shop
              (answer (create_listing lamp ADMIN_PASSWORD 1007 (sample_oid 9)
                         shop) ∅)
              (create_listing lamp ADMIN_PASSWORD 1007 (sample_oid 9) shop).2)
    as (_ & Hc & Hp & Hnone & _).
  - vm_compute. reflexivity.
  - split; [exact Hc|]. split; [|by apply Hnone].
    rewrite Hp. by rewrite Hnone.
Defined.

Lemma create_then_get_witness :
  let out := create_listing lamp ADMIN_PASSWORD 7 (sample_oid 9) shop in
  answer out ∅ !! "id" = Some (VStr (sample_oid 9))
  /\ get_listing (sample_oid 9) out.2 = (Ok (answer out ∅), out.2).
Proof.
  cbv zeta.
  apply (create_then_get lamp ADMIN_PASSWORD 7 (sample_oid 9) shop);
    vm_compute; reflexivity.
Defined.

Lemma update_then_get_witness :
  let out := update_listing (sample_oid 1) retitle ADMIN_PASSWORD 7 shop in
  get_listing (sample_oid 1) out.2 = (Ok (answer out ∅), out.2).
Proof.
  cbv zeta.
  apply (update_then_get (sample_oid 1) retitle ADMIN_PASSWORD 7 shop).
  vm_compute. reflexivity.
Defined.

Lemma update_of_unknown_listing_witness :
  update_listing "no-such-id" ListingUpdate.empty ADMIN_PASSWORD 7 shop
  = (Raise NotFound, shop)
  /\ update_listing (sample_oid 9) retitle ADMIN_PASSWORD 7 shop
     = (Raise NotFound, shop).
Proof.
  split.
  - apply (proj1 (update_of_unknown_listing "no-such-id" ListingUpdate.empty
                    7 shop)).
    vm_compute. reflexivity.
  - apply (proj2 (update_of_unknown_listing (sample_oid 9) retitle 7 shop)
             (sample_oid 9)).
    + vm_compute. reflexivity.
    + vm_compute. reflexivity.
    + intros H. apply (f_equal (fun m : doc => m !! "title")) in H.
      vm_compute in H. discriminate H.
Defined.

Lemma delete_removes_the_listing_witness :
  exists i,
    listings shop !! i = Some (lamp_doc 1)
    /\ delete_listing (sample_oid 1) ADMIN_PASSWORD shop
       = (Ok (list_to_map
                [("ok", VBool true); ("deleted", VStr (sample_oid 1))]),
          Db (delete i (listings shop)) (site_settings shop))
    /\ (ids_unique (listings shop) ->
        find_one (has_oid (sample_oid 1)) (delete i (listings shop)) = None).
Proof.
  apply (delete_removes_the_listing (sample_oid 1) (sample_oid 1)
           (lamp_doc 1) shop);
    vm_compute; reflexivity.
Defined.

Lemma reorder_touches_only_sortOrder_witness :
  let st' :=
    (reorder_listings (reorder_body [sample_oid 1; sample_oid 0])
       ADMIN_PASSWORD shop).2 in
  site_settings st' = site_settings shop
  /\ length (listings st') = length (listings shop)
  /\ forall j k,
       k <> "sortOrder" ->
       listings st' !! j ≫= (fun d : doc => d !! k)
       = listings shop !! j ≫= (fun d : doc => d !! k).
Proof.
  apply (reorder_touches_only_sortOrder
           (reorder_body [sample_oid 1; sample_oid 0]) ADMIN_PASSWORD shop).
Defined.

Lemma reorder_of_other_bodies_witness :
  reorder_listings ∅ ADMIN_PASSWORD shop = (Ok {["ok" := VBool true]}, shop)
  /\ reorder_listings {["order" := VStr "first"]} ADMIN_PASSWORD shop
     = (Ok {["ok" := VBool true]}, shop)
  /\ reorder_listings {["order" := VInt 3]} ADMIN_PASSWORD shop
     = (Raise Internal, shop).
Proof.
  split; [|split].
  - apply (proj1 (reorder_of_other_bodies ∅ shop)). reflexivity.
  - apply (proj1 (proj2 (reorder_of_other_bodies
                           {["order" := VStr "first"]} shop)) "first").
    vm_compute. reflexivity.
  - apply (proj2 (proj2 (reorder_of_other_bodies
                           {["order" := VInt 3]} shop)) (VInt 3)).
    + vm_compute. reflexivity.
    + right. right. left. by exists 3.
Defined.

Lemma handlers_keep_the_store_well_formed_witness :
  (forall listing password now new_id,
      store_wf (create_listing listing password now new_id shop).2)
  /\ (forall listing_id updates password now,
        store_wf (update_listing listing_id updates password now shop).2)
  /\ (forall listing_id password,
        store_wf (delete_listing listing_id password shop).2)
  /\ (forall data password, store_wf (reorder_listings data password shop).2)
  /\ (forall data password now,
        store_wf (update_settings data password now shop).2).
Proof.
  apply (handlers_keep_the_store_well_formed shop). split.
  - apply store_wfb_spec. vm_compute. reflexivity.
  - apply ids_unique_check. vm_compute. reflexivity.
Defined.

Lemma listing_to_dict_needs_required_fields_witness :
  is_Some (listing_to_dict (lamp_doc 0)).
Proof.
  apply (proj2 (proj1 (listing_to_dict_needs_required_fields (lamp_doc 0)))).
  unfold required_fields.
  repeat (apply Forall_cons_2;
          [apply (bool_decide_eq_true_1 _); vm_compute; reflexivity|]).
  apply Forall_nil_2.
Defined.

Lemma lifespan_seeds_once_witness :
  let new_ids := map sample_oid (seq 1 5) in
  let clock := fun n : nat => 1500 * Z.of_nat n in
  exists c,
    lifespan clock new_ids empty_db = (Ok tt, Db c (site_settings empty_db))
    /\ c = zip_with
             (fun o d => <["_id" := VOid o]> d) new_ids
             (imap (fun j m =>
                      <["updatedAt" := VDate (ms (clock (2 * j + 1)%nat))]>
                        (<["createdAt" := VDate (ms (clock (2 * j)%nat))]>
                           m))
                   mock_listings)
    /\ listing_ids c = new_ids
    /\ Forall listing_wf c
    /\ Forall (fun d : doc => d !! "sortOrder" = None) c
    /\ forall clock' new_ids',
         lifespan clock' new_ids' (Db c (site_settings empty_db))
         = (Ok tt, Db c (site_settings empty_db)).
Proof.
  apply (proj2 (lifespan_seeds_once (fun n : nat => 1500 * Z.of_nat n)
                  (map sample_oid (seq 1 5)) empty_db)).
  - reflexivity.
  - apply (bool_decide_eq_true_1 _). vm_compute. reflexivity.
  - vm_compute. reflexivity.
Defined.

Lemma admin_verify_agrees_with_the_gate_witness :
  admin_verify (AdminAuth.Make "guess") shop = (Raise Unauthorized, shop)
  /\ admin_verify (AdminAuth.Make "changeme") shop
     = (Ok {["ok" := VBool true]}, shop)
  /\ forall listing_id,
       (delete_listing listing_id "changeme" shop).1 <> Raise Unauthorized.
Proof.
  split; [|split].
  - apply (proj2 (admin_verify_agrees_with_the_gate (AdminAuth.Make "guess")
                    shop)).
    discriminate.
  - apply (proj1 (admin_verify_agrees_with_the_gate
                    (AdminAuth.Make "changeme") shop)).
    reflexivity.
  - apply (proj1 (admin_verify_agrees_with_the_gate
                    (AdminAuth.Make "changeme") shop)).
    reflexivity.
Defined.
